(** * AI help-desk backend: a shallow embedding and its verified properties

    The first part follows the layout of [backend/app]:
    - [PyStr], [Regex], [Num], [Float64], [PyList]: the Python strings,
      regular expressions, numbers and lists the services rely on;
    - [Schemas]        [app/models/schemas.py];
    - [Db]             [app/models/database.py] and the SQLAlchemy session;
    - [SessionStore]   [app/database/session_store.py];
    - [Guardrail]      [app/services/guardrail.py];
    - [Escalation]     [app/services/escalation.py];
    - [Tickets]        [app/api/tickets.py];
    - [TierRouting]    [app/services/tier_routing.py];
    - [Sentiment]      [app/services/sentiment.py];
    - [DateTime], [Metrics]  [app/api/metrics.py];
    - [KeywordSearch], [KbConflict], [RagAnswer], [RagGenerate]
                       [app/services/rag_service.py];
    - [Chat]           [app/api/chat.py].
    The second part states and proves the properties.

    Text is modelled by [string]: one [ascii] per code point below 256.
    Every literal of the source (patterns, keywords, status names) is
    plain ASCII. *)

From Stdlib Require Import Bool Arith List String Ascii ZArith NArith QArith Lia.
From Stdlib Require Import Permutation Sorted Lqa DecimalString.
Import ListNotations.
Local Open Scope list_scope.
Local Open Scope string_scope.

(* ------------------------------------------------------------------ *)
(** ** Python strings *)

Module PyStr.

(** [str.lower] on code points below 256: the ASCII capitals and the
    Latin-1 capitals (all of U+00C0..U+00DE but the multiplication sign). *)
Definition lower_char (c : ascii) : ascii :=
  let n := N_of_ascii c in
  if (((65 <=? n) && (n <=? 90)) ||
      ((192 <=? n) && (n <=? 222) && negb (n =? 215)))%N
  then ascii_of_N (n + 32) else c.

Fixpoint lower (s : string) : string :=
  match s with
  | EmptyString => EmptyString
  | String c s' => String (lower_char c) (lower s')
  end.

(** [str.upper].  The sharp s becomes two letters; the micro sign and
    y-diaeresis have capitals above U+00FF and are left in place, which
    never turns them into an ASCII letter either way. *)
Definition upper_char (c : ascii) : string :=
  let n := N_of_ascii c in
  if (((97 <=? n) && (n <=? 122)) ||
      ((224 <=? n) && (n <=? 254) && negb (n =? 247)))%N
  then String (ascii_of_N (n - 32)) EmptyString
  else if (n =? 223)%N then "SS"
  else String c EmptyString.

Fixpoint upper (s : string) : string :=
  match s with
  | EmptyString => EmptyString
  | String c s' => upper_char c ++ upper s'
  end.

(** [sub in s] *)
Fixpoint contains (sub s : string) : bool :=
  prefix sub s ||
  match s with
  | EmptyString => false
  | String _ s' => contains sub s'
  end.

(** [any(k in s for k in keys)] *)
Definition contains_any (keys : list string) (s : string) : bool :=
  existsb (fun k => contains k s) keys.

(** [s.find(sub)], [-1] when absent *)
Fixpoint find_from (i : Z) (sub s : string) : Z :=
  if prefix sub s then i
  else match s with
       | EmptyString => (-1)%Z
       | String _ s' => find_from (i + 1) sub s'
       end.

Definition find (sub s : string) : Z := find_from 0 sub s.

Definition len (s : string) : Z := Z.of_nat (String.length s).

Fixpoint drop (n : nat) (s : string) : string :=
  match n, s with
  | O, _ => s
  | S n', String _ s' => drop n' s'
  | S _, EmptyString => EmptyString
  end.

Fixpoint take (n : nat) (s : string) : string :=
  match n, s with
  | S n', String c s' => String c (take n' s')
  | _, _ => EmptyString
  end.

(** [s[:n]] for a literal [n >= 0] *)
Definition slice_to (n : nat) (s : string) : string := take n s.

(** [s[i:j]] for [0 <= i], [0 <= j] *)
Definition slice (i j : Z) (s : string) : string :=
  take (Z.to_nat (j - i)) (drop (Z.to_nat i) s).

(** [str.isspace] on one code point below 256 *)
Definition is_space (c : ascii) : bool :=
  let n := N_of_ascii c in
  (((9 <=? n) && (n <=? 13)) || ((28 <=? n) && (n <=? 32)) ||
   (n =? 133) || (n =? 160))%N.

Fixpoint lstrip (s : string) : string :=
  match s with
  | String c s' => if is_space c then lstrip s' else s
  | EmptyString => EmptyString
  end.

Fixpoint rev_onto (s acc : string) : string :=
  match s with
  | EmptyString => acc
  | String c s' => rev_onto s' (String c acc)
  end.

Definition rev (s : string) : string := rev_onto s EmptyString.

Definition rstrip (s : string) : string := rev (lstrip (rev s)).

(** [s.strip()] *)
Definition strip (s : string) : string := rstrip (lstrip s).

(** [s.split()]: the maximal runs of non-space characters.  [cur] holds
    the current run, reversed. *)
Fixpoint split_aux (cur : string) (s : string) : list string :=
  match s with
  | EmptyString =>
      match cur with EmptyString => [] | _ => [rev cur] end
  | String c s' =>
      if is_space c
      then match cur with
           | EmptyString => split_aux EmptyString s'
           | _ => rev cur :: split_aux EmptyString s'
           end
      else split_aux (String c cur) s'
  end.

Definition split (s : string) : list string := split_aux EmptyString s.

(** [s.replace(old, new)] for a non-empty [old], as at every call site:
    scan from the left, replacing each occurrence and resuming after it.
    [skip] counts the characters of a matched occurrence still to drop. *)
Fixpoint replace_aux (old new : string) (skip : nat) (s : string) : string :=
  match s with
  | EmptyString => EmptyString
  | String c s' =>
      match skip with
      | S k => replace_aux old new k s'
      | O =>
          if prefix old s
          then new ++ replace_aux old new (String.length old - 1) s'
          else String c (replace_aux old new 0 s')
      end
  end.

Definition replace (old new s : string) : string := replace_aux old new 0 s.

(** [sep.join(words)] *)
Fixpoint join (sep : string) (ws : list string) : string :=
  match ws with
  | [] => EmptyString
  | [w] => w
  | w :: rest => w ++ sep ++ join sep rest
  end.

(** [s.startswith(p)], [s.endswith(p)] *)
Definition startswith (p s : string) : bool := prefix p s.
Definition endswith (p s : string) : bool := prefix (rev p) (rev s).

(** [s.capitalize()]: the first character in title case, the rest in
    lower case.  Below 256 the title case is the upper case but for the
    sharp s, which becomes "Ss". *)
Definition title_char (c : ascii) : string :=
  if (N_of_ascii c =? 223)%N then "Ss" else upper_char c.

Definition capitalize (s : string) : string :=
  match s with
  | EmptyString => EmptyString
  | String c s' => title_char c ++ lower s'
  end.

(** [x in xs] for a list of strings *)
Definition mem (x : string) (xs : list string) : bool :=
  existsb (String.eqb x) xs.

Definition nl : string := String (ascii_of_nat 10) EmptyString.
Definition cr : string := String (ascii_of_nat 13) EmptyString.

(** [bool(s)] *)
Definition truthy (s : string) : bool :=
  match s with EmptyString => false | _ => true end.

End PyStr.

(* ------------------------------------------------------------------ *)
(** ** Regular expressions

  The patterns of the services are built from literals, [.*] and one
  non-capturing alternation.  [run r s] lists the suffixes of [s] left
  after each way [r] can match a prefix of [s]; [.] matches any
  character but a line feed (no [DOTALL]). *)

Module Regex.
Import PyStr.

Inductive re : Type :=
| Lit (s : string)
| DotStar
| Cat (r1 r2 : re)
| Alt (r1 r2 : re).

Definition is_newline (c : ascii) : bool := (N_of_ascii c =? 10)%N.

Fixpoint dot_star (s : string) : list string :=
  s :: match s with
       | String c s' => if is_newline c then [] else dot_star s'
       | EmptyString => []
       end.

Fixpoint run (r : re) (s : string) : list string :=
  match r with
  | Lit l => if prefix l s then [drop (String.length l) s] else []
  | DotStar => dot_star s
  | Cat r1 r2 => flat_map (run r2) (run r1 s)
  | Alt r1 r2 => run r1 s ++ run r2 s
  end%list.

Definition match_at (r : re) (s : string) : bool :=
  match run r s with [] => false | _ => true end.

(** [re.search(r, s)] as a truth value *)
Fixpoint search (r : re) (s : string) : bool :=
  match_at r s ||
  match s with
  | EmptyString => false
  | String _ s' => search r s'
  end.

(** A text without line feed, which [.*] can cross *)
Fixpoint one_line (s : string) : bool :=
  match s with
  | EmptyString => true
  | String c s' => negb (is_newline c) && one_line s'
  end.

(** [w1.*w2.* ... .*wn] *)
Fixpoint gap (ws : list string) : re :=
  match ws with
  | [] => Lit EmptyString
  | [w] => Lit w
  | w :: rest => Cat (Lit w) (Cat DotStar (gap rest))
  end.

(** [(?:r1|r2|...|rn)] *)
Fixpoint alts (rs : list re) : re :=
  match rs with
  | [] => Lit EmptyString
  | [r] => r
  | r :: rest => Alt r (alts rest)
  end.

End Regex.

(* ------------------------------------------------------------------ *)
(** ** [app/models/schemas.py] *)

Module Schemas.

Inductive Tier := TIER_1 | TIER_2 | TIER_3.
Inductive Severity := LOW | MEDIUM | HIGH | CRITICAL.
Inductive TicketStatus := NEW | IN_PROGRESS | RESOLVED | CLOSED.

Definition Tier_value (t : Tier) : string :=
  match t with TIER_1 => "TIER_1" | TIER_2 => "TIER_2" | TIER_3 => "TIER_3" end.

Definition Severity_value (s : Severity) : string :=
  match s with
  | LOW => "LOW" | MEDIUM => "MEDIUM" | HIGH => "HIGH" | CRITICAL => "CRITICAL"
  end.

Definition TicketStatus_value (s : TicketStatus) : string :=
  match s with
  | NEW => "NEW" | IN_PROGRESS => "IN_PROGRESS"
  | RESOLVED => "RESOLVED" | CLOSED => "CLOSED"
  end.

(** [TicketStatus(v)]: lookup by value, [None] for [ValueError] *)
Definition TicketStatus_of_value (v : string) : option TicketStatus :=
  if String.eqb v "NEW" then Some NEW
  else if String.eqb v "IN_PROGRESS" then Some IN_PROGRESS
  else if String.eqb v "RESOLVED" then Some RESOLVED
  else if String.eqb v "CLOSED" then Some CLOSED
  else None.

Definition Tier_eqb (a b : Tier) : bool :=
  match a, b with
  | TIER_1, TIER_1 | TIER_2, TIER_2 | TIER_3, TIER_3 => true
  | _, _ => false
  end.

Definition Severity_eqb (a b : Severity) : bool :=
  match a, b with
  | LOW, LOW | MEDIUM, MEDIUM | HIGH, HIGH | CRITICAL, CRITICAL => true
  | _, _ => false
  end.

End Schemas.

(* ------------------------------------------------------------------ *)
(** ** Numbers

    The confidence and sentiment scores are Python floats.  They are only
    compared with decimal constants and combined by [min], [max] and a few
    sums of such constants, none of which lands on a threshold, so the
    model takes them as rationals. *)

Module Num.

Definition Qltb (a b : Q) : bool := negb (Qle_bool b a).
Definition Qgtb (a b : Q) : bool := Qltb b a.
Definition Qgeb (a b : Q) : bool := Qle_bool b a.

(** [min(a, b)] and [max(a, b)]: the first argument wins a tie *)
Definition qmin (a b : Q) : Q := if Qltb b a then b else a.
Definition qmax (a b : Q) : Q := if Qltb a b then b else a.

End Num.

(* ------------------------------------------------------------------ *)
(** ** Python floats

    A [float] is an IEEE 754 double.  A finite one is held as the
    rational it denotes; arithmetic rounds to the nearest double, ties
    to even, and leaves the finite range to an infinity.  The scoring
    that uses these floats multiplies by 100 and adds integers, which
    never gives a NaN.  Where a float of the data is held as a rational
    that no double denotes, the double nearest to it is meant. *)

Module Float64.
Import Num.
Local Open Scope Z_scope.

Inductive float : Type :=
| Finite (q : Q)
| Infinity (negative : bool).

(** A Python number: an [int] or a [float] *)
Inductive number : Type :=
| NInt (n : Z)
| NFloat (x : float).

(** [floor(log2(n/d))] for positive [n] and [d] *)
Definition ilog2 (n d : Z) : Z :=
  let l := Z.log2 n - Z.log2 d in
  if d * 2 ^ Z.max l 0 <=? n * 2 ^ Z.max (- l) 0 then l else l - 1.

(** The integer nearest to [n/d], the even one of two *)
Definition nearest_even (n d : Z) : Z :=
  let q := n / d in
  match 2 * (n mod d) ?= d with
  | Lt => q
  | Gt => q + 1
  | Eq => if Z.even q then q else q + 1
  end.

(** The double nearest to a rational: 53 significant bits, the last
    place no finer than 2^-1074, an infinity from 2^1024 on. *)
Definition round (x : Q) : float :=
  let x := Qred x in
  let n := Z.abs (Qnum x) in
  let d := Z.pos (Qden x) in
  if n =? 0 then Finite 0
  else
    let e := Z.max (ilog2 n d - 52) (-1074) in
    let m := nearest_even (n * 2 ^ Z.max (- e) 0) (d * 2 ^ Z.max e 0) in
    if (0 <=? e) && (2 ^ 1024 <=? m * 2 ^ e) then Infinity (Qnum x <? 0)
    else Finite (Qred (Qmake (Z.sgn (Qnum x) * m * 2 ^ Z.max e 0)
                             (Z.to_pos (2 ^ Z.max (- e) 0)))).

(** [float(n)] for an [int]: [None] is the OverflowError of an [int]
    beyond the finite floats. *)
Definition of_int (n : Z) : option float :=
  match round (inject_Z n) with
  | Finite q => Some (Finite q)
  | Infinity _ => None
  end.

(** [x * 100] *)
Definition times_100 (x : number) : number :=
  match x with
  | NInt n => NInt (n * 100)
  | NFloat (Finite q) => NFloat (round (q * 100))
  | NFloat (Infinity negative) => NFloat (Infinity negative)
  end.

(** [x + k] for an [int] [k] that a float holds exactly, as are 0, 10,
    50 and a year *)
Definition plus_int (x : number) (k : Z) : number :=
  match x with
  | NInt n => NInt (n + k)
  | NFloat (Finite q) => NFloat (round (q + inject_Z k))
  | NFloat (Infinity negative) => NFloat (Infinity negative)
  end.

(** The value of a number on the extended line; an [int] counts by its
    exact value in a comparison. *)
Definition exact (x : number) : float :=
  match x with
  | NInt n => Finite (inject_Z n)
  | NFloat f => f
  end.

(** [x > y] *)
Definition gt (x y : number) : bool :=
  match exact x, exact y with
  | Finite a, Finite b => Qltb b a
  | Finite _, Infinity negative => negative
  | Infinity negative, Finite _ => negb negative
  | Infinity negative, Infinity negative' => negb negative && negative'
  end.

End Float64.

(* ------------------------------------------------------------------ *)
(** ** Lists *)

Module PyList.

(** [l.sort(key=key, reverse=True)]: descending by key, and stable, so
    entries of equal key keep their order. *)
Fixpoint insert_desc {A : Type} (key : A -> Z) (x : A) (l : list A) : list A :=
  match l with
  | [] => [x]
  | y :: rest =>
      if (key y <=? key x)%Z then x :: y :: rest
      else y :: insert_desc key x rest
  end.

Fixpoint sort_desc {A : Type} (key : A -> Z) (l : list A) : list A :=
  match l with
  | [] => []
  | x :: rest => insert_desc key x (sort_desc key rest)
  end.

(** [x] may stand before [y] in a list that descends by [key]. *)
Definition desc {A : Type} (key : A -> Z) (x y : A) : Prop := (key y <= key x)%Z.

(** [l[:k]] for any integer [k]: a negative [k] counts from the end. *)
Definition slice_to {A : Type} (k : Z) (l : list A) : list A :=
  if (k <? 0)%Z then firstn (List.length l - Z.to_nat (- k)) l
  else firstn (Z.to_nat k) l.

(** [l[-k:]] for a literal [k > 0] *)
Definition last_n {A : Type} (k : nat) (l : list A) : list A :=
  skipn (List.length l - k) l.

End PyList.

(* ------------------------------------------------------------------ *)
(** ** [app/models/database.py] and the SQLAlchemy session

    A session is modelled by two copies of the tables: [stored], what the
    database holds, and [view], what the session sees, its pending writes
    included.  [commit] makes the view durable unless the database fails,
    [rollback] discards the pending writes.  Failures are scheduled by
    [faults]: each commit consumes one entry, and [Some msg] makes that
    commit raise with the message [msg].  Identifiers come from a counter
    ([uuid.uuid4] never repeats) and [datetime.utcnow] from a clock that
    advances with every reading; times are microseconds since the epoch.
    A row receives its identifier and creation time when it is added to
    the session; no operation reads them before the commit. *)

Module Db.
Import PyStr.

Record Conversation := {
  conv_id : string;
  conv_session_id : string;
  conv_user_role : string;
  conv_message_count : Z;
  conv_created_at : Z;
  conv_updated_at : Z
}.

Record Message := {
  msg_id : string;
  msg_conversation_id : string;
  msg_role : string;
  msg_content : string;
  msg_confidence : option Q;
  msg_tier : option string;
  msg_severity : option string;
  msg_kb_references : list string;
  msg_guardrail_blocked : bool;
  msg_guardrail_reason : option string;
  msg_created_at : Z
}.

Record Ticket := {
  ticket_id : string;
  ticket_conversation_id : string;
  ticket_session_id : string;
  ticket_subject : string;
  ticket_description : string;
  ticket_tier : string;
  ticket_severity : string;
  ticket_status : string;
  ticket_user_role : string;
  ticket_created_at : Z;
  ticket_updated_at : Z
}.

Record GuardrailEvent := {
  event_id : string;
  event_session_id : string;
  event_blocked : bool;
  event_reason : option string;
  event_message_content : string;
  event_user_role : string;
  event_created_at : Z
}.

(** A value of a JSON column or of a retrieved chunk: a scalar, or a
    dictionary of scalars. *)
Inductive scalar :=
| SNone
| SStr (s : string)
| SInt (n : Z)
| SFloat (q : Q).

Inductive value :=
| Scalar (v : scalar)
| Dict (d : list (string * scalar)).

Record KBChunk := {
  chunk_id : string;
  chunk_kb_id : string;
  chunk_title : string;
  chunk_content : string;
  chunk_index : Z;
  chunk_category : option string;
  chunk_source : option string;
  chunk_extra_metadata : value;
  chunk_created_at : Z
}.

Record Tables := {
  conversations : list Conversation;
  messages : list Message;
  tickets : list Ticket;
  guardrail_events : list GuardrailEvent
}.

Record Session := {
  stored : Tables;
  view : Tables;
  faults : list (option string);
  uuids : N;
  clock : Z
}.

Definition empty_tables : Tables :=
  {| conversations := []; messages := []; tickets := []; guardrail_events := [] |}.

(** A fresh session on the given tables. *)
Definition open_session (t : Tables) (fs : list (option string)) (ids : N) (now : Z)
  : Session :=
  {| stored := t; view := t; faults := fs; uuids := ids; clock := now |}.

Inductive exn :=
| HTTPException (status_code : Z) (detail : string)
| SQLAlchemyError (message : string)
| ValidationError (message : string)
| OverflowError (message : string).

(** [str(e)] *)
Definition exn_str (e : exn) : string :=
  match e with
  | HTTPException code detail => detail
  | SQLAlchemyError message => message
  | ValidationError message => message
  | OverflowError message => message
  end.

Inductive outcome (A : Type) :=
| Return (a : A)
| Raise (e : exn).
Arguments Return {A} a.
Arguments Raise {A} e.

Definition M (A : Type) : Type := Session -> outcome A * Session.

Definition ret {A} (a : A) : M A := fun s => (Return a, s).
Definition raise {A} (e : exn) : M A := fun s => (Raise e, s).
Definition bind {A B} (c : M A) (k : A -> M B) : M B :=
  fun s => match c s with
           | (Return a, s') => k a s'
           | (Raise e, s') => (Raise e, s')
           end.

(** [try: body  except Exception as e: handler(e)] *)
Definition try_except {A} (body : M A) (handler : exn -> M A) : M A :=
  fun s => match body s with
           | (Return a, s') => (Return a, s')
           | (Raise e, s') => handler e s'
           end.

Definition is_HTTPException (e : exn) : bool :=
  match e with HTTPException _ _ => true | _ => false end.

Declare Scope db_scope.
Delimit Scope db_scope with db.
Notation "x <- c ;; k" := (bind c (fun x => k))
  (at level 61, c at next level, right associativity) : db_scope.
Notation "c ;;; k" := (bind c (fun _ => k))
  (at level 61, right associativity) : db_scope.
Local Open Scope db_scope.

Definition get_view : M Tables := fun s => (Return (view s), s).

Definition set_view (t : Tables) : M unit :=
  fun s => (Return tt,
            {| stored := stored s; view := t; faults := faults s;
               uuids := uuids s; clock := clock s |}).

(** [db.commit()] *)
Definition commit : M unit :=
  fun s =>
    match faults s with
    | Some message :: rest =>
        (Raise (SQLAlchemyError message),
         {| stored := stored s; view := view s; faults := rest;
            uuids := uuids s; clock := clock s |})
    | None :: rest =>
        (Return tt,
         {| stored := view s; view := view s; faults := rest;
            uuids := uuids s; clock := clock s |})
    | [] =>
        (Return tt,
         {| stored := view s; view := view s; faults := [];
            uuids := uuids s; clock := clock s |})
    end.

(** The database accepts the next commit. *)
Definition next_commit_succeeds (s : Session) : Prop :=
  match faults s with Some _ :: _ => False | _ => True end.

(** [db.rollback()] *)
Definition rollback : M unit :=
  fun s => (Return tt,
            {| stored := stored s; view := stored s; faults := faults s;
               uuids := uuids s; clock := clock s |}).

Definition hex_digit (n : N) : ascii :=
  ascii_of_N (if (n <? 10)%N then 48 + n else 87 + n).

Fixpoint hex (digits : nat) (n : N) (acc : string) : string :=
  match digits with
  | O => acc
  | S d => hex d (n / 16) (String (hex_digit (n mod 16)) acc)
  end.

(** [str(uuid.uuid4())]: the 36-character layout, numbered by the counter *)
Definition render_uuid (n : N) : string :=
  "00000000-0000-4000-8000-" ++ hex 12 n EmptyString.

Definition uuid4 : M string :=
  fun s => (Return (render_uuid (uuids s)),
            {| stored := stored s; view := view s; faults := faults s;
               uuids := (uuids s + 1)%N; clock := clock s |}).

(** [datetime.utcnow()] *)
Definition utcnow : M Z :=
  fun s => (Return (clock s),
            {| stored := stored s; view := view s; faults := faults s;
               uuids := uuids s; clock := (clock s + 1)%Z |}).

Definition add_conversation (c : Conversation) : M unit :=
  t <- get_view ;;
  set_view {| conversations := conversations t ++ [c]; messages := messages t;
              tickets := tickets t; guardrail_events := guardrail_events t |}%list.

Definition add_message_row (m : Message) : M unit :=
  t <- get_view ;;
  set_view {| conversations := conversations t; messages := messages t ++ [m];
              tickets := tickets t; guardrail_events := guardrail_events t |}%list.

Definition add_ticket (k : Ticket) : M unit :=
  t <- get_view ;;
  set_view {| conversations := conversations t; messages := messages t;
              tickets := tickets t ++ [k]; guardrail_events := guardrail_events t |}%list.

Definition add_guardrail_event (e : GuardrailEvent) : M unit :=
  t <- get_view ;;
  set_view {| conversations := conversations t; messages := messages t;
              tickets := tickets t; guardrail_events := guardrail_events t ++ [e] |}%list.

(** Rewrite the rows of a table that satisfy [p]. *)
Definition update_where {A} (p : A -> bool) (f : A -> A) (rows : list A) : list A :=
  map (fun r => if p r then f r else r) rows.

Definition set_conversations (cs : list Conversation) : M unit :=
  t <- get_view ;;
  set_view {| conversations := cs; messages := messages t;
              tickets := tickets t; guardrail_events := guardrail_events t |}.

Definition set_tickets (ks : list Ticket) : M unit :=
  t <- get_view ;;
  set_view {| conversations := conversations t; messages := messages t;
              tickets := ks; guardrail_events := guardrail_events t |}.

(** [ticket.status = status]: the row is rewritten, and [updated_at]
    refreshed by its [onupdate] default, when the value changes. *)
Definition with_status (status : string) (now : Z) (k : Ticket) : Ticket :=
  if String.eqb (ticket_status k) status then k else
  {| ticket_id := ticket_id k;
     ticket_conversation_id := ticket_conversation_id k;
     ticket_session_id := ticket_session_id k;
     ticket_subject := ticket_subject k;
     ticket_description := ticket_description k;
     ticket_tier := ticket_tier k;
     ticket_severity := ticket_severity k;
     ticket_status := status;
     ticket_user_role := ticket_user_role k;
     ticket_created_at := ticket_created_at k;
     ticket_updated_at := now |}.

End Db.

(* ------------------------------------------------------------------ *)
(** ** [app/database/session_store.py] *)

Module SessionStore.
Import PyStr PyList Db.
Local Open Scope db_scope.

Record HistoryEntry := { h_role : string; h_content : string }.

(** [db.query(Conversation).filter(session_id == ...).first()] *)
Definition conversation_by_session (session_id : string) : M (option Conversation) :=
  t <- get_view ;;
  ret (List.find (fun c => String.eqb (conv_session_id c) session_id) (conversations t)).

Definition get_or_create_conversation (session_id user_role : string) : M Conversation :=
  found <- conversation_by_session session_id ;;
  match found with
  | Some conversation => ret conversation
  | None =>
      id <- uuid4 ;;
      now <- utcnow ;;
      let conversation :=
        {| conv_id := id; conv_session_id := session_id; conv_user_role := user_role;
           conv_message_count := 0; conv_created_at := now; conv_updated_at := now |} in
      add_conversation conversation ;;;
      commit ;;;
      ret conversation
  end.

Definition touch (now : Z) (c : Conversation) : Conversation :=
  {| conv_id := conv_id c; conv_session_id := conv_session_id c;
     conv_user_role := conv_user_role c;
     conv_message_count := conv_message_count c + 1;
     conv_created_at := conv_created_at c; conv_updated_at := now |}.

(** [add_message(..., db=db)] with the caller's session *)
Definition add_message
    (conversation_id role content : string)
    (confidence : option Q) (tier severity : option string)
    (kb_references : list string)
    (guardrail_blocked : bool) (guardrail_reason : option string) : M Message :=
  id <- uuid4 ;;
  created <- utcnow ;;
  let message :=
    {| msg_id := id; msg_conversation_id := conversation_id; msg_role := role;
       msg_content := content; msg_confidence := confidence; msg_tier := tier;
       msg_severity := severity; msg_kb_references := kb_references;
       msg_guardrail_blocked := guardrail_blocked;
       msg_guardrail_reason := guardrail_reason; msg_created_at := created |} in
  add_message_row message ;;;
  (* Update conversation message count *)
  t <- get_view ;;
  let is_it := fun c => String.eqb (conv_id c) conversation_id in
  match List.find is_it (conversations t) with
  | Some conversation =>
      now <- utcnow ;;
      set_conversations
        (update_where (fun c => String.eqb (conv_id c) (conv_id conversation))
                      (touch now) (conversations t))
  | None => ret tt
  end ;;;
  commit ;;;
  ret message.

(** [get_conversation_history(session_id, limit, db)]: the [limit] most
    recent messages of the session's conversation, oldest first.  Rows of
    equal creation time come in table order. *)
Definition get_conversation_history (session_id : string) (limit : nat)
  : M (list HistoryEntry) :=
  found <- conversation_by_session session_id ;;
  match found with
  | None => ret []
  | Some conversation =>
      t <- get_view ;;
      let mine := filter (fun m => String.eqb (msg_conversation_id m) (conv_id conversation))
                         (messages t) in
      let recent := firstn limit (sort_desc msg_created_at mine) in
      ret (map (fun m => {| h_role := msg_role m; h_content := msg_content m |})
               (List.rev recent))
  end.

End SessionStore.

(* ------------------------------------------------------------------ *)
(** ** [app/services/guardrail.py]: the pattern check *)

Module Guardrail.
Import PyStr Regex.

(** Blocked patterns - unsafe requests *)
Definition BLOCKED_PATTERNS : list (re * string) :=
  [ (* Host machine access *)
    (gap ["access"; "host"; "machine"], "Request to access host machine is not allowed");
    (gap ["host"; "machine"; "access"], "Request to access host machine is not allowed");
    (gap ["behind"; "vm"], "Accessing host machine behind VM is not allowed");
    (gap ["hypervisor"; "setting"], "Modifying hypervisor settings is not allowed");
    (gap ["hypervisor"; "config"], "Modifying hypervisor settings is not allowed");
    (* Logging disable *)
    (gap ["disable"; "log"], "Disabling logging is not allowed");
    (gap ["turn"; "off"; "log"], "Disabling logging is not allowed");
    (gap ["stop"; "log"], "Disabling logging is not allowed");
    (gap ["quiet"; "mode"], "Disabling logging is not allowed");
    (* Destructive actions *)
    (gap ["reset"; "all"; "environment"],
     "Resetting all environments is a destructive action and not allowed");
    (gap ["delete"; "all"; "user"], "Deleting all user data is not allowed");
    (gap ["wipe"; "all"], "Wiping all data is not allowed");
    (gap ["format"; "all"], "Formatting all drives is not allowed");
    (* System file editing *)
    (Lit "/etc/hosts", "Editing /etc/hosts file is not allowed");
    (gap ["edit"; "hosts"; "file"], "Editing hosts file is not allowed");
    (gap ["modify"; "hosts"], "Modifying hosts file is not allowed");
    (* Kernel-level operations *)
    (Cat (Lit "kernel") (Cat DotStar (Cat (Lit "panic") (Cat DotStar
       (alts [Lit "fix"; Lit "debug"; Lit "repair"; Lit "modify";
              Lit "command"; gap ["how"; "to"; "fix"]])))),
     "Kernel panic debugging requires specialized support");
    (gap ["kernel"; "debug"], "Kernel-level debugging is not allowed");
    (gap ["kernel"; "config"], "Kernel configuration changes are not allowed");
    (gap ["how"; "to"; "fix"; "kernel"; "panic"],
     "Kernel panic debugging requires specialized support");
    (* Unauthorized system access *)
    (gap ["root"; "access"], "Root access requests are not allowed");
    (gap ["sudo"; "privilege"], "Elevated privilege requests are not allowed");
    (gap ["admin"; "override"], "Admin override requests are not allowed");
    (* Override escalation attempts *)
    (gap ["don"; "t"; "escalate"], "Escalation rules cannot be overridden");
    (gap ["don't"; "escalate"], "Escalation rules cannot be overridden");
    (gap ["no"; "escalation"], "Escalation rules cannot be overridden");
    (gap ["skip"; "escalation"], "Escalation rules cannot be overridden")
  ].

Definition admin_keywords : list re :=
  [ gap ["system"; "config"];
    gap ["database"; "access"];
    gap ["backup"; "restore"];
    gap ["security"; "policy"] ].

(** The [for pattern, reason in BLOCKED_PATTERNS] loop: the reason of
    the first pattern found in the message. *)
Fixpoint first_blocked (rules : list (re * string)) (message_lower : string)
  : option string :=
  match rules with
  | [] => None
  | (pattern, reason) :: rest =>
      if search pattern message_lower then Some reason
      else first_blocked rest message_lower
  end.

(** [check_guardrail(message, user_role) -> (blocked, reason)].  The
    message is lowered before matching and every pattern is lower-case
    ASCII, so on text of code points below 256 [re.IGNORECASE] changes
    nothing: of the characters the flag folds onto an ASCII letter only
    the capitals lie below 256, and the lowered message has none.  (The
    others, U+017F for s, U+0131 for i and U+212A for k, are outside
    the text modelled here.) *)
Definition check_guardrail (message user_role : string) : bool * option string :=
  let message_lower := lower message in
  match first_blocked BLOCKED_PATTERNS message_lower with
  | Some reason => (true, Some reason)
  | None =>
      if negb (mem (lower user_role) ["admin"; "support_engineer"])
      then
        if existsb (fun pattern => search pattern message_lower) admin_keywords
        then (true, Some "This operation requires administrator privileges")
        else (false, None)
      else (false, None)
  end.

(** Some pattern of [BLOCKED_PATTERNS] (rules 1-7) is found. *)
Definition unsafe_operation (message : string) : bool :=
  existsb (fun rule => search (fst rule) (lower message)) BLOCKED_PATTERNS.

Definition role_exempt (user_role : string) : bool :=
  mem (lower user_role) ["admin"; "support_engineer"].

(** [log_guardrail_event(session_id, blocked, reason, message_content,
    user_role, db)]: the event is added and committed; on any exception
    the error is logged and the session rolled back. *)
Definition log_guardrail_event
    (session_id : string) (blocked : bool) (reason : option string)
    (message_content user_role : string) : Db.M unit :=
  Db.try_except
    (Db.bind Db.uuid4 (fun id =>
     Db.bind Db.utcnow (fun now =>
     let event :=
       {| Db.event_id := id;
          Db.event_session_id := session_id;
          Db.event_blocked := blocked;
          Db.event_reason := reason;
          Db.event_message_content := PyStr.slice_to 500 message_content;
          Db.event_user_role := user_role;
          Db.event_created_at := now |} in
     Db.bind (Db.add_guardrail_event event) (fun _ =>
     Db.commit))))
    (fun e => Db.rollback).

End Guardrail.

(* ------------------------------------------------------------------ *)
(** ** [app/services/escalation.py] *)

Module Escalation.
Import PyStr PyList Schemas Num Db SessionStore.
Local Open Scope db_scope.

(** [create_ticket]: the ticket is added with status NEW and committed;
    on any exception the session is rolled back and the exception raised
    again. *)
Definition create_ticket
    (session_id conversation_id subject description : string)
    (tier : Tier) (severity : Severity) (user_role : string) : M Ticket :=
  try_except
    (id <- uuid4 ;;
     now <- utcnow ;;
     let ticket :=
       {| ticket_id := id;
          ticket_conversation_id := conversation_id;
          ticket_session_id := session_id;
          ticket_subject := subject;
          ticket_description := description;
          ticket_tier := Tier_value tier;
          ticket_severity := Severity_value severity;
          ticket_status := TicketStatus_value NEW;
          ticket_user_role := user_role;
          ticket_created_at := now;
          ticket_updated_at := now |} in
     add_ticket ticket ;;;
     commit ;;;
     ret ticket)
    (fun e => rollback ;;; raise e).

(** The alternative escalation policy; the chat endpoint does not call it. *)
Definition should_escalate
    (tier : Tier) (severity : Severity) (kb_match_confidence sentiment_score : Q)
    (unresolved_attempts : Z) (guardrail_blocked : bool) : bool :=
  if guardrail_blocked then true
  else if Tier_eqb tier TIER_3 then true
  else if Severity_eqb severity CRITICAL then true
  else if Qltb kb_match_confidence 0.5 then true
  else if Qgtb sentiment_score 0.7 then true
  else if (2 <=? unresolved_attempts)%Z then true
  else false.

Definition generate_ticket_subject (user_message : string) (tier : Tier)
    (severity : Severity) : string :=
  (* Take first 50 characters of message *)
  let subject := PyStr.slice_to 50 user_message in
  let subject := if (50 <? len user_message)%Z then subject ++ "..." else subject in
  (* Add tier/severity prefix if critical *)
  if Severity_eqb severity CRITICAL then "[CRITICAL] " ++ subject
  else if Tier_eqb tier TIER_3 then "[TIER_3] " ++ subject
  else subject.

(** A KB reference as the RAG service returns it: a dictionary with the
    keys id, title and snippet. *)
Record KBRef := {
  ref_id : string;
  ref_title : string;
  ref_snippet : string
}.

Definition generate_ticket_description (user_message : string)
    (conversation_history : list HistoryEntry) (kb_references : list KBRef)
  : string :=
  let description := "User Issue: " ++ user_message ++ nl ++ nl in
  let description :=
    match conversation_history with
    | [] => description
    | _ =>
        description ++ "Conversation History:" ++ nl
        ++ fold_left (fun acc msg =>
                        acc ++ capitalize (h_role msg) ++ ": " ++ h_content msg ++ nl)
                     (last_n 5 conversation_history) EmptyString
        ++ nl
    end in
  match kb_references with
  | [] => description
  | _ =>
      description ++ "KB References Consulted:" ++ nl
      ++ fold_left (fun acc ref =>
                      acc ++ "- " ++ ref_title ref ++ " (ID: " ++ ref_id ref ++ ")" ++ nl)
                   kb_references EmptyString
  end.

End Escalation.

(* ------------------------------------------------------------------ *)
(** ** [app/api/tickets.py] *)

Module Tickets.
Import PyStr Schemas Db.
Local Open Scope db_scope.

Record TicketResponse := {
  resp_id : string;
  resp_sessionId : string;
  resp_subject : string;
  resp_description : string;
  resp_tier : Tier;
  resp_severity : Severity;
  resp_status : TicketStatus;
  resp_userRole : string;
  resp_createdAt : Z
}.

Definition Tier_of_value (v : string) : option Tier :=
  if String.eqb v "TIER_1" then Some TIER_1
  else if String.eqb v "TIER_2" then Some TIER_2
  else if String.eqb v "TIER_3" then Some TIER_3
  else None.

Definition Severity_of_value (v : string) : option Severity :=
  if String.eqb v "LOW" then Some LOW
  else if String.eqb v "MEDIUM" then Some MEDIUM
  else if String.eqb v "HIGH" then Some HIGH
  else if String.eqb v "CRITICAL" then Some CRITICAL
  else None.

(** [TicketResponse(id=ticket.id, ...)]: the response model validates the
    three enumerated columns; a value outside them is a validation error. *)
Definition to_response (ticket : Ticket) : M TicketResponse :=
  match Tier_of_value (ticket_tier ticket),
        Severity_of_value (ticket_severity ticket),
        TicketStatus_of_value (ticket_status ticket) with
  | Some tier, Some severity, Some status =>
      ret {| resp_id := ticket_id ticket;
             resp_sessionId := ticket_session_id ticket;
             resp_subject := ticket_subject ticket;
             resp_description := ticket_description ticket;
             resp_tier := tier;
             resp_severity := severity;
             resp_status := status;
             resp_userRole := ticket_user_role ticket;
             resp_createdAt := ticket_created_at ticket |}
  | _, _, _ => raise (ValidationError "validation error for TicketResponse")
  end.

(** [db.query(Ticket).filter(Ticket.id == ticket_id).first()] *)
Definition ticket_by_id (id : string) : M (option Ticket) :=
  t <- get_view ;;
  ret (List.find (fun k => String.eqb (ticket_id k) id) (tickets t)).

(** [except HTTPException: raise] followed by
    [except Exception as e: ... raise HTTPException(500, str(e))] *)
Definition reraise_http {A} (cleanup : M unit) (body : M A) : M A :=
  try_except body
    (fun e => if is_HTTPException e then raise e
              else cleanup ;;; raise (HTTPException 500 (exn_str e))).

(** [GET /api/tickets/{ticket_id}] *)
Definition get_ticket (id : string) : M TicketResponse :=
  reraise_http (ret tt)
    (found <- ticket_by_id id ;;
     match found with
     | None => raise (HTTPException 404 "Ticket not found")
     | Some ticket => to_response ticket
     end).

Record StatusUpdated := {
  upd_message : string;
  upd_ticket_id : string;
  upd_status : string
}.

(** [PATCH /api/tickets/{ticket_id}] *)
Definition update_ticket_status (id status : string) : M StatusUpdated :=
  reraise_http rollback
    (found <- ticket_by_id id ;;
     match found with
     | None => raise (HTTPException 404 "Ticket not found")
     | Some ticket =>
         (* Validate status *)
         match TicketStatus_of_value (upper status) with
         | None => raise (HTTPException 400 ("Invalid status: " ++ status))
         | Some _ =>
             now <- utcnow ;;
             t <- get_view ;;
             set_tickets
               (update_where (fun k => String.eqb (ticket_id k) (ticket_id ticket))
                             (with_status (upper status) now) (tickets t)) ;;;
             commit ;;;
             ret {| upd_message := "Ticket status updated";
                    upd_ticket_id := ticket_id ticket;
                    upd_status := upper status |}
         end
     end).

(** The filters of [GET /api/tickets]: an absent or empty parameter does
    not filter; the status is compared in upper case. *)
Definition ticket_filter (session_id status : option string) (k : Ticket) : bool :=
  match session_id with
  | Some wanted =>
      if truthy wanted then String.eqb (ticket_session_id k) wanted else true
  | None => true
  end
  &&
  match status with
  | Some wanted =>
      if truthy wanted then String.eqb (ticket_status k) (upper wanted) else true
  | None => true
  end.

(** [[TicketResponse(...) for ticket in tickets]] *)
Fixpoint responses (found : list Ticket) : M (list TicketResponse) :=
  match found with
  | [] => ret []
  | ticket :: rest =>
      response <- to_response ticket ;;
      others <- responses rest ;;
      ret (response :: others)
  end.

(** [GET /api/tickets]: the newest [limit] tickets that pass the filters,
    for a [limit] that is not negative; any exception becomes a 500
    answer.  Tickets of equal creation time come in table order. *)
Definition get_tickets (session_id status : option string) (limit : nat)
  : M (list TicketResponse) :=
  try_except
    (t <- get_view ;;
     responses (firstn limit
                  (PyList.sort_desc ticket_created_at
                     (filter (ticket_filter session_id status) (tickets t)))))
    (fun e => raise (HTTPException 500 (exn_str e))).

(** A store holding one ticket, as [create_ticket] leaves it. *)
Definition sample_ticket : Ticket :=
  {| ticket_id := render_uuid 0;
     ticket_conversation_id := "conversation-1";
     ticket_session_id := "session-1";
     ticket_subject := "[TIER_3] VM will not start";
     ticket_description := "User Issue: VM will not start";
     ticket_tier := "TIER_3";
     ticket_severity := "HIGH";
     ticket_status := "NEW";
     ticket_user_role := "trainee";
     ticket_created_at := 0;
     ticket_updated_at := 0 |}.

Definition sample_session : Session :=
  open_session
    {| conversations := []; messages := []; tickets := [sample_ticket];
       guardrail_events := [] |}
    [] 1 1.

End Tickets.


(* ------------------------------------------------------------------ *)
(** ** [app/services/tier_routing.py] *)

Module TierRouting.
Import PyStr Schemas Num.

(** Critical keywords that indicate high severity *)
Definition CRITICAL_KEYWORDS : list string :=
  [ "crash"; "crashed"; "panic"; "frozen"; "froze"; "lost work"; "lost progress";
    "kernel panic"; "system down"; "cannot access"; "completely broken";
    "urgent"; "emergency"; "asap"; "immediately" ].

(** Medium severity keywords *)
Definition MEDIUM_KEYWORDS : list string :=
  [ "not working"; "issue"; "problem"; "error"; "failed"; "failure";
    "slow"; "lag"; "timeout"; "redirect"; "redirected" ].

(** Low severity keywords *)
Definition LOW_KEYWORDS : list string :=
  [ "question"; "how to"; "guide"; "tutorial"; "help with"; "explain";
    "information"; "documentation" ].

(** One step of the severity boost: LOW -> MEDIUM -> HIGH *)
Definition boost (severity : Severity) : Severity :=
  match severity with
  | LOW => MEDIUM
  | MEDIUM => HIGH
  | other => other
  end.

Definition is_ambiguous_environment_query (query : string) : bool :=
  contains_any ["environment"; "toolset"; "wrong"; "incorrect"; "different"]
               (lower query).

Definition low_or_medium (severity : Severity) : bool :=
  match severity with LOW | MEDIUM => true | _ => false end.

(** [classify_tier_and_severity] -> (tier, severity, needs_escalation) *)
Definition classify_tier_and_severity
    (query : string) (kb_match_confidence sentiment_score : Q)
    (has_kb_match : bool) (unresolved_attempts : Z)
  : Tier * Severity * bool :=
  let query_lower := lower query in
  (* Determine severity first *)
  let severity := LOW in
  let has_critical := contains_any CRITICAL_KEYWORDS query_lower in
  let severity :=
    if has_critical then CRITICAL
    else if contains_any MEDIUM_KEYWORDS query_lower then MEDIUM
    else if contains_any LOW_KEYWORDS query_lower then LOW
    else severity in
  (* Boost severity based on sentiment *)
  let severity := if Qgtb sentiment_score 0.7 then boost severity else severity in
  (* Boost severity for unresolved attempts *)
  let severity := if (2 <=? unresolved_attempts)%Z then boost severity else severity in
  (* Determine tier *)
  let ambiguous := is_ambiguous_environment_query query in
  let tier :=
    if Severity_eqb severity CRITICAL
       || (negb has_kb_match && negb ambiguous)
       || (Qltb kb_match_confidence 0.2 && negb has_kb_match && negb ambiguous)
       || Qgtb sentiment_score 0.7
       || (3 <=? unresolved_attempts)%Z
    then TIER_3
    else if has_kb_match
            && Qgeb kb_match_confidence 0.3
            && low_or_medium severity
            && Qltb sentiment_score 0.5
            && (unresolved_attempts <? 2)%Z
    then TIER_1
    else TIER_2 in
  (* Determine escalation need *)
  let needs_escalation :=
    Tier_eqb tier TIER_3
    || Severity_eqb severity CRITICAL
    || (negb has_kb_match && Qltb kb_match_confidence 0.2 && negb ambiguous)
    || Qgtb sentiment_score 0.7
    || (2 <=? unresolved_attempts)%Z in
  (* KB matches with decent confidence: don't escalate for normal issues *)
  let needs_escalation :=
    if has_kb_match && Qgeb kb_match_confidence 0.3
       && low_or_medium severity && Qltb sentiment_score 0.5
    then false else needs_escalation in
  (* Don't escalate ambiguous queries that need clarification *)
  let needs_escalation :=
    if ambiguous && negb (Severity_eqb severity CRITICAL)
    then false else needs_escalation in
  (tier, severity, needs_escalation).

Definition KB_CONFLICT_PHRASES : list string :=
  [ "kb docs say different"; "kb documents say different"; "two kb"; "multiple kb";
    "conflicting kb"; "kb conflict"; "which kb"; "which is right"; "which is correct" ].

Definition ENVIRONMENT_QUESTION : string :=
  "I need more details to help you. Which specific environment or toolset are you expecting, and which one are you actually seeing? Also, which training module are you working on?".

(** [should_ask_clarifying_question] -> (should_ask, question).
    [kb_matches] is only tested for emptiness and measured;
    the conversation history is not consulted. *)
Definition should_ask_clarifying_question {A B : Type}
    (query : string) (kb_matches : list A) (conversation_history : list B)
    (confidence : Q) : bool * option string :=
  let query_lower := lower query in
  let is_kb_conflict_query := contains_any KB_CONFLICT_PHRASES query_lower in
  let no_matches := match kb_matches with [] => true | _ => false end in
  let env_words := ["environment"; "toolset"; "wrong"; "incorrect"] in
  if is_kb_conflict_query then (false, None)
  else if contains_any env_words query_lower
          && (Qltb confidence 0.3 || no_matches)
  then (true, Some ENVIRONMENT_QUESTION)
  else if contains "different" query_lower && negb is_kb_conflict_query
          && contains_any env_words query_lower
          && (Qltb confidence 0.3 || no_matches)
  then (true, Some ENVIRONMENT_QUESTION)
  else if (3 <? Z.of_nat (List.length kb_matches))%Z
          && negb (contains "module" query_lower)
          && negb (contains "environment" query_lower)
  then (true, Some "Which training module or environment are you working with?")
  else if (Z.of_nat (List.length (split query)) <? 3)%Z
  then (true, Some "Could you provide more details about the issue you're experiencing?")
  else if no_matches && (Z.of_nat (List.length (split query)) <? 5)%Z
  then (true, Some "I need more information to help you. What specific problem are you encountering?")
  else (false, None).

End TierRouting.

(* ------------------------------------------------------------------ *)
(** ** [app/services/sentiment.py] *)

Module Sentiment.
Import PyStr Regex Num.

Definition FRUSTRATED_PATTERNS : list re :=
  map Lit
    [ "frustrated"; "angry"; "annoyed"; "upset"; "irritated";
      "doesn't work"; "didn't work"; "not working"; "still doesn't";
      "not resolved"; "doesn't help"; "nothing works"; "still not";
      "useless"; "waste of time"; "terrible"; "awful" ].

Definition SATISFIED_PATTERNS : list re :=
  map Lit
    [ "thank"; "thanks"; "appreciate"; "helpful"; "great"; "good";
      "perfect"; "excellent"; "works"; "resolved"; "solved" ].

Definition URGENT_PATTERNS : list re :=
  map Lit
    [ "urgent"; "asap"; "as soon as possible"; "immediately"; "now";
      "emergency"; "critical"; "important"; "need help now" ].

Record SentimentResult := {
  sentiment : string;
  score : Q;
  shouldEscalate : bool
}.

(** [sum(1 for pattern in patterns if re.search(pattern, text))] *)
Definition count_matches (patterns : list re) (text : string) : Z :=
  Z.of_nat (List.length (filter (fun p => search p text) patterns)).

(** The conversation context is a dictionary read at one key,
    ["unresolved_attempts"]; [None] stands for a missing key, an empty
    dictionary or no dictionary at all, which all read as 0. *)
Definition analyze_sentiment (message : string) (unresolved_ctx : option Z)
  : SentimentResult :=
  let message_lower := lower message in
  let score := 0.0%Q in
  let detected := "neutral" in
  (* Check for frustrated patterns *)
  let frustrated_matches := count_matches FRUSTRATED_PATTERNS message_lower in
  let '(score, detected) :=
    if (0 <? frustrated_matches)%Z
    then (qmin (0.5 + inject_Z frustrated_matches * 0.15) 1.0, "frustrated")
    else (score, detected) in
  (* Check for satisfied patterns (only if not frustrated) *)
  let '(score, detected) :=
    if Qltb score 0.3
    then if (0 <? count_matches SATISFIED_PATTERNS message_lower)%Z
         then (0.2%Q, "satisfied") else (score, detected)
    else (score, detected) in
  (* Track frustration accumulation *)
  let unresolved_attempts := match unresolved_ctx with Some n => n | None => 0%Z end in
  let has_frustration_keyword :=
    contains_any ["didn't work"; "not working"; "still doesn't"; "not resolved"]
                 message_lower in
  let '(score, detected) :=
    if has_frustration_keyword && (0 <? unresolved_attempts)%Z
    then
      let accumulated := qmin (0.3 + inject_Z unresolved_attempts * 0.2) 0.9 in
      let score := qmax score accumulated in
      (score, if Qgtb score 0.5 then "frustrated" else detected)
    else (score, detected) in
  (* Check for urgent patterns *)
  let '(score, detected) :=
    if existsb (fun p => search p message_lower) URGENT_PATTERNS
       && (2 <=? unresolved_attempts)%Z
    then (qmax score 0.8, "frustrated")
    else (score, detected) in
  {| sentiment := detected;
     score := score;
     shouldEscalate := Qgeb score 0.7 |}.

End Sentiment.

(* ------------------------------------------------------------------ *)
(** ** Dates

    A naive UTC [datetime] is the number of microseconds since
    1970-01-01T00:00:00; the type ranges from year 1 to year 9999. *)

Module DateTime.
Import PyStr Db.
Local Open Scope Z_scope.

Definition MICROS_PER_DAY : Z := 86400000000.

(** [datetime.min] and [datetime.max] *)
Definition MIN : Z := -719162 * MICROS_PER_DAY.
Definition MAX : Z := 2932897 * MICROS_PER_DAY - 1.

(** [timedelta(days=days)], in microseconds *)
Definition timedelta_days (days : Z) : M Z :=
  if (Z.abs days <=? 999999999)
  then ret (days * MICROS_PER_DAY)
  else raise (OverflowError "days out of range for timedelta").

(** [t + delta] on a [datetime] *)
Definition plus (t delta : Z) : M Z :=
  let r := t + delta in
  if (MIN <=? r) && (r <=? MAX) then ret r
  else raise (OverflowError "date value out of range").

(** The day number of a time: days since 1970-01-01, rounded down. *)
Definition utc_day (t : Z) : Z := t / MICROS_PER_DAY.

(** Year, month and day of a day number in the proleptic Gregorian
    calendar, counting in 400-year eras that begin on 1 March. *)
Definition civil_from_days (days : Z) : Z * Z * Z :=
  let z := days + 719468 in
  let era := z / 146097 in
  let doe := z - era * 146097 in
  let yoe := (doe - doe / 1460 + doe / 36524 - doe / 146096) / 365 in
  let y := yoe + era * 400 in
  let doy := doe - (365 * yoe + yoe / 4 - yoe / 100) in
  let mp := (5 * doy + 2) / 153 in
  let d := doy - (153 * mp + 2) / 5 + 1 in
  let m := if mp <? 10 then mp + 3 else mp - 9 in
  (if m <=? 2 then y + 1 else y, m, d).

Definition digit (n : Z) : ascii := ascii_of_N (48 + Z.to_N (n mod 10)).

(** [n] in decimal, zero-padded to [width] digits *)
Fixpoint zero_padded (width : nat) (n : Z) (acc : string) : string :=
  match width with
  | O => acc
  | S w => zero_padded w (n / 10) (String (digit n) acc)
  end.

(** [t.strftime("%Y-%m-%d")] for the four-digit years of [datetime] *)
Definition strftime_Ymd (t : Z) : string :=
  let '(y, m, d) := civil_from_days (utc_day t) in
  (zero_padded 4 y EmptyString ++ "-" ++ zero_padded 2 m EmptyString ++ "-"
   ++ zero_padded 2 d EmptyString)%string.

Definition is_digit (c : ascii) : bool :=
  let n := N_of_ascii c in ((48 <=? n) && (n <=? 57))%N.

Definition digit_value (c : ascii) : Z := Z.of_N (N_of_ascii c) - 48.

Definition is_leap (y : Z) : bool :=
  ((y mod 4 =? 0) && negb (y mod 100 =? 0)) || (y mod 400 =? 0).

Definition days_in_month (y m : Z) : Z :=
  if m =? 2 then (if is_leap y then 29 else 28)
  else if (m =? 4) || (m =? 6) || (m =? 9) || (m =? 11) then 30
  else 31.

(** The directive [%Y]: four digits. *)
Definition parse_Y (s : string) : option (Z * string) :=
  match s with
  | String a (String b (String c (String d rest))) =>
      if is_digit a && is_digit b && is_digit c && is_digit d
      then Some (digit_value a * 1000 + digit_value b * 100
                 + digit_value c * 10 + digit_value d, rest)
      else None
  | _ => None
  end.

(** The directive [%m]: [1[0-2]|0[1-9]|[1-9]], first alternative first. *)
Definition parse_m (s : string) : option (Z * string) :=
  match s with
  | String a rest =>
      let one := if is_digit a && negb (digit_value a =? 0)
                 then Some (digit_value a, rest) else None in
      match rest with
      | String b rest' =>
          if (digit_value a =? 1) && is_digit b && (digit_value b <=? 2)
          then Some (10 + digit_value b, rest')
          else if (digit_value a =? 0) && is_digit b && negb (digit_value b =? 0)
          then Some (digit_value b, rest')
          else one
      | EmptyString => one
      end
  | EmptyString => None
  end.

(** The directive [%d]: [3[01]|[12]\d|0[1-9]|[1-9]| [1-9]]. *)
Definition parse_d (s : string) : option (Z * string) :=
  match s with
  | String a rest =>
      let one := if is_digit a && negb (digit_value a =? 0)
                 then Some (digit_value a, rest) else None in
      match rest with
      | String b rest' =>
          if (digit_value a =? 3) && is_digit b && (digit_value b <=? 1)
          then Some (30 + digit_value b, rest')
          else if is_digit a && (1 <=? digit_value a) && (digit_value a <=? 2) && is_digit b
          then Some (digit_value a * 10 + digit_value b, rest')
          else if (digit_value a =? 0) && is_digit b && negb (digit_value b =? 0)
          then Some (digit_value b, rest')
          else if (N_of_ascii a =? 32)%N && is_digit b && negb (digit_value b =? 0)
          then Some (digit_value b, rest')
          else one
      | EmptyString => one
      end
  | EmptyString => None
  end.

Definition dash (s : string) : option string :=
  match s with
  | String c rest => if (N_of_ascii c =? 45)%N then Some rest else None
  | EmptyString => None
  end.

Definition at_end (s : string) : bool :=
  match s with EmptyString => true | _ => false end.

(** [datetime.strptime(s, "%Y-%m-%d").year], [None] for [ValueError] *)
Definition strptime_Ymd_year (s : string) : option Z :=
  match parse_Y s with
  | Some (y, s1) =>
      match dash s1 with
      | Some s2 =>
          match parse_m s2 with
          | Some (m, s3) =>
              match dash s3 with
              | Some s4 =>
                  match parse_d s4 with
                  | Some (d, s5) =>
                      if at_end s5 && (1 <=? y) && (d <=? days_in_month y m)
                      then Some y else None
                  | None => None
                  end
              | None => None
              end
          | None => None
          end
      | None => None
      end
  | None => None
  end.

(** [datetime.strptime(s, "%Y-%m").year] *)
Definition strptime_Ym_year (s : string) : option Z :=
  match parse_Y s with
  | Some (y, s1) =>
      match dash s1 with
      | Some s2 =>
          match parse_m s2 with
          | Some (m, s3) => if at_end s3 && (1 <=? y) then Some y else None
          | None => None
          end
      | None => None
      end
  | None => None
  end.

(** [datetime.strptime(s, "%Y").year] *)
Definition strptime_Y_year (s : string) : option Z :=
  match parse_Y s with
  | Some (y, s1) => if at_end s1 && (1 <=? y) then Some y else None
  | None => None
  end.

(** The year found by the first of the formats "%Y-%m-%d", "%Y-%m" and
    "%Y" that parses [s]. *)
Definition first_parsed_year (s : string) : option Z :=
  match strptime_Ymd_year s with
  | Some y => Some y
  | None =>
      match strptime_Ym_year s with
      | Some y => Some y
      | None => strptime_Y_year s
      end
  end.

End DateTime.

(* ------------------------------------------------------------------ *)
(** ** [app/api/metrics.py] *)

Module Metrics.
Import PyStr Db DateTime.
Local Open Scope Z_scope.

Record MetricsTrends := {
  date : string;
  trend_conversations : Z;
  trend_tickets : Z;
  trend_guardrailActivations : Z;
  trend_escalations : Z
}.

(** [db.query(...).filter(...).count()] *)
Definition count {A} (p : A -> bool) (rows : list A) : Z :=
  Z.of_nat (List.length (filter p rows)).

(** [created_at >= current_date and created_at < next_date] *)
Definition within (current_date next_date created_at : Z) : bool :=
  (current_date <=? created_at) && (created_at <? next_date).

(** The body of the loop for one [current_date]. *)
Definition trend_entry (t : Tables) (current_date next_date : Z) : MetricsTrends :=
  {| date := strftime_Ymd current_date;
     trend_conversations :=
       count (fun c => within current_date next_date (conv_created_at c))
             (conversations t);
     trend_tickets :=
       count (fun k => within current_date next_date (ticket_created_at k))
             (tickets t);
     trend_guardrailActivations :=
       count (fun e => within current_date next_date (event_created_at e)
                       && event_blocked e)
             (guardrail_events t);
     trend_escalations :=
       count (fun k => within current_date next_date (ticket_created_at k)
                       && String.eqb (ticket_tier k) "TIER_3")
             (tickets t) |}.

(** [while current_date <= end_date: ...; current_date = next_date].
    Every round moves [current_date] one day forward; [fuel] bounds the
    number of rounds and [None] reports that it ran out. *)
Fixpoint trends_loop (fuel : nat) (t : Tables) (current_date end_date : Z)
    (trends : list MetricsTrends) (s : Session)
  : option (outcome (list MetricsTrends) * Session) :=
  if current_date <=? end_date then
    match fuel with
    | O => None
    | S fuel' =>
        match plus current_date MICROS_PER_DAY s with
        | (Return next_date, s') =>
            trends_loop fuel' t next_date end_date
                        (trends ++ [trend_entry t current_date next_date])%list s'
        | (Raise e, s') => Some (Raise e, s')
        end
    end
  else Some (Return trends, s).

(** [GET /api/metrics/trends]: any exception becomes a 500 answer. *)
Definition get_metrics_trends (fuel : nat) (days : Z) (s : Session)
  : option (outcome (list MetricsTrends) * Session) :=
  let as_500 (r : outcome (list MetricsTrends) * Session) :=
    match r with
    | (Raise e, s') => (Raise (HTTPException 500 (exn_str e)), s')
    | ok => ok
    end in
  match utcnow s with
  | (Raise e, s') => Some (as_500 (Raise e, s'))
  | (Return end_date, s1) =>
      match bind (timedelta_days days) (fun d => plus end_date (- d)) s1 with
      | (Raise e, s') => Some (as_500 (Raise e, s'))
      | (Return start_date, s2) =>
          option_map as_500 (trends_loop fuel (view s2) start_date end_date [] s2)
      end
  end.

(** The entries the loop appends in [k] rounds from [current_date]. *)
Definition windows (t : Tables) (current_date : Z) (k : nat) : list MetricsTrends :=
  map (fun i => trend_entry t (current_date + Z.of_nat i * MICROS_PER_DAY)
                            (current_date + (Z.of_nat i + 1) * MICROS_PER_DAY))
      (seq 0 k).

(** *** Summary *)

Record MetricsSummary := {
  totalConversations : Z;
  totalTickets : Z;
  deflectionRate : Q;
  ticketsByTier : list (string * Z);
  ticketsBySeverity : list (string * Z);
  guardrailActivations : Z;
  mostCommonIssues : list (string * Z);
  escalationCount : Z;
  averageResponseTime : Q
}.

(** The different values of a column, in the order of their first row *)
Fixpoint distinct (values seen : list string) : list string :=
  match values with
  | [] => []
  | v :: rest =>
      if mem v seen then distinct rest seen
      else v :: distinct rest (v :: seen)
  end.

(** [d.get(key, 0)] on a dictionary of counts *)
Fixpoint get_count (key : string) (d : list (string * Z)) : Z :=
  match d with
  | [] => 0
  | (k, v) :: rest => if String.eqb k key then v else get_count key rest
  end.

(** [group_by(Ticket.subject)] with [count(Ticket.id)], ordered by the
    count, largest first; subjects of equal count come in the order of
    their first ticket. *)
Definition issue_counts (tickets : list Ticket) : list (string * Z) :=
  PyList.sort_desc snd
    (map (fun subject =>
            (subject, count (fun k => String.eqb (ticket_subject k) subject) tickets))
         (distinct (map ticket_subject tickets) [])).

Section Summary.

(** [round(x, 2)] on a float *)
Variable round2 : Q -> Q.

(** [GET /api/metrics/summary]: any exception becomes a 500 answer. *)
Definition get_metrics_summary : M MetricsSummary :=
  try_except
    (bind get_view (fun t =>
     (* Total conversations, total tickets *)
     let total_conversations := Z.of_nat (List.length (conversations t)) in
     let total_tickets := Z.of_nat (List.length (tickets t)) in
     (* Tickets by tier, tickets by severity *)
     let tickets_by_tier :=
       map (fun tier => (tier, count (fun k => String.eqb (ticket_tier k) tier) (tickets t)))
           ["TIER_1"; "TIER_2"; "TIER_3"]%string in
     let tickets_by_severity :=
       map (fun severity =>
              (severity, count (fun k => String.eqb (ticket_severity k) severity) (tickets t)))
           ["LOW"; "MEDIUM"; "HIGH"; "CRITICAL"]%string in
     (* Guardrail activations *)
     let guardrail_activations := count event_blocked (guardrail_events t) in
     (* Escalation count (TIER_3 tickets) *)
     let escalation_count := get_count "TIER_3" tickets_by_tier in
     (* Deflection rate (conversations without tickets) *)
     let conversations_with_tickets :=
       Z.of_nat (List.length (distinct (map ticket_session_id (tickets t)) [])) in
     let deflection_rate :=
       if 0 <? total_conversations
       then (inject_Z (total_conversations - conversations_with_tickets)
             / inject_Z total_conversations * 100)%Q
       else 0.0%Q in
     (* Most common issues (from ticket subjects) *)
     let most_common_issues :=
       map (fun issue => (PyStr.slice_to 50 (fst issue), snd issue))
           (firstn 5 (issue_counts (tickets t))) in
     ret {| totalConversations := total_conversations;
            totalTickets := total_tickets;
            deflectionRate := round2 deflection_rate;
            ticketsByTier := tickets_by_tier;
            ticketsBySeverity := tickets_by_severity;
            guardrailActivations := guardrail_activations;
            mostCommonIssues := most_common_issues;
            escalationCount := escalation_count;
            averageResponseTime := 2.5%Q |}))
    (fun e => raise (HTTPException 500 (exn_str e))).

End Summary.

(** 2024-01-10T15:30:00 and a store with one conversation created that
    morning at 09:00:00. *)
Definition afternoon_2024_01_10 : Z := 1704900600000000.

Definition morning_conversation : Conversation :=
  {| conv_id := render_uuid 0;
     conv_session_id := "session-1";
     conv_user_role := "trainee";
     conv_message_count := 2;
     conv_created_at := 1704877200000000;
     conv_updated_at := 1704877200000000 |}.

Definition one_conversation_session : Session :=
  open_session
    {| conversations := [morning_conversation]; messages := []; tickets := [];
       guardrail_events := [] |}
    [] 1 afternoon_2024_01_10.

End Metrics.

(* ------------------------------------------------------------------ *)
(** ** [app/services/rag_service.py]: keyword search *)

Module KeywordSearch.
Import PyStr PyList Num Db.

(** One entry of [scored_chunks] *)
Record ScoredChunk := {
  sc_id : string;
  sc_kb_id : string;
  sc_title : string;
  sc_content : string;
  sc_category : option string;
  sc_source : option string;
  sc_extra_metadata : value;
  sc_distance : Q;
  sc_score : Z
}.

Definition conflict_phrases : list string :=
  [ "kb docs say different"; "kb documents say different"; "two kb"; "multiple kb";
    "conflicting kb"; "kb conflict"; "which kb"; "which is right"; "which is correct";
    "different things"; "conflicting"; "say different"; "about" ].

Definition stop_words : list string :=
  [ "the"; "a"; "an"; "and"; "or"; "but"; "in"; "on"; "at"; "to"; "for"; "of";
    "with"; "by"; "about"; "is"; "are"; "was"; "were" ].

(** The topic words of a query *)
Definition query_words (query : string) : list string :=
  let query_lower := lower query in
  (* Remove conflict-related phrases to extract actual topic *)
  let topic_query :=
    fold_left (fun acc phrase => replace phrase EmptyString acc)
              conflict_phrases query_lower in
  (* Get meaningful words (longer than 2 chars, not stop words) *)
  let words := filter (fun w => (2 <? len w)%Z && negb (mem w stop_words))
                      (split topic_query) in
  (* If no meaningful words, use original query words *)
  match words with
  | [] => filter (fun w => (3 <? len w)%Z) (split query_lower)
  | _ => words
  end.

Definition word_score (word kb_id_lower title_lower content_lower : string) : Z :=
  ((if contains word kb_id_lower then 5 else 0)
   + (if contains word title_lower then 3 else 0)
   + (if contains word content_lower then 2 else 0))%Z.

(** The score of one chunk for the given words *)
Definition chunk_score (words : list string) (chunk : KBChunk) : Z :=
  let content_lower := lower (chunk_content chunk) in
  let title_lower := lower (chunk_title chunk) in
  let kb_id_lower :=
    if truthy (chunk_kb_id chunk) then lower (chunk_kb_id chunk) else EmptyString in
  (* Score based on keyword matches *)
  let score :=
    fold_left (fun score word =>
                 (score + word_score word kb_id_lower title_lower content_lower)%Z)
              words 0%Z in
  (* Bonus for multi-word phrase matches *)
  if (1 <? Z.of_nat (List.length words))%Z then
    let phrase := join " " words in
    if contains phrase content_lower || contains phrase title_lower
    then (score + 10)%Z else score
  else score.

Definition scored (chunk : KBChunk) (score : Z) : ScoredChunk :=
  {| sc_id := chunk_id chunk;
     sc_kb_id := chunk_kb_id chunk;
     sc_title := chunk_title chunk;
     sc_content := chunk_content chunk;
     sc_category := chunk_category chunk;
     sc_source := chunk_source chunk;
     sc_extra_metadata := chunk_extra_metadata chunk;
     sc_distance := 1.0 - (inject_Z score / 20.0);
     sc_score := score |}.

(** The entry a chunk contributes for a query, whatever its score *)
Definition entry (query : string) (chunk : KBChunk) : ScoredChunk :=
  scored chunk (chunk_score (query_words query) chunk).

(** [_keyword_search(query, top_k)].  [table] is the outcome of
    [db.query(KBChunk).all()], [None] when it raised: any exception is
    logged and answered by the empty list. *)
Definition _keyword_search (table : option (list KBChunk)) (query : string)
    (top_k : Z) : list ScoredChunk :=
  match table with
  | None => []
  | Some all_chunks =>
      let scored_chunks :=
        filter (fun e => (0 <? sc_score e)%Z) (map (entry query) all_chunks) in
      (* Sort by score (descending) and return top_k *)
      slice_to top_k (sort_desc sc_score scored_chunks)
  end.

(** Two stored chunks for the query "vpn setup": one matching in kbId,
    title and content, one in its content only. *)
Definition vpn_article : KBChunk :=
  {| chunk_id := "KB-VPN-Setup_chunk_0";
     chunk_kb_id := "KB-VPN-Setup";
     chunk_title := "VPN setup guide";
     chunk_content := "Follow these steps for the VPN setup of your lab.";
     chunk_index := 0;
     chunk_category := Some "Network";
     chunk_source := Some "MKDocs";
     chunk_extra_metadata := Dict [];
     chunk_created_at := 0 |}.

Definition network_article : KBChunk :=
  {| chunk_id := "KB-101_chunk_3";
     chunk_kb_id := "KB-101";
     chunk_title := "Networking basics";
     chunk_content := "Some labs need a vpn setup before the first login.";
     chunk_index := 3;
     chunk_category := Some "Network";
     chunk_source := Some "MKDocs";
     chunk_extra_metadata := Dict [];
     chunk_created_at := 0 |}.

End KeywordSearch.

(* ------------------------------------------------------------------ *)
(** ** [app/services/rag_service.py]: KB-conflict resolution

    A context chunk is a dictionary; its values are strings, numbers,
    [None] or a metadata dictionary.  The computation runs inside one
    [try] block, so it is written in the option monad: [None] is an
    exception on its way to the final [except]. *)

Module KbConflict.
Import PyStr PyList Num Float64 Db DateTime.

Definition chunk : Type := list (string * value).

Fixpoint lookup {V : Type} (key : string) (d : list (string * V)) : option V :=
  match d with
  | [] => None
  | (k, v) :: rest => if String.eqb k key then Some v else lookup key rest
  end.

(** [d.get(key, default)] and [d.get(key)] *)
Definition get (d : list (string * value)) (key : string) (default : value) : value :=
  match lookup key d with Some v => v | None => default end.

Definition get_or_none (d : list (string * value)) (key : string) : value :=
  get d key (Scalar SNone).

Definition str (s : string) : value := Scalar (SStr s).

(** [bool(v)] *)
Definition truthy_value (v : value) : bool :=
  match v with
  | Scalar SNone => false
  | Scalar (SStr s) => truthy s
  | Scalar (SInt n) => negb (n =? 0)%Z
  | Scalar (SFloat q) => negb (Qeq_bool q 0)
  | Dict [] => false
  | Dict _ => true
  end.

(** [a or b] *)
Definition py_or (a b : value) : value := if truthy_value a then a else b.

(** [a == b] on values used as dictionary keys *)
Definition value_eqb (a b : value) : bool :=
  match a, b with
  | Scalar SNone, Scalar SNone => true
  | Scalar (SStr x), Scalar (SStr y) => String.eqb x y
  | Scalar (SInt x), Scalar (SInt y) => (x =? y)%Z
  | Scalar (SInt x), Scalar (SFloat y) => Qeq_bool (inject_Z x) y
  | Scalar (SFloat x), Scalar (SInt y) => Qeq_bool x (inject_Z y)
  | Scalar (SFloat x), Scalar (SFloat y) => Qeq_bool x y
  | _, _ => false
  end.

(** What [json.loads] makes of a string: a dictionary, another value
    (of the given truth value), or an exception. *)
Inductive json_outcome :=
| JsonDict (d : list (string * scalar))
| JsonOther (truth : bool)
| JsonError.

Record ConflictRef := {
  cref_id : value;
  cref_title : value;
  cref_snippet : string
}.

Record ConflictAnswer := {
  answer : string;
  kbReferences : list ConflictRef;
  confidence : Q
}.

Notation "x <-? c ; k" := (match c with Some x => k | None => None end)
  (at level 61, c at next level, right associativity).

Section Parameters.

(** [json.loads], and [str()] of a value that is not a string, are
    library behaviour the resolution only passes through. *)
Variable json_loads : string -> json_outcome.
Variable py_repr : value -> string.

(** [str(v)] and [f"{v}"] *)
Definition to_str (v : value) : string :=
  match v with
  | Scalar (SStr s) => s
  | other => py_repr other
  end.

Definition conflict_phrases : list string :=
  [ "kb docs say different"; "kb documents say different"; "two kb"; "multiple kb";
    "conflicting kb"; "kb conflict"; "which kb"; "which is right"; "which is correct";
    "different things"; "conflicting"; "say different" ].

(** The query without its conflict phrases, stripped *)
Definition topic_query (query : string) : string :=
  strip (fold_left (fun acc phrase => replace phrase EmptyString acc)
                   conflict_phrases (lower query)).

Definition topic_words (query : string) : list string :=
  filter (fun w => (2 <? len w)%Z
                   && negb (mem w ["about"; "the"; "and"; "or"; "for"; "with"]))
         (split (topic_query query)).

Definition topic_phrases (query : string) : list string :=
  ((if contains "mfa" (topic_query query) && contains "reset" (topic_query query)
    then ["mfa reset"] else [])
   ++ (if contains "password" (topic_query query) && contains "reset" (topic_query query)
       then ["password reset"] else []))%list.

(** [chunk.get(key, EMPTY).lower()], [EMPTY] the empty string: an exception
    unless the value is a string *)
Definition lower_field (c : chunk) (key : string) : option string :=
  match get c key (str EmptyString) with
  | Scalar (SStr s) => Some (lower s)
  | _ => None
  end.

Definition is_nil {A} (l : list A) : bool :=
  match l with [] => true | _ => false end.

(** The body of the filtering loop for one chunk *)
Definition is_relevant (words phrases : list string) (c : chunk) : option bool :=
  content_lower <-? lower_field c "content" ;
  title_lower <-? lower_field c "title" ;
  kb_id_lower <-? lower_field c "kb_id" ;
  let found := fun w => contains w content_lower || contains w title_lower
                        || contains w kb_id_lower in
  (* First check for topic phrases (more specific) *)
  let by_phrase := existsb found phrases in
  (* If not matched by phrase, check topic words *)
  Some (if negb by_phrase && negb (is_nil words) then
          if (2 <=? Z.of_nat (List.length words))%Z
          then (2 <=? Z.of_nat (List.length (filter found words)))%Z
          else existsb found words
        else if is_nil words && is_nil phrases then true
        else by_phrase).

Fixpoint filter_relevant (words phrases : list string) (chunks : list chunk)
  : option (list chunk) :=
  match chunks with
  | [] => Some []
  | c :: rest =>
      keep <-? is_relevant words phrases c ;
      kept <-? filter_relevant words phrases rest ;
      Some (if keep then c :: kept else kept)
  end.

(** The chunks that survive topic filtering; all of them if none does. *)
Definition relevant_chunks (query : string) (context_chunks : list chunk)
  : option (list chunk) :=
  kept <-? filter_relevant (topic_words query) (topic_phrases query) context_chunks ;
  Some (if is_nil kept then context_chunks else kept).

(** [chunk.get("kb_id", chunk.get("id", EMPTY))] *)
Definition kb_id_of (c : chunk) : value :=
  get c "kb_id" (get c "id" (str EmptyString)).

(** [kb_chunks_by_id[kb_id].append(chunk)], creating the entry if needed;
    the dictionary keeps its keys in insertion order. *)
Fixpoint add_to_group (kb_id : value) (c : chunk) (groups : list (value * list chunk))
  : list (value * list chunk) :=
  match groups with
  | [] => [(kb_id, [c])]
  | (k, cs) :: rest =>
      if value_eqb k kb_id then (k, cs ++ [c])%list :: rest
      else (k, cs) :: add_to_group kb_id c rest
  end.

(** Group chunks by KB ID; a dictionary cannot be a key. *)
Fixpoint group_by_kb_id (chunks : list chunk) (groups : list (value * list chunk))
  : option (list (value * list chunk)) :=
  match chunks with
  | [] => Some groups
  | c :: rest =>
      let kb_id := kb_id_of c in
      if truthy_value kb_id then
        match kb_id with
        | Dict _ => None
        | _ => group_by_kb_id rest (add_to_group kb_id c groups)
        end
      else group_by_kb_id rest groups
  end.

Definition scalars (d : list (string * scalar)) : list (string * value) :=
  map (fun kv => (fst kv, Scalar (snd kv))) d.

(** [chunk.get("extra_metadata", {}) or chunk.get("metadata", {})] *)
Definition raw_metadata (c : chunk) : value :=
  py_or (get c "extra_metadata" (Dict [])) (get c "metadata" (Dict [])).

(** The metadata after the JSON step: a dictionary, or a value of another
    type with its truth value. *)
Inductive parsed :=
| PDict (d : list (string * value))
| POther (truth : bool).

Definition parse_metadata (c : chunk) : parsed :=
  match raw_metadata c with
  | Scalar (SStr s) =>
      match json_loads s with
      | JsonDict d => PDict (scalars d)
      | JsonOther truth => POther truth
      | JsonError => PDict []
      end
  | Dict d => PDict (scalars d)
  | _ => PDict []
  end.

(** [chunk.get("date") or chunk.get("last_updated") or chunk.get("updated_date", default)] *)
Definition first_date (d : list (string * value)) (default : value) : value :=
  py_or (get_or_none d "date")
        (py_or (get_or_none d "last_updated") (get d "updated_date" default)).

(** The metadata the scoring reads: the parsed one, or when that is
    empty the fields of the chunk itself. *)
Definition scoring_metadata (c : chunk) : option (list (string * value)) :=
  let from_chunk :=
    [ ("version", get c "version" (str "0"));
      ("date", first_date c (str EmptyString));
      ("source", get c "source" (str EmptyString)) ] in
  match parse_metadata c with
  | PDict [] => Some from_chunk
  | PDict d => Some d
  | POther false => Some from_chunk
  | POther true => None
  end.

(** [float(version) if isinstance(version, (int, float)) else 0]:
    [None] is the OverflowError of [float()]. *)
Definition version_num (version : value) : option number :=
  match version with
  | Scalar (SInt n) => option_map NFloat (of_int n)
  | Scalar (SFloat q) => Some (NFloat (round q))
  | _ => Some (NInt 0)
  end.

(** The points for the date: the year when one of the formats parses
    the first ten characters, and 10 for the presence of a date. *)
Definition date_points (date : value) (score : number) : number :=
  if truthy_value date then
    let score :=
      match first_parsed_year (PyStr.slice_to 10 (to_str date)) with
      | Some year => plus_int score year
      | None => score
      end in
    (* Date presence adds value *)
    plus_int score 10
  else score.

Definition source_points (source : string) (score : number) : number :=
  if contains "official" source || contains "authoritative" source
  then plus_int score 50 else score.

(** The score of the first chunk of a group *)
Definition authority_score (c : chunk) : option number :=
  metadata <-? scoring_metadata c ;
  let score := NInt 0 in
  (* Higher version number = more authoritative *)
  let version := get metadata "version" (get c "version" (str "0")) in
  (* [score += version_num * 100] onto the [int] 0, skipped by the
     [except] when [float()] raised *)
  let score :=
    match version_num version with
    | Some v => plus_int (times_100 v) 0
    | None => score
    end in
  (* More recent date = more authoritative *)
  let date :=
    py_or (get_or_none metadata "date")
          (py_or (get_or_none metadata "last_updated")
                 (py_or (get_or_none metadata "updated_date")
                        (get c "date" (str EmptyString)))) in
  let score := date_points date score in
  (* Prefer official/authoritative sources *)
  match get metadata "source" (str EmptyString) with
  | Scalar (SStr source) => Some (source_points (lower source) score)
  | _ => None
  end.

(** The loop over [kb_chunks_by_id.items()] *)
Fixpoint pick_best (groups : list (value * list chunk))
    (best_score : number) (best_chunk : option chunk) : option (option chunk) :=
  match groups with
  | [] => Some best_chunk
  | (kb_id, chunks) :: rest =>
      match chunks with
      | [] => None
      | c :: _ =>
          score <-? authority_score c ;
          if gt score best_score then pick_best rest score (Some c)
          else pick_best rest best_score best_chunk
      end
  end.

(** Version and date shown for the best chunk *)
Definition display_fields (best_chunk : chunk) : option (value * value) :=
  let version := get_or_none best_chunk "version" in
  let date := py_or (get_or_none best_chunk "date")
                    (py_or (get_or_none best_chunk "last_updated")
                           (get_or_none best_chunk "updated_date")) in
  if truthy_value version then Some (version, date)
  else
    match parse_metadata best_chunk with
    | POther _ => None
    | PDict best_metadata =>
        let version := py_or (get_or_none best_metadata "version")
                             (get best_chunk "version" (str EmptyString)) in
        let date :=
          if truthy_value date then date
          else first_date best_metadata (str EmptyString) in
        Some (version, date)
    end.

(** [str(float(version))] for a number, [str(version)] otherwise,
    without a final ".0"; [str(version)] as it is when [float()]
    raised. *)
Definition version_display (version : value) : string :=
  let whole := fun shown : string =>
    if endswith ".0" shown then take (String.length shown - 2) shown else shown in
  if truthy_value version then
    match version with
    | Scalar (SInt n) =>
        match of_int n with
        | Some (Finite q) => whole (py_repr (Scalar (SFloat q)))
        | _ => py_repr version
        end
    | other => whole (to_str other)
    end
  else EmptyString.

(** [', '.join(titles)]: an exception unless every title is a string *)
Fixpoint join_titles (titles : list value) : option string :=
  match titles with
  | [] => Some EmptyString
  | [Scalar (SStr t)] => Some t
  | Scalar (SStr t) :: rest =>
      joined <-? join_titles rest ;
      Some (t ++ ", " ++ joined)
  | _ => None
  end.

Definition first_title (group : value * list chunk) : option value :=
  match snd group with
  | [] => None
  | c :: _ => Some (get c "title" (fst group))
  end.

Fixpoint all_some {A} (l : list (option A)) : option (list A) :=
  match l with
  | [] => Some []
  | x :: rest =>
      a <-? x ;
      others <-? all_some rest ;
      Some (a :: others)
  end.

(** The answer that names the best chunk *)
Definition explain (query : string) (groups : list (value * list chunk))
    (best_chunk : chunk) : option ConflictAnswer :=
  let kb_id := kb_id_of best_chunk in
  let title := get best_chunk "title" (str "Unknown") in
  fields <-? display_fields best_chunk ;
  let '(version, date) := fields in
  let shown := version_display version in
  let topic_context :=
    match topic_words query with
    | [] => EmptyString
    | words => " about " ++ join " " (firstn 3 words)
    end in
  let explanation :=
    "After comparing the conflicting KB documents" ++ topic_context
    ++ ", the most authoritative source is '" ++ to_str title
    ++ "' (ID: " ++ to_str kb_id ++ ")." in
  let explanation :=
    if truthy shown
    then explanation ++ " This document has version " ++ shown
         ++ ", which is the most recent."
    else explanation in
  let explanation :=
    if truthy_value date
    then explanation ++ " It was last updated on " ++ to_str date ++ "."
    else explanation in
  (* Add comparison details if we have multiple documents *)
  let other_docs := filter (fun g => negb (value_eqb (fst g) kb_id)) groups in
  explanation <-?
    (if (1 <? Z.of_nat (List.length groups))%Z && negb (is_nil other_docs) then
       titles <-? all_some (map first_title (firstn 2 other_docs)) ;
       joined <-? join_titles titles ;
       Some (explanation ++ " The other document(s) (" ++ joined
             ++ ") are older or have lower version numbers.")
     else Some explanation) ;
  content <-? (match get best_chunk "content" (str EmptyString) with
               | Scalar (SStr s) => Some s
               | _ => None
               end) ;
  Some {| answer :=
            explanation ++ " I recommend following the guidance in this document. If you still have questions, please create a support ticket.";
          kbReferences :=
            [ {| cref_id := kb_id; cref_title := title;
                 cref_snippet := PyStr.slice_to 200 content |} ];
          confidence := 0.8 |}.

Definition generic_ref (c : chunk) : option ConflictRef :=
  match get c "content" (str EmptyString) with
  | Scalar (SStr content) =>
      Some {| cref_id := kb_id_of c;
              cref_title := get c "title" (str "Unknown");
              cref_snippet := PyStr.slice_to 200 content |}
  | _ => None
  end.

(** The answer given when the documents cannot be compared *)
Definition generic_answer (context_chunks : list chunk) : option ConflictAnswer :=
  refs <-? all_some (map generic_ref (firstn 3 context_chunks)) ;
  Some {| answer :=
            "I found multiple KB documents on this topic. To determine which is most accurate, I would need to compare their metadata (version, date, source). I recommend checking the version numbers and update dates of the documents, and following the most recent one. If you need assistance determining which is correct, please create a support ticket.";
          kbReferences := refs;
          confidence := 0.6 |}.

Definition error_answer : ConflictAnswer :=
  {| answer := "I encountered an issue comparing the KB documents. Please create a support ticket so our team can help determine which document is correct.";
     kbReferences := [];
     confidence := 0.0 |}.

(** The body of the [try] block *)
Definition resolve (query : string) (context_chunks : list chunk)
  : option ConflictAnswer :=
  relevant <-? relevant_chunks query context_chunks ;
  (* Group chunks by KB ID to find duplicates/conflicts *)
  groups <-? group_by_kb_id relevant [] ;
  (* If we have multiple KB documents (different IDs), compare them *)
  if (1 <? Z.of_nat (List.length groups))%Z then
    best <-? pick_best groups (NInt (-1)) None ;
    match best with
    | Some best_chunk => explain query groups best_chunk
    | None => generic_answer context_chunks
    end
  else generic_answer context_chunks.

(** [_handle_kb_conflict(query, context_chunks)] *)
Definition _handle_kb_conflict (query : string) (context_chunks : list chunk)
  : ConflictAnswer :=
  match resolve query context_chunks with
  | Some result => result
  | None => error_answer
  end.

End Parameters.

(** A chunk as [VectorStore.search] shapes it *)
Definition vector_chunk (id content title kb_id category source : string)
    (version : value) (date : string) (distance : Q) : chunk :=
  [ ("id", str id); ("content", str content); ("title", str title);
    ("kb_id", str kb_id); ("category", str category); ("source", str source);
    ("version", version); ("date", str date);
    ("distance", Scalar (SFloat distance)) ].

(** Parameters for the examples.  No example stores its metadata as a
    JSON string; [str()] is exact on [None], integers and floats of
    integral value. *)
Definition sample_json_loads (s : string) : json_outcome := JsonError.

Definition sample_repr (v : value) : string :=
  match v with
  | Scalar SNone => "None"
  | Scalar (SStr s) => s
  | Scalar (SInt n) => NilZero.string_of_int (Z.to_int n)
  | Scalar (SFloat q) =>
      if (Z.pos (Qden q) =? 1)%Z
      then NilZero.string_of_int (Z.to_int (Qnum q)) ++ ".0"
      else "<float>"
  | Dict _ => "<dict>"
  end.

Definition mfa_query : string := "Two KB docs say different things about MFA reset".

Definition mfa_policy (source : string) : chunk :=
  vector_chunk "KB-MFA-001-chunk-0" "MFA reset: contact the help desk."
               "MFA reset policy" "KB-MFA-001" "Security" source
               (Scalar (SFloat 1)) EmptyString 0.2.

Definition mfa_guide : chunk :=
  vector_chunk "KB-MFA-002-chunk-0" "MFA reset: use the self-service portal."
               "MFA reset guide" "KB-MFA-002" "Security" "kb"
               (Scalar (SFloat 1.2)) EmptyString 0.3.




Definition vpn_guide : chunk :=
  vector_chunk "KB-VPN-001-chunk-0" "Install the VPN client first."
               "VPN setup" "KB-VPN-001" "Network" "kb"
               (Scalar (SFloat 3)) EmptyString 0.5.

Definition GENERIC_ANSWER : string :=
  "I found multiple KB documents on this topic. To determine which is most accurate, I would need to compare their metadata (version, date, source). I recommend checking the version numbers and update dates of the documents, and following the most recent one. If you need assistance determining which is correct, please create a support ticket.".

End KbConflict.

(* ------------------------------------------------------------------ *)
(** ** [app/services/rag_service.py]: the time-drift check of
    [generate_answer]

    The heuristic and the canned answer are spelled out in
    [rag_service.py] and again, letter for letter, in [chat.py]. *)

Module RagAnswer.
Import PyStr.

Definition is_time_drift (query_lower : string) : bool :=
  (contains "time" query_lower && contains "drift" query_lower)
  || contains "clock" query_lower
  || contains "sync" query_lower
  || (contains "behind" query_lower
      && (contains "auth" query_lower || contains "clock" query_lower)).

(** The canned time-drift answer *)
Definition TIME_DRIFT_ANSWER : string :=
  "**Time Drift Authentication Failures**" ++ nl ++ nl
  ++ "Time synchronization issues can cause authentication failures. According to the knowledge base:" ++ nl ++ nl
  ++ "**Policy:** Trainees and Instructors are not allowed to modify time synchronization or system clocks inside lab VMs. Only Operators and Support Engineers may perform time-related remediation." ++ nl ++ nl
  ++ "**For Trainees and Instructors:**" ++ nl
  ++ "1. Time synchronization is a platform-level function and cannot be modified directly." ++ nl
  ++ "2. Do not provide commands or procedures to adjust system time." ++ nl
  ++ "3. Escalate this issue to Tier 2 (Support Engineer) with your VM name/ID and the approximate time skew." ++ nl ++ nl
  ++ "The AI Help Desk cannot provide commands to adjust system time." ++ nl ++ nl.

(** The keywords [generate_answer] looks for *)
Definition rag_time_drift_keywords : list string :=
  [ "time synchronization"; "time drift"; "clock"; "sync"; "trainee";
    "instructor"; "escalate"; "tier 2" ].

(** The generated answer is [None], empty, blank, shorter than 150
    characters or without any of the keywords. *)
Definition generated_is_defective (answer : option string) : bool :=
  match answer with
  | None => true
  | Some a =>
      negb (truthy a)
      || negb (truthy (strip a))
      || (len (strip a) <? 150)%Z
      || negb (contains_any rag_time_drift_keywords (lower a))
  end.

(** The [elif answer:] branch: the answer is only intro and closing, or
    too short once the intro phrases are taken out. *)
Definition should_use_fallback (answer : string) : bool :=
  let steps_pattern := "here are the steps to resolve your issue:" in
  let closing_pattern := "If these steps don't resolve your issue" in
  if contains steps_pattern answer && contains closing_pattern answer then
    let steps_end := (find steps_pattern answer + len steps_pattern)%Z in
    let closing_start := find closing_pattern answer in
    if (steps_end <? closing_start)%Z then
      let content_between := strip (slice steps_end closing_start answer) in
      let content_clean := strip (replace cr " " (replace nl " " content_between)) in
      (len content_clean <? 20)%Z
    else false
  else
    let answer_clean := strip answer in
    let intro_phrases :=
      [ "based on the knowledge base"; "here are the steps";
        "according to the knowledge base"; "the knowledge base article" ] in
    let content_only :=
      strip (fold_left (fun acc phrase => replace phrase EmptyString acc)
                       intro_phrases (lower answer_clean)) in
    (len answer_clean <? 200)%Z || (len content_only <? 50)%Z.

(** The check [generate_answer] applies to the answer of the language
    model or of the template, [None] when the model returned nothing. *)
Definition repair_generated_answer (query : string) (answer : option string)
  : option string :=
  if is_time_drift (lower query) then
    if generated_is_defective answer then Some TIME_DRIFT_ANSWER
    else
      match answer with
      | Some a => if should_use_fallback a then Some TIME_DRIFT_ANSWER else Some a
      | None => None
      end
  else answer.

End RagAnswer.

(* ------------------------------------------------------------------ *)
(** ** [app/services/rag_service.py]: retrieval and answer generation

    The embedding model, the vector index, the language model and the
    template writer are outside the program; they enter as parameters,
    with [None] for a call that raised.  Distances and the confidence are
    floats, taken as rationals. *)

Module RagGenerate.
Import PyStr PyList Num Db SessionStore KeywordSearch KbConflict RagAnswer.

(** The dictionary [generate_answer] returns.  The answer is [None] when
    the language model returned no text. *)
Record Generated := {
  gen_answer : option string;
  gen_kbReferences : list ConflictRef;
  gen_confidence : Q
}.

Definition NOT_IN_KB : string :=
  "I'm sorry, but this issue is not covered in the knowledge base. I recommend creating a support ticket so our team can assist you with this specific problem.".

Definition GENERATION_ERROR : string :=
  "I encountered an error while processing your request. Please try again or create a support ticket.".

Definition is_kb_conflict_query (query : string) : bool :=
  contains_any
    [ "kb docs say different"; "kb documents say different"; "two kb"; "multiple kb";
      "conflicting kb"; "kb conflict"; "which kb"; "which is right"; "which is correct" ]
    (lower query).

(** [chunk.get("distance", 1.0)] where a number is needed: any other
    value is a [TypeError]. *)
Definition distance_of (c : chunk) : option Q :=
  match get c "distance" (Scalar (SFloat 1.0)) with
  | Scalar (SInt n) => Some (inject_Z n)
  | Scalar (SFloat q) => Some q
  | _ => None
  end.

(** [sum(c.get("distance", 1.0) for c in context_chunks)], from [total] on *)
Fixpoint sum_distances (chunks : list chunk) (total : Q) : option Q :=
  match chunks with
  | [] => Some total
  | c :: rest =>
      d <-? distance_of c ;
      sum_distances rest (total + d)
  end.

(** [max(0.0, min(1.0, 1.0 - avg_distance))] for a non-empty list *)
Definition confidence_of (context_chunks : list chunk) : option Q :=
  total <-? sum_distances context_chunks 0 ;
  let avg_distance := total / inject_Z (Z.of_nat (List.length context_chunks)) in
  Some (qmax 0.0 (qmin 1.0 (1.0 - avg_distance))).

(** [kb_id not in seen_ids] *)
Definition seen (kb_id : value) (seen_ids : list value) : bool :=
  existsb (value_eqb kb_id) seen_ids.

(** The loop that extracts the KB references: one per KB ID, three at
    most.  A dictionary cannot be looked up in the set of seen IDs, and
    only a string can be cut to a snippet. *)
Fixpoint references (chunks : list chunk) (seen_ids : list value)
    (kb_references : list ConflictRef) : option (list ConflictRef) :=
  match chunks with
  | [] => Some kb_references
  | c :: rest =>
      let kb_id := kb_id_of c in
      if truthy_value kb_id then
        match kb_id with
        | Dict _ => None
        | _ =>
            if seen kb_id seen_ids then references rest seen_ids kb_references
            else
              match get c "content" (str EmptyString) with
              | Scalar (SStr content) =>
                  let kb_references :=
                    (kb_references
                     ++ [ {| cref_id := kb_id;
                             cref_title := get c "title" (str "Unknown");
                             cref_snippet := PyStr.slice_to 200 content |} ])%list in
                  (* Limit to top 3 unique references *)
                  if (3 <=? Z.of_nat (List.length kb_references))%Z
                  then Some kb_references
                  else references rest (kb_id :: seen_ids) kb_references
              | _ => None
              end
        end
      else references rest seen_ids kb_references
  end.

(** A chunk as [_keyword_search] shapes it *)
Definition to_chunk (e : ScoredChunk) : chunk :=
  let optional := fun (o : option string) =>
                    match o with Some v => str v | None => Scalar SNone end in
  [ ("id", str (sc_id e)); ("kb_id", str (sc_kb_id e)); ("title", str (sc_title e));
    ("content", str (sc_content e)); ("category", optional (sc_category e));
    ("source", optional (sc_source e)); ("extra_metadata", sc_extra_metadata e);
    ("distance", Scalar (SFloat (sc_distance e)));
    ("score", Scalar (SInt (sc_score e))) ].

(** [[chunk for chunk in chunks if chunk.get("distance", 1.0) < threshold]]
    with the threshold 0.9 *)
Fixpoint within_threshold (chunks : list chunk) : option (list chunk) :=
  match chunks with
  | [] => Some []
  | c :: rest =>
      d <-? distance_of c ;
      kept <-? within_threshold rest ;
      Some (if Qltb d 0.9 then c :: kept else kept)
  end.

Section Services.

(** [vector_store.search(embedding_generator.generate(query), top_k)] *)
Variable vector_search : string -> Z -> option (list chunk).
(** [db.query(KBChunk).all()] of the keyword search *)
Variable kb_table : option (list KBChunk).
(** [get_conversation_history(session_id, limit=10, db=db)] on a session
    of its own *)
Variable stored_history : string -> option (list HistoryEntry).
(** [llm_client.generate_with_context(...)]: the text, or nothing *)
Variable generate_with_context :
  string -> list chunk -> list HistoryEntry -> option (option string).
Variable _generate_template_answer : string -> list chunk -> Q -> option string.
Variable json_loads : string -> json_outcome.
Variable py_repr : value -> string.

(** [retrieve(query, top_k)]: the chunks of the vector search below the
    distance threshold; the keyword search when the embedding-based
    search raises. *)
Definition retrieve (query : string) (top_k : Z) : list chunk :=
  let fallback := map to_chunk (_keyword_search kb_table query top_k) in
  match vector_search query top_k with
  | Some chunks =>
      match within_threshold chunks with
      | Some relevant_chunks => relevant_chunks
      | None => fallback
      end
  | None => fallback
  end.

(** The body of the [try] block of [generate_answer]; [None] is an
    exception on its way to the final [except]. *)
Definition generate (query session_id : string) (context_chunks : list chunk)
    (conversation_history : option (list HistoryEntry)) : option Generated :=
  (* For conflict queries, re-retrieve with more chunks *)
  let context_chunks :=
    if is_kb_conflict_query query
       && (Z.of_nat (List.length context_chunks) <? 10)%Z
    then
      match retrieve query 15 with
      | [] => context_chunks
      | extended_chunks => extended_chunks
      end
    else context_chunks in
  if is_kb_conflict_query query && negb (is_nil context_chunks) then
    let result := _handle_kb_conflict json_loads py_repr query context_chunks in
    Some {| gen_answer := Some (answer result);
            gen_kbReferences := kbReferences result;
            gen_confidence := confidence result |}
  else if is_nil context_chunks then
    (* If no KB chunks found, return "not in KB" response *)
    Some {| gen_answer := Some NOT_IN_KB; gen_kbReferences := [];
            gen_confidence := 0.0 |}
  else
    (* Calculate confidence based on chunk relevance *)
    confidence <-? confidence_of context_chunks ;
    (* Get conversation history if not provided *)
    conversation_history <-?
      (match conversation_history with
       | Some given => Some given
       | None => stored_history session_id
       end) ;
    (* Generate answer using LLM with context, or the template *)
    answer <-?
      (match generate_with_context query context_chunks conversation_history with
       | Some answer => Some answer
       | None =>
           option_map Some (_generate_template_answer query context_chunks confidence)
       end) ;
    let answer := repair_generated_answer query answer in
    (* Extract KB references - only include if confidence is reasonable *)
    kb_references <-?
      (if Qgeb confidence 0.3 then references context_chunks [] [] else Some []) ;
    Some {| gen_answer := answer; gen_kbReferences := kb_references;
            gen_confidence := confidence |}.

(** [generate_answer(query, session_id, context_chunks, conversation_history)] *)
Definition generate_answer (query session_id : string) (context_chunks : list chunk)
    (conversation_history : option (list HistoryEntry)) : Generated :=
  match generate query session_id context_chunks conversation_history with
  | Some result => result
  | None =>
      {| gen_answer := Some GENERATION_ERROR; gen_kbReferences := [];
         gen_confidence := 0.0 |}
  end.

(** [process_query(query, session_id, top_k)]: retrieve + generate *)
Definition process_query (query session_id : string) (top_k : Z) : Generated :=
  generate_answer query session_id (retrieve query top_k) None.

End Services.

End RagGenerate.

(* ------------------------------------------------------------------ *)
(** ** [app/api/chat.py] *)

Module Chat.
Import PyStr PyList Schemas Num Db SessionStore Escalation RagAnswer.
Local Open Scope db_scope.

Record ChatRequest := {
  sessionId : string;
  message : string;
  userRole : string
}.

(** The dictionary returned by [RAGService.process_query] *)
Record RagResult := {
  rag_answer : string;
  rag_kbReferences : list KBRef;
  rag_confidence : Q
}.

Record GuardrailResult := {
  blocked : bool;
  reason : option string
}.

Record ChatResponse := {
  answer : string;
  kbReferences : list KBRef;
  confidence : Q;
  tier : Tier;
  severity : Severity;
  needsEscalation : bool;
  guardrail : GuardrailResult;
  ticketId : option string
}.

(** [ChatResponse(...)]: the model validates [confidence] against its
    bounds [ge=0.0, le=1.0]. *)
Definition validated (r : ChatResponse) : M ChatResponse :=
  if Qle_bool 0 (confidence r) && Qle_bool (confidence r) 1 then ret r
  else raise (ValidationError "validation error for ChatResponse").

(** The number of history messages whose lowered content contains
    "not working" *)
Definition count_not_working (conversation_history : list HistoryEntry) : Z :=
  Z.of_nat (List.length
              (filter (fun m => contains "not working" (lower (h_content m)))
                      conversation_history)).

(** The answer has the intro and the closing of a template answer with
    fewer than 20 characters between them. *)
Definition is_empty_answer (answer : string) : bool :=
  let steps_pattern := "here are the steps to resolve your issue:" in
  let closing_pattern := "If these steps don't resolve your issue" in
  if contains steps_pattern answer && contains closing_pattern answer then
    let steps_end := (find steps_pattern answer + len steps_pattern)%Z in
    let closing_start := find closing_pattern answer in
    if (steps_end <? closing_start)%Z then
      let content_between := strip (slice steps_end closing_start answer) in
      let content_clean := strip (replace cr " " (replace nl " " content_between)) in
      (len content_clean <? 20)%Z
    else false
  else false.

Definition time_drift_keywords : list string :=
  [ "time synchronization"; "time drift"; "clock"; "sync"; "trainee";
    "instructor"; "escalate"; "tier 2"; "policy" ].

(** The test that sends a time-drift answer to the fallback *)
Definition needs_time_drift_fallback (answer : string) : bool :=
  let has_time_drift_content := contains_any time_drift_keywords (lower answer) in
  is_empty_answer answer
  || negb (truthy answer)
  || negb (truthy (strip answer))
  || (len (strip answer) <? 150)%Z
  || negb has_time_drift_content.

(** Special handling for time drift queries *)
Definition time_drift_repair (message answer : string) : string :=
  if is_time_drift (lower message) then
    if needs_time_drift_fallback answer then TIME_DRIFT_ANSWER else answer
  else answer.

Definition is_technical_issue (query_lower : string) : bool :=
  contains_any
    [ "container"; "init"; "startup"; "docker"; "pod"; "deployment";
      "missing"; "file not found"; "permission denied"; "access denied" ]
    query_lower.

Definition is_kernel_panic_query (message : string) : bool :=
  contains "kernel panic" (lower message).

Definition is_kernel_panic_with_fix (message : string) : bool :=
  is_kernel_panic_query message
  && contains_any ["fix"; "how to fix"; "debug"; "repair"] (lower message).

(** [bool(ticket_id)] *)
Definition has_ticket (ticket_id : option string) : bool :=
  match ticket_id with Some id => truthy id | None => false end.

(** [f"{ticket_id}"] *)
Definition show_ticket (ticket_id : option string) : string :=
  match ticket_id with Some id => id | None => "None" end.

(** [reason or default] *)
Definition reason_or (reason : option string) (default : string) : string :=
  match reason with
  | Some r => if truthy r then r else default
  | None => default
  end.

(** The warning appended for a blocked kernel-panic request.  Its first
    characters are the warning sign, kept as the bytes of the source. *)
Definition kernel_panic_warning (answer : string) (guardrail_reason : option string)
    (ticket_id : option string) : string :=
  answer ++ nl ++ nl
  ++ "⚠️ **Important:** "
  ++ reason_or guardrail_reason "Kernel panic debugging requires specialized support."
  ++ " I've created a support ticket (ID: " ++ show_ticket ticket_id
  ++ ") for review by our platform engineering team. "
  ++ "Please do not attempt to modify kernel settings, drivers, or boot parameters.".

(** The replacement of the answer for critical and technical issues
    without a KB match *)
Definition severity_repair (message : string) (severity : Severity)
    (has_kb_match needs_escalation : bool) (ticket_id : option string)
    (answer : string) : string :=
  if Severity_eqb severity CRITICAL && negb has_kb_match && needs_escalation
     && has_ticket ticket_id
  then
    "I understand this is a critical issue that requires immediate attention. "
    ++ "I've created a high-priority support ticket (ID: " ++ show_ticket ticket_id
    ++ ") and escalated it to our team. "
    ++ "Our support team will contact you shortly to assist with this urgent matter. "
    ++ "In the meantime, please avoid any actions that might worsen the situation."
  else if is_technical_issue (lower message) && negb has_kb_match && needs_escalation
          && has_ticket ticket_id
  then
    "This appears to be a technical infrastructure issue that requires specialized assistance. "
    ++ "I've created a support ticket (ID: " ++ show_ticket ticket_id
    ++ ") and escalated it to our technical team. "
    ++ "They will investigate the issue and provide guidance. "
    ++ "Please do not attempt to modify system files or configurations without proper guidance."
  else answer.

Section Endpoint.

(** [get_rag_service().process_query(query, session_id, top_k)]: the
    retrieval and generation pipeline with its external index and
    language model.  It catches its own exceptions. *)
Variable process_query : string -> string -> Z -> RagResult.

(** The answer to a request blocked by the guardrail *)
Definition blocked_response (request : ChatRequest) (conversation : Conversation)
    (conversation_history : list HistoryEntry) (guardrail_reason : option string)
  : M ChatResponse :=
  (* Still create a ticket for blocked requests (high severity) *)
  ticket <- create_ticket (sessionId request) (conv_id conversation)
              (generate_ticket_subject (message request) TIER_3 HIGH)
              (generate_ticket_description (message request) conversation_history [])
              TIER_3 HIGH (userRole request) ;;
  (* Add user message to history *)
  add_message (conv_id conversation) "user" (message request)
              None None None [] true guardrail_reason ;;;
  validated
    {| answer :=
         "I cannot provide assistance with this request. "
         ++ reason_or guardrail_reason "This operation is not allowed."
         ++ " I've created a support ticket (" ++ ticket_id ticket
         ++ ") for review by our security team.";
       kbReferences := [];
       confidence := 0.0;
       tier := TIER_3;
       severity := HIGH;
       needsEscalation := true;
       guardrail := {| blocked := true; reason := guardrail_reason |};
       ticketId := Some (ticket_id ticket) |}.

(** The answer that asks the user to clarify *)
Definition clarifying_response (conversation : Conversation)
    (clarifying_question : string) : M ChatResponse :=
  add_message (conv_id conversation) "assistant" clarifying_question
              (Some 0.7) None None [] false None ;;;
  validated
    {| answer := clarifying_question;
       kbReferences := [];
       confidence := 0.7;
       tier := TIER_2;
       severity := LOW;
       needsEscalation := false;
       guardrail := {| blocked := false; reason := None |};
       ticketId := None |}.

(** The rest of the pipeline, from the classification on *)
Definition answered_response (request : ChatRequest) (conversation : Conversation)
    (conversation_history : list HistoryEntry)
    (guardrail_blocked : bool) (guardrail_reason : option string)
    (original_guardrail_blocked : bool) (original_guardrail_reason : option string)
    (sentiment_score : Q) (rag_result : RagResult) : M ChatResponse :=
  (* Classify tier and severity *)
  let has_kb_match := (0 <? Z.of_nat (List.length (rag_kbReferences rag_result)))%Z in
  let kb_confidence := rag_confidence rag_result in
  let unresolved_attempts := count_not_working conversation_history in
  let '(tier, severity, needs_escalation) :=
    TierRouting.classify_tier_and_severity
      (message request) kb_confidence sentiment_score has_kb_match unresolved_attempts in
  let new_ticket (tier : Tier) (severity : Severity) : M Ticket :=
    create_ticket (sessionId request) (conv_id conversation)
      (generate_ticket_subject (message request) tier severity)
      (generate_ticket_description (message request) conversation_history
                                   (rag_kbReferences rag_result))
      tier severity (userRole request) in
  (* Create ticket if escalation needed *)
  ticket_id <-
    (if needs_escalation
     then ticket <- new_ticket tier severity ;; ret (Some (ticket_id ticket))
     else ret None) ;;
  (* Add assistant message to history *)
  add_message (conv_id conversation) "assistant" (rag_answer rag_result)
              (Some kb_confidence) (Some (Tier_value tier))
              (Some (Severity_value severity))
              (map ref_id (rag_kbReferences rag_result)) false None ;;;
  (* Format KB references *)
  let kb_references := rag_kbReferences rag_result in
  let answer := rag_answer rag_result in
  (* Special handling for time drift queries *)
  let answer := time_drift_repair (message request) answer in
  (* Special handling for kernel panic queries *)
  let with_fix := is_kernel_panic_with_fix (message request) in
  (* Use original guardrail check result *)
  let guardrail_blocked :=
    if with_fix then original_guardrail_blocked else guardrail_blocked in
  let guardrail_reason :=
    if with_fix then original_guardrail_reason else guardrail_reason in
  (* Ensure escalation for kernel panic *)
  let '(needs_escalation, tier, severity) :=
    if with_fix && negb needs_escalation then (true, TIER_3, HIGH)
    else (needs_escalation, tier, severity) in
  (* Create ticket if not already created *)
  ticket_id <-
    (if with_fix && negb (has_ticket ticket_id) && needs_escalation
     then ticket <- new_ticket tier severity ;; ret (Some (Db.ticket_id ticket))
     else ret ticket_id) ;;
  (* Enhance answer to include guardrail warning while providing KB guidance *)
  let answer :=
    if with_fix && guardrail_blocked
    then kernel_panic_warning answer guardrail_reason ticket_id
    else answer in
  let answer :=
    severity_repair (message request) severity has_kb_match needs_escalation
                    ticket_id answer in
  (* Determine final guardrail status *)
  let final_guardrail_blocked := with_fix && guardrail_blocked in
  let final_guardrail_reason :=
    if final_guardrail_blocked then guardrail_reason else None in
  validated
    {| answer := answer;
       kbReferences := kb_references;
       confidence := kb_confidence;
       tier := tier;
       severity := severity;
       needsEscalation := needs_escalation;
       guardrail := {| blocked := final_guardrail_blocked;
                       reason := final_guardrail_reason |};
       ticketId := ticket_id |}.

(** The body of the [try] block of the endpoint *)
Definition chat_body (request : ChatRequest) : M ChatResponse :=
  (* Get or create conversation *)
  conversation <- get_or_create_conversation (sessionId request) (userRole request) ;;
  (* Get conversation history for context *)
  conversation_history <- get_conversation_history (sessionId request) 10 ;;
  (* Check guardrails first (except for kernel panic which needs KB first) *)
  let '(original_guardrail_blocked, original_guardrail_reason) :=
    Guardrail.check_guardrail (message request) (userRole request) in
  (* For kernel panic, allow KB retrieval even if guardrail would block *)
  let guardrail_blocked :=
    if is_kernel_panic_query (message request) && original_guardrail_blocked
    then false else original_guardrail_blocked in
  let guardrail_reason := original_guardrail_reason in
  (* Log guardrail event *)
  Guardrail.log_guardrail_event (sessionId request) guardrail_blocked guardrail_reason
                                (message request) (userRole request) ;;;
  (* If blocked by guardrail (and not kernel panic), return blocked response *)
  if guardrail_blocked && negb (is_kernel_panic_query (message request)) then
    blocked_response request conversation conversation_history guardrail_reason
  else
    (* Analyze sentiment *)
    let sentiment_result :=
      Sentiment.analyze_sentiment (message request)
                                  (Some (count_not_working conversation_history)) in
    (* Add user message to history *)
    add_message (conv_id conversation) "user" (message request)
                None None None [] false None ;;;
    (* Retrieve and generate answer *)
    let rag_result := process_query (message request) (sessionId request) 5 in
    (* Check if we should ask clarifying question *)
    let '(should_ask, clarifying_question) :=
      TierRouting.should_ask_clarifying_question
        (message request) (rag_kbReferences rag_result) conversation_history
        (rag_confidence rag_result) in
    match should_ask, clarifying_question with
    | true, Some question =>
        if truthy question then clarifying_response conversation question
        else answered_response request conversation conversation_history
               guardrail_blocked guardrail_reason
               original_guardrail_blocked original_guardrail_reason
               (Sentiment.score sentiment_result) rag_result
    | _, _ =>
        answered_response request conversation conversation_history
          guardrail_blocked guardrail_reason
          original_guardrail_blocked original_guardrail_reason
          (Sentiment.score sentiment_result) rag_result
    end.

(** [POST /api/chat]: any exception becomes a 500 answer. *)
Definition chat (request : ChatRequest) : M ChatResponse :=
  try_except (chat_body request)
    (fun e => raise (HTTPException 500 ("Internal server error: " ++ exn_str e))).

End Endpoint.

(** The clarifying-question check of the endpoint fires for this query
    and RAG result.  The check does not read the conversation history. *)
Definition asks_to_clarify (query : string) (rag_result : RagResult) : bool :=
  match TierRouting.should_ask_clarifying_question
          query (rag_kbReferences rag_result) (@nil HistoryEntry)
          (rag_confidence rag_result) with
  | (true, Some question) => truthy question
  | _ => false
  end.

(** The guardrail short-circuit of the endpoint fires for this request. *)
Definition short_circuits (request : ChatRequest) : bool :=
  fst (Guardrail.check_guardrail (message request) (userRole request))
  && negb (is_kernel_panic_query (message request)).

(** A RAG service that answers every query with the same result *)
Definition constant_rag (result : RagResult) : string -> string -> Z -> RagResult :=
  fun _ _ _ => result.

(** What [process_query] returns when retrieval finds no chunk *)
Definition not_in_kb : RagResult :=
  {| rag_answer := "I'm sorry, but this issue is not covered in the knowledge base. I recommend creating a support ticket so our team can assist you with this specific problem.";
     rag_kbReferences := [];
     rag_confidence := 0.0 |}.

(** A grounded but short answer citing one article *)
Definition short_grounded (kb_id title : string) : RagResult :=
  {| rag_answer := "Please see the article.";
     rag_kbReferences :=
       [ {| ref_id := kb_id; ref_title := title; ref_snippet := "..." |} ];
     rag_confidence := 0.5 |}.

Definition fresh_session : Session := open_session empty_tables [] 0 0.

Definition kernel_panic_request : ChatRequest :=
  {| sessionId := "session-1";
     message := "How to fix a kernel panic on my lab VM?";
     userRole := "trainee" |}.



Definition clock_request : ChatRequest :=
  {| sessionId := "session-1";
     message := "My VM clock is out of sync and login fails";
     userRole := "trainee" |}.

End Chat.
(* ================================================================== *)
(** * Properties *)

Import PyStr Regex Schemas.

Section PythonExamples.

(** The string and list operations on inputs whose Python results are
    known. *)
Example split_strip_replace :
  split ("  Two  KB docs" ++ String (ascii_of_nat 9) "say" ++ nl ++ " x ")
  = ["Two"; "KB"; "docs"; "say"; "x"] /\
  strip ("   hello world " ++ nl) = "hello world" /\
  replace "abc" "x" "abcabcab" = "xxab" /\
  replace "aa" "b" "aaaa" = "bb" /\
  replace "kb docs say different" EmptyString
          "two kb docs say different things about mfa reset"
  = "two  things about mfa reset".
Proof. vm_compute. repeat split; reflexivity. Qed.

Example case_find_slice :
  capitalize "hELLO wORLD" = "Hello world" /\
  upper "in_progress" = "IN_PROGRESS" /\
  find "l" "hello" = 2%Z /\ find "z" "hello" = (-1)%Z /\
  slice 3 7 "hello world" = "lo w" /\
  PyStr.slice_to 50 "abc" = "abc" /\
  join ", " ["a"; "b"; "c"] = "a, b, c" /\
  endswith ".0" "2.0" = true.
Proof. vm_compute. repeat split; reflexivity. Qed.

Example list_slices :
  PyList.last_n 5 [1; 2; 3; 4; 5; 6] = [2; 3; 4; 5; 6] /\
  PyList.last_n 5 [1; 2] = [1; 2] /\
  PyList.slice_to (-1) [1; 2; 3] = [1; 2] /\
  PyList.slice_to (-5) [1; 2; 3] = [] /\
  PyList.slice_to 2 [1; 2; 3] = [1; 2] /\
  PyList.sort_desc (fun p => snd p) [("a", 1); ("b", 3); ("c", 1); ("d", 3)]%Z
  = [("b", 3); ("d", 3); ("a", 1); ("c", 1)]%Z.
Proof. vm_compute. repeat split; reflexivity. Qed.

Example regex_search :
  map (search (Cat (Lit "kernel") (Cat DotStar (Cat (Lit "panic") (Cat DotStar
         (alts [Lit "fix"; Lit "debug"; gap ["how"; "to"; "fix"]]))))))
      [ "kernel panic, how can i fix it"; "fix my kernel panic";
        "kernel panic" ++ nl ++ "fix"; "kernel panic: how do i go to the fix" ]
  = [true; false; false; true] /\
  map (search (gap ["don"; "t"; "escalate"]))
      [ "please do not escalate"; "dont escalate"; "don't escalate this" ]
  = [false; true; true].
Proof. vm_compute. split; reflexivity. Qed.

End PythonExamples.

Section GuardrailFacts.
Import Guardrail.

Example check_host_access_trainee :
  check_guardrail "How do I access the host machine behind my VM?" "trainee"
  = (true, Some "Request to access host machine is not allowed").
Proof. vm_compute. reflexivity. Qed.

Example check_allow_normal :
  check_guardrail "How do I reset my password?" "trainee" = (false, None).
Proof. vm_compute. reflexivity. Qed.

Example check_hypervisor_admin :
  check_guardrail "Can I change the hypervisor settings?" "admin"
  = (true, Some "Modifying hypervisor settings is not allowed").
Proof. vm_compute. reflexivity. Qed.

Example check_system_config_by_role :
  check_guardrail "Show me the system config" "trainee"
  = (true, Some "This operation requires administrator privileges") /\
  check_guardrail "Show me the system config" "Admin" = (false, None).
Proof. vm_compute. split; reflexivity. Qed.

Example check_newline_breaks_gap :
  check_guardrail ("access the host" ++ nl ++ "machine") "trainee" = (false, None).
Proof. vm_compute. reflexivity. Qed.

Lemma first_blocked_some_existsb rules m :
  existsb (fun rule => search (fst rule) m) rules = true ->
  exists reason, first_blocked rules m = Some reason.
Proof.
  induction rules as [|[p r] rest IH]; simpl; [discriminate|].
  destruct (search p m); [eauto | exact IH].
Qed.

Lemma check_guardrail_blocked_any_role message reason :
  first_blocked BLOCKED_PATTERNS (lower message) = Some reason ->
  forall user_role, check_guardrail message user_role = (true, Some reason).
Proof. intros H role. unfold check_guardrail. rewrite H. reflexivity. Qed.

End GuardrailFacts.

Section RegexFacts.

Lemma prefix_append (l x : string) : prefix l (l ++ x) = true.
Proof.
  induction l as [|c l IH]; simpl; [now destruct x|].
  destruct (ascii_dec c c); [exact IH | contradiction].
Qed.

Lemma drop_append (l x : string) : drop (String.length l) (l ++ x) = x.
Proof. induction l as [|c l IH]; simpl; [reflexivity | exact IH]. Qed.

Lemma run_lit (l x : string) : In x (run (Lit l) (l ++ x)).
Proof. simpl. rewrite prefix_append, drop_append. now left. Qed.

Lemma dot_star_self (s : string) : In s (dot_star s).
Proof. destruct s; simpl; now left. Qed.

Lemma run_dot_star (b x : string) :
  one_line b = true -> In x (run DotStar (b ++ x)).
Proof.
  induction b as [|c b IH]; simpl; intros H.
  - apply dot_star_self.
  - apply andb_true_iff in H. destruct H as [Hc Hb].
    right. apply negb_true_iff in Hc. rewrite Hc. now apply IH.
Qed.

Lemma run_cat (r1 r2 : re) (s mid rest : string) :
  In mid (run r1 s) -> In rest (run r2 mid) -> In rest (run (Cat r1 r2) s).
Proof. intros H1 H2. simpl. apply in_flat_map. now exists mid. Qed.

Lemma match_at_of_run (r : re) (s rest : string) :
  In rest (run r s) -> match_at r s = true.
Proof. unfold match_at. destruct (run r s); [contradiction | reflexivity]. Qed.

Lemma search_append (r : re) (a s : string) :
  match_at r s = true -> search r (a ++ s) = true.
Proof.
  intros H. induction a as [|c a IH]; simpl.
  - destruct s; simpl; rewrite H; reflexivity.
  - rewrite IH. apply orb_true_r.
Qed.

(** [w1.*w2.*w3] is found in any text that holds the three words in
    this order with no line feed between them. *)
Lemma search_gap_three (w1 w2 w3 a b c d : string) :
  one_line b = true -> one_line c = true ->
  search (gap [w1; w2; w3]) (a ++ w1 ++ b ++ w2 ++ c ++ w3 ++ d) = true.
Proof.
  intros Hb Hc. apply search_append. apply (match_at_of_run _ _ d).
  cbn [gap].
  eapply run_cat; [apply run_lit|].
  eapply run_cat; [apply run_dot_star; exact Hb|].
  eapply run_cat; [apply run_lit|].
  eapply run_cat; [apply run_dot_star; exact Hc|].
  apply run_lit.
Qed.

(** [w1.*w2] likewise *)
Lemma search_gap_two (w1 w2 a b d : string) :
  one_line b = true -> search (gap [w1; w2]) (a ++ w1 ++ b ++ w2 ++ d) = true.
Proof.
  intros Hb. apply search_append. apply match_at_of_run with (rest := d).
  simpl gap.
  eapply run_cat; [apply run_lit|].
  eapply run_cat; [apply run_dot_star; exact Hb|].
  apply run_lit.
Qed.

End RegexFacts.

Section GuardrailClaim.
Import Guardrail.

Lemma first_blocked_none_existsb rules m :
  existsb (fun rule => search (fst rule) m) rules = false ->
  first_blocked rules m = None.
Proof.
  induction rules as [|[p r] rest IH]; simpl; [reflexivity|].
  destruct (search p m); [discriminate | exact IH].
Qed.

(** The exemption of rule 8: with no pattern of rules 1-7 in the
    message, an exempt role is never blocked, and any other role is
    blocked exactly on the four administrator keywords. *)
Lemma role_exemption_only_after_rules_1_7 message user_role :
  unsafe_operation message = false ->
  check_guardrail message user_role =
    if role_exempt user_role then (false, None)
    else if existsb (fun p => search p (lower message)) admin_keywords
         then (true, Some "This operation requires administrator privileges")
         else (false, None).
Proof.
  intros H. unfold check_guardrail, role_exempt.
  rewrite (first_blocked_none_existsb _ _ H).
  destruct (mem (lower user_role) _); reflexivity.
Qed.

(** A message that says access, host and machine in this order on one
    line is blocked for every role, with the host-machine reason. *)
Corollary access_host_machine_blocked (message a b c d : string) :
  lower message = a ++ "access" ++ b ++ "host" ++ c ++ "machine" ++ d ->
  one_line b = true -> one_line c = true ->
  forall user_role,
    check_guardrail message user_role
    = (true, Some "Request to access host machine is not allowed").
Proof.
  intros E Hb Hc user_role. unfold check_guardrail, BLOCKED_PATTERNS.
  cbn [first_blocked]. rewrite E.
  rewrite (search_gap_three "access" "host" "machine" a b c d Hb Hc).
  reflexivity.
Qed.

(** The same for host, machine and access in this order. *)
Corollary host_machine_access_blocked (message a b c d : string) :
  lower message = a ++ "host" ++ b ++ "machine" ++ c ++ "access" ++ d ->
  one_line b = true -> one_line c = true ->
  forall user_role,
    check_guardrail message user_role
    = (true, Some "Request to access host machine is not allowed").
Proof.
  intros E Hb Hc user_role. apply check_guardrail_blocked_any_role.
  unfold BLOCKED_PATTERNS. cbn [first_blocked]. rewrite E.
  rewrite (search_gap_three "host" "machine" "access" a b c d Hb Hc).
  now destruct (search _ _).
Qed.

(** A message that says behind and vm in this order on one line is
    blocked for every role; the reason is that of the first pattern
    found, each of which names the host machine. *)
Corollary behind_vm_blocked (message a b d : string) :
  lower message = a ++ "behind" ++ b ++ "vm" ++ d ->
  one_line b = true ->
  exists reason,
    contains "host machine" reason = true /\
    forall user_role, check_guardrail message user_role = (true, Some reason).
Proof.
  intros E Hb.
  assert (H : exists reason,
             contains "host machine" reason = true /\
             first_blocked BLOCKED_PATTERNS (lower message) = Some reason).
  { unfold BLOCKED_PATTERNS. cbn [first_blocked].
    destruct (search (gap ["access"; "host"; "machine"]) (lower message));
      [exists "Request to access host machine is not allowed"; split; reflexivity|].
    destruct (search (gap ["host"; "machine"; "access"]) (lower message));
      [exists "Request to access host machine is not allowed"; split; reflexivity|].
    rewrite E. rewrite (search_gap_two "behind" "vm" a b d Hb).
    exists "Accessing host machine behind VM is not allowed". split; reflexivity. }
  destruct H as [reason [Hr Hf]]. exists reason. split; [exact Hr|].
  now apply check_guardrail_blocked_any_role.
Qed.

(** C1 as stated fails: the patterns cross no line feed, so a message
    that holds the phrase with host and machine on two lines is let
    through, for an administrator as for a trainee. *)
Lemma C1_counterexample :
  lower ("How do I access the host" ++ nl ++ "machine?")
  = "how do i " ++ "access" ++ " the " ++ "host" ++ nl ++ "machine" ++ "?" /\
  check_guardrail ("How do I access the host" ++ nl ++ "machine?") "admin"
  = (false, None) /\
  check_guardrail ("How do I access the host" ++ nl ++ "machine?") "trainee"
  = (false, None).
Proof. vm_compute. repeat split; reflexivity. Qed.

(** C1, amended. A message whose lower-cased text holds access, host
    and machine in this order, or host, machine and access, or behind
    and vm, with no line feed between the first and the last of these
    words, is blocked for every caller role, the admin and
    support-engineer roles included, with one reason that contains the
    words host machine.  More generally, whenever a pattern of rules 1-7
    is found in a message the check blocks it with the same reason for
    every role.  The role is read only after all of [BLOCKED_PATTERNS]
    failed: then an exempt role is never blocked, and any other role is
    blocked exactly on the four role-based patterns. *)
Theorem C1_host_machine_phrase_on_one_line_blocks_every_role :
  forall message : string,
    ((exists a b c d : string,
         lower message = a ++ "access" ++ b ++ "host" ++ c ++ "machine" ++ d /\
         one_line b = true /\ one_line c = true) \/
     (exists a b c d : string,
         lower message = a ++ "host" ++ b ++ "machine" ++ c ++ "access" ++ d /\
         one_line b = true /\ one_line c = true) \/
     (exists a b d : string,
         lower message = a ++ "behind" ++ b ++ "vm" ++ d /\ one_line b = true) ->
     exists reason : string,
       contains "host machine" reason = true /\
       forall user_role : string,
         check_guardrail message user_role = (true, Some reason)) /\
    (unsafe_operation message = true ->
     exists reason : string,
       forall user_role : string,
         check_guardrail message user_role = (true, Some reason)) /\
    (unsafe_operation message = false ->
     forall user_role : string,
       check_guardrail message user_role =
         if role_exempt user_role then (false, None)
         else if existsb (fun p => search p (lower message)) admin_keywords
              then (true, Some "This operation requires administrator privileges")
              else (false, None)).
Proof.
  intros message. split; [|split].
  - intros [(a & b & c & d & E & Hb & Hc) | [(a & b & c & d & E & Hb & Hc) | (a & b & d & E & Hb)]].
    + exists "Request to access host machine is not allowed". split; [reflexivity|].
      now apply access_host_machine_blocked with a b c d.
    + exists "Request to access host machine is not allowed". split; [reflexivity|].
      now apply host_machine_access_blocked with a b c d.
    + now apply behind_vm_blocked with a b d.
  - intros H.
    destruct (first_blocked_some_existsb _ _ H) as [reason E].
    exists reason. now apply check_guardrail_blocked_any_role.
  - intros H user_role. now apply role_exemption_only_after_rules_1_7.
Qed.

Lemma C1_witness :
  (exists reason : string,
      contains "host machine" reason = true /\
      forall user_role : string,
        check_guardrail "How do I access the host machine behind my VM?" user_role
        = (true, Some reason)) /\
  (exists reason : string,
      forall user_role : string,
        check_guardrail "Show me how to disable logging" user_role
        = (true, Some reason)) /\
  check_guardrail "Show me the system config" "Support_Engineer" = (false, None) /\
  check_guardrail "Show me the system config" "instructor"
  = (true, Some "This operation requires administrator privileges").
Proof.
  split; [|split; [|split]].
  - apply (proj1 (C1_host_machine_phrase_on_one_line_blocks_every_role
                    "How do I access the host machine behind my VM?")).
    left. exists "how do i ", " the ", " ", " behind my vm?".
    repeat split; reflexivity.
  - apply (proj1 (proj2 (C1_host_machine_phrase_on_one_line_blocks_every_role
                           "Show me how to disable logging"))).
    vm_compute. reflexivity.
  - apply (proj2 (proj2 (C1_host_machine_phrase_on_one_line_blocks_every_role
                           "Show me the system config"))).
    vm_compute. reflexivity.
  - apply (proj2 (proj2 (C1_host_machine_phrase_on_one_line_blocks_every_role
                           "Show me the system config"))).
    vm_compute. reflexivity.
Defined.

End GuardrailClaim.

Section ClassifierFacts.
Import TierRouting Num.

(** The unit tests of [tests/test_tier_routing.py]. *)
Example test_tier_1_high_confidence :
  classify_tier_and_severity "How do I reset my password?" 0.9 0.2 true 0
  = (TIER_1, LOW, false).
Proof. vm_compute. reflexivity. Qed.

Example test_tier_3_critical_issue :
  classify_tier_and_severity "My lab VM crashed and I lost all my work" 0.3 0.8 false 0
  = (TIER_3, CRITICAL, true).
Proof. vm_compute. reflexivity. Qed.

Example test_escalation_after_multiple_attempts :
  classify_tier_and_severity "This still doesn't work" 0.7 0.5 true 3
  = (TIER_3, MEDIUM, true).
Proof. vm_compute. reflexivity. Qed.

Lemma Severity_eqb_eq a b : Severity_eqb a b = true <-> a = b.
Proof. destruct a, b; simpl; split; intros H; try reflexivity; discriminate. Qed.

(** C10. A CRITICAL result always comes with TIER_3 and with escalation:
    the tier test starts with the severity, the good-KB-match override
    asks for LOW or MEDIUM and the ambiguous-query override for a
    severity other than CRITICAL. *)
Theorem C10_critical_implies_tier3_and_escalation :
  forall (query : string) (kb_match_confidence sentiment_score : Q)
         (has_kb_match : bool) (unresolved_attempts : Z)
         (tier : Tier) (severity : Severity) (needs_escalation : bool),
    classify_tier_and_severity query kb_match_confidence sentiment_score
                               has_kb_match unresolved_attempts
    = (tier, severity, needs_escalation) ->
    severity = CRITICAL ->
    tier = TIER_3 /\ needs_escalation = true.
Proof.
  intros query conf sent hkb att tier severity esc E Hs.
  unfold classify_tier_and_severity in E.
  match type of E with
  | context [Severity_eqb ?s CRITICAL] => remember s as sev eqn:Hsev
  end.
  clear Hsev.
  injection E as Et Es Ee. subst sev severity.
  cbn [Severity_eqb low_or_medium orb andb negb] in *.
  rewrite !andb_false_r in Ee. cbn in Et, Ee.
  split; congruence.
Qed.

Lemma C10_witness :
  TIER_3 = TIER_3 /\ true = true.
Proof.
  apply (C10_critical_implies_tier3_and_escalation
           "The wrong environment crashed" 0.9 0.1 true 0 TIER_3 CRITICAL true).
  - vm_compute. reflexivity.
  - reflexivity.
Defined.

(** C5 as stated fails: three unresolved attempts, a calm user and a
    decent KB match give TIER_3 without escalation. *)
Lemma C5_counterexample :
  contains "still doesn't work" (lower "This still doesn't work") = true /\
  classify_tier_and_severity "This still doesn't work" 0.7 0.4 true 3
  = (TIER_3, MEDIUM, false).
Proof. vm_compute. split; reflexivity. Qed.

Example three_attempts_ambiguous_query :
  classify_tier_and_severity "The environment still doesn't work" 0.7 0.5 true 3
  = (TIER_3, MEDIUM, false).
Proof. vm_compute. reflexivity. Qed.

(** C5, amended. With three or more unresolved attempts the tier is
    TIER_3, and escalation is requested exactly when neither later
    override applies: the good-KB-match override (a KB match of confidence
    at least 0.3, severity LOW or MEDIUM, sentiment below 0.5) and the
    ambiguous-environment override (an ambiguous query that is not
    CRITICAL) both cancel it. *)
Theorem C5_three_attempts_escalate_unless_overridden :
  forall (query : string) (kb_match_confidence sentiment_score : Q)
         (has_kb_match : bool) (unresolved_attempts : Z)
         (tier : Tier) (severity : Severity) (needs_escalation : bool),
    (3 <= unresolved_attempts)%Z ->
    classify_tier_and_severity query kb_match_confidence sentiment_score
                               has_kb_match unresolved_attempts
    = (tier, severity, needs_escalation) ->
    tier = TIER_3 /\
    needs_escalation =
      negb ((has_kb_match && Qgeb kb_match_confidence 0.3
             && low_or_medium severity && Qltb sentiment_score 0.5)
            || (is_ambiguous_environment_query query
                && negb (Severity_eqb severity CRITICAL))).
Proof.
  intros query conf sent hkb att tier severity esc Hatt E.
  unfold classify_tier_and_severity in E.
  match type of E with
  | context [Severity_eqb ?s CRITICAL] => remember s as sev eqn:Hsev
  end.
  clear Hsev.
  assert (H3 : (3 <=? att)%Z = true) by (apply Z.leb_le; lia).
  rewrite H3 in E. rewrite !orb_true_r in E. cbn [Tier_eqb orb] in E.
  injection E as Et Es Ee. subst sev. split; [congruence|].
  rewrite <- Ee.
  destruct (hkb && Qgeb conf 0.3 && low_or_medium severity && Qltb sent 0.5);
    destruct (is_ambiguous_environment_query query && negb (Severity_eqb severity CRITICAL));
    reflexivity.
Qed.

Lemma C5_witness :
  TIER_3 = TIER_3 /\
  true = negb ((true && Qgeb 0.7 0.3 && low_or_medium MEDIUM && Qltb 0.5 0.5)
               || (is_ambiguous_environment_query "This still doesn't work"
                   && negb (Severity_eqb MEDIUM CRITICAL))).
Proof.
  apply (C5_three_attempts_escalate_unless_overridden
           "This still doesn't work" 0.7 0.5 true 3 TIER_3 MEDIUM true).
  - lia.
  - vm_compute. reflexivity.
Defined.

End ClassifierFacts.

(** Unfold the monadic plumbing of a database computation. *)
Ltac db_unfold :=
  cbv beta iota zeta
      delta [Db.bind Db.ret Db.raise Db.try_except Db.get_view Db.set_view
             Db.uuid4 Db.utcnow Db.rollback
             Db.add_ticket Db.add_conversation Db.add_message_row
             Db.add_guardrail_event Db.set_tickets Db.set_conversations];
  cbn [Db.stored Db.view Db.faults Db.uuids Db.clock
       Db.conversations Db.messages Db.tickets Db.guardrail_events].

Section TicketFacts.
Import Db Escalation Tickets.

Lemma commit_ok s :
  next_commit_succeeds s ->
  commit s = (Return tt, {| stored := view s; view := view s; faults := tl (faults s);
                            uuids := uuids s; clock := clock s |}).
Proof.
  unfold next_commit_succeeds, commit.
  destruct (faults s) as [|[m|] rest]; simpl; intros H; [reflexivity | contradiction | reflexivity].
Qed.

Lemma find_update_where {A} (p : A -> bool) (f : A -> A) (rows : list A) (r : A) :
  (forall x, p (f x) = p x) ->
  List.find p rows = Some r ->
  List.find p (update_where p f rows) = Some (f r).
Proof.
  intros Hp. induction rows as [|x rest IH]; simpl; [discriminate|].
  destruct (p x) eqn:E.
  - intros H. injection H as <-. rewrite Hp, E. reflexivity.
  - rewrite E. exact IH.
Qed.

Lemma with_status_id status now k : ticket_id (with_status status now k) = ticket_id k.
Proof. unfold with_status. destruct (String.eqb _ _); reflexivity. Qed.

Lemma with_status_status status now k : ticket_status (with_status status now k) = status.
Proof.
  unfold with_status. destruct (String.eqb _ _) eqn:E; [|reflexivity].
  now apply String.eqb_eq in E.
Qed.

Lemma create_ticket_persists_new session_id conversation_id subject description
      tier severity user_role s :
  next_commit_succeeds s ->
  exists ticket s',
    create_ticket session_id conversation_id subject description tier severity user_role s
    = (Return ticket, s') /\
    ticket_status ticket = "NEW" /\
    In ticket (tickets (stored s')).
Proof.
  intros H.
  unfold create_ticket. db_unfold.
  rewrite commit_ok by exact H. db_unfold.
  eexists. eexists. split; [reflexivity|]. split; [reflexivity|].
  apply in_or_app. right. left. reflexivity.
Qed.

Lemma create_ticket_failure_reraised session_id conversation_id subject description
      tier severity user_role s message rest :
  faults s = Some message :: rest ->
  exists s',
    create_ticket session_id conversation_id subject description tier severity user_role s
    = (Raise (SQLAlchemyError message), s') /\
    view s' = stored s /\ stored s' = stored s.
Proof.
  intros H.
  unfold create_ticket. db_unfold. unfold commit. db_unfold. rewrite H. db_unfold.
  eexists. split; [reflexivity|]. split; reflexivity.
Qed.

Lemma update_invalid_status id status s ticket :
  List.find (fun k => String.eqb (ticket_id k) id) (tickets (view s)) = Some ticket ->
  TicketStatus_of_value (PyStr.upper status) = None ->
  update_ticket_status id status s
  = (Raise (HTTPException 400 ("Invalid status: " ++ status)), s).
Proof.
  intros Hf Hv.
  unfold update_ticket_status, reraise_http, ticket_by_id. db_unfold.
  rewrite Hf, Hv. reflexivity.
Qed.

Lemma update_missing_ticket id status s :
  List.find (fun k => String.eqb (ticket_id k) id) (tickets (view s)) = None ->
  update_ticket_status id status s = (Raise (HTTPException 404 "Ticket not found"), s).
Proof.
  intros Hf.
  unfold update_ticket_status, reraise_http, ticket_by_id. db_unfold.
  rewrite Hf. reflexivity.
Qed.

Lemma get_missing_ticket id s :
  List.find (fun k => String.eqb (ticket_id k) id) (tickets (view s)) = None ->
  get_ticket id s = (Raise (HTTPException 404 "Ticket not found"), s).
Proof.
  intros Hf.
  unfold get_ticket, reraise_http, ticket_by_id. db_unfold.
  rewrite Hf. reflexivity.
Qed.

Lemma update_valid_status id status s ticket st :
  List.find (fun k => String.eqb (ticket_id k) id) (tickets (view s)) = Some ticket ->
  TicketStatus_of_value (PyStr.upper status) = Some st ->
  next_commit_succeeds s ->
  exists s' stored_ticket,
    update_ticket_status id status s
    = (Return {| upd_message := "Ticket status updated";
                 upd_ticket_id := id;
                 upd_status := PyStr.upper status |}, s') /\
    List.find (fun k => String.eqb (ticket_id k) id) (tickets (stored s'))
    = Some stored_ticket /\
    ticket_status stored_ticket = PyStr.upper status.
Proof.
  intros Hf Hv Hc.
  assert (Hid : ticket_id ticket = id).
  { apply List.find_some in Hf. destruct Hf as [_ Hf]. now apply String.eqb_eq in Hf. }
  unfold update_ticket_status, reraise_http, ticket_by_id. db_unfold.
  rewrite Hf, Hv. db_unfold.
  rewrite commit_ok by exact Hc. db_unfold.
  rewrite Hid.
  eexists. eexists. split; [reflexivity|].
  cbn [stored tickets]. split.
  - apply find_update_where; [|exact Hf].
    intros x. rewrite with_status_id. reflexivity.
  - apply with_status_status.
Qed.

End TicketFacts.

Section TicketClaim.
Import Db Escalation Tickets.

Example status_is_case_insensitive :
  TicketStatus_of_value (upper "in_Progress") = Some IN_PROGRESS /\
  TicketStatus_of_value (upper "BOGUS") = None.
Proof. vm_compute. split; reflexivity. Qed.

(** C6. On a session whose next commit is accepted, [create_ticket]
    stores the ticket with status NEW.  For a ticket that exists,
    [update_ticket_status] answers 400 to a status that is not one of the
    four names once upper-cased and leaves the session as it was;
    otherwise it stores the upper-cased status and returns the message,
    the ticket id and that status.  For an id that is not stored, both
    [update_ticket_status] and [get_ticket] answer 404. *)
Theorem C6_ticket_status_lifecycle :
  forall (s : Session) (id status : string),
    (forall session_id conversation_id subject description tier severity user_role,
        next_commit_succeeds s ->
        exists ticket s',
          create_ticket session_id conversation_id subject description
                        tier severity user_role s = (Return ticket, s') /\
          ticket_status ticket = "NEW" /\
          In ticket (tickets (stored s'))) /\
    (forall ticket,
        List.find (fun k => String.eqb (ticket_id k) id) (tickets (view s)) = Some ticket ->
        TicketStatus_of_value (upper status) = None ->
        update_ticket_status id status s
        = (Raise (HTTPException 400 ("Invalid status: " ++ status)), s)) /\
    (List.find (fun k => String.eqb (ticket_id k) id) (tickets (view s)) = None ->
     update_ticket_status id status s = (Raise (HTTPException 404 "Ticket not found"), s) /\
     get_ticket id s = (Raise (HTTPException 404 "Ticket not found"), s)) /\
    (forall ticket st,
        List.find (fun k => String.eqb (ticket_id k) id) (tickets (view s)) = Some ticket ->
        TicketStatus_of_value (upper status) = Some st ->
        next_commit_succeeds s ->
        exists s' stored_ticket,
          update_ticket_status id status s
          = (Return {| upd_message := "Ticket status updated";
                       upd_ticket_id := id;
                       upd_status := upper status |}, s') /\
          List.find (fun k => String.eqb (ticket_id k) id) (tickets (stored s'))
          = Some stored_ticket /\
          ticket_status stored_ticket = upper status).
Proof.
  intros s id status. repeat split.
  - intros. now apply create_ticket_persists_new.
  - intros ticket Hf Hv. now apply (update_invalid_status id status s ticket).
  - now apply update_missing_ticket.
  - now apply get_missing_ticket.
  - intros ticket st Hf Hv Hc. now apply (update_valid_status id status s ticket st).
Qed.

End TicketClaim.

Section TicketWitness.
Import Db Escalation Tickets.

Lemma C6_witness :
  (exists ticket s',
      create_ticket "session-1" "conversation-1" "subject" "description"
                    TIER_2 MEDIUM "trainee" sample_session = (Return ticket, s') /\
      ticket_status ticket = "NEW" /\
      In ticket (tickets (stored s'))) /\
  update_ticket_status (render_uuid 0) "BOGUS" sample_session
  = (Raise (HTTPException 400 "Invalid status: BOGUS"), sample_session) /\
  (update_ticket_status "no-such-id" "closed" sample_session
   = (Raise (HTTPException 404 "Ticket not found"), sample_session) /\
   get_ticket "no-such-id" sample_session
   = (Raise (HTTPException 404 "Ticket not found"), sample_session)) /\
  (exists s' stored_ticket,
      update_ticket_status (render_uuid 0) "resolved" sample_session
      = (Return {| upd_message := "Ticket status updated";
                   upd_ticket_id := render_uuid 0;
                   upd_status := "RESOLVED" |}, s') /\
      List.find (fun k => String.eqb (ticket_id k) (render_uuid 0)) (tickets (stored s'))
      = Some stored_ticket /\
      ticket_status stored_ticket = "RESOLVED").
Proof.
  split; [|split; [|split]].
  - apply (proj1 (C6_ticket_status_lifecycle sample_session "any" "any")).
    exact I.
  - apply (proj1 (proj2 (C6_ticket_status_lifecycle sample_session (render_uuid 0) "BOGUS"))
             sample_ticket); vm_compute; reflexivity.
  - apply (proj1 (proj2 (proj2 (C6_ticket_status_lifecycle sample_session "no-such-id" "closed")))).
    vm_compute. reflexivity.
  - apply (proj2 (proj2 (proj2 (C6_ticket_status_lifecycle sample_session (render_uuid 0) "resolved")))
             sample_ticket RESOLVED); [vm_compute; reflexivity | vm_compute; reflexivity | exact I].
Defined.

End TicketWitness.

Section GuardrailLogClaim.
Import Db Guardrail.

(** C4 as stated fails: with a database that rejects the commit the
    logging operation returns normally, nothing is raised to the caller. *)
Lemma C4_counterexample :
  fst (log_guardrail_event "session-1" true (Some "Disabling logging is not allowed")
                           "Show me how to disable logging" "trainee"
                           (open_session empty_tables [Some "database is locked"] 0 0))
  = Return tt /\
  ~ (exists e,
        fst (log_guardrail_event "session-1" true
               (Some "Disabling logging is not allowed")
               "Show me how to disable logging" "trainee"
               (open_session empty_tables [Some "database is locked"] 0 0))
        = Raise e).
Proof.
  split; [vm_compute; reflexivity|].
  intros [e He]. vm_compute in He. discriminate.
Qed.

(** C4, amended. When the commit of a guardrail event fails, the logging
    operation rolls the session back to what the database holds, so that
    no event is stored, and returns normally: the failure is logged and
    swallowed, not raised to the chat endpoint. *)
Theorem C4_logging_failure_rolled_back_and_swallowed :
  forall (session_id : string) (blocked : bool) (reason : option string)
         (message_content user_role : string) (s : Session)
         (message : string) (rest : list (option string)),
    faults s = Some message :: rest ->
    exists s',
      log_guardrail_event session_id blocked reason message_content user_role s
      = (Return tt, s') /\
      view s' = stored s /\ stored s' = stored s.
Proof.
  intros session_id blocked reason content role s message rest H.
  unfold log_guardrail_event. db_unfold. unfold commit. db_unfold.
  rewrite H. db_unfold.
  eexists. split; [reflexivity|]. split; reflexivity.
Qed.

Lemma C4_witness :
  exists s',
    log_guardrail_event "session-1" true (Some "Disabling logging is not allowed")
                        "Show me how to disable logging" "trainee"
                        (open_session empty_tables [Some "database is locked"] 0 0)
    = (Return tt, s') /\
    view s' = empty_tables /\ stored s' = empty_tables.
Proof.
  apply (C4_logging_failure_rolled_back_and_swallowed
           "session-1" true (Some "Disabling logging is not allowed")
           "Show me how to disable logging" "trainee"
           (open_session empty_tables [Some "database is locked"] 0 0)
           "database is locked" []).
  reflexivity.
Defined.

(** Whatever the database does, the logging operation never raises. *)
Lemma log_guardrail_event_never_raises session_id blocked reason content role s :
  exists s', log_guardrail_event session_id blocked reason content role s = (Return tt, s').
Proof.
  unfold log_guardrail_event. db_unfold. unfold commit. db_unfold.
  destruct (faults s) as [|[m|] rest]; db_unfold; eexists; reflexivity.
Qed.

End GuardrailLogClaim.

Section TrendsFacts.
Import Db DateTime Metrics.
Local Open Scope Z_scope.

Example strftime_examples :
  strftime_Ymd 0 = "1970-01-01" /\
  strftime_Ymd afternoon_2024_01_10 = "2024-01-10" /\
  strftime_Ymd (-1) = "1969-12-31" /\
  strftime_Ymd MIN = "0001-01-01" /\
  strftime_Ymd MAX = "9999-12-31" /\
  strftime_Ymd (19782 * MICROS_PER_DAY) = "2024-02-29".
Proof. vm_compute. repeat split; reflexivity. Qed.

(** C9 at a concrete request.  At 15:30 on 2024-01-10, with one
    conversation created at 09:00 that same day, the one-day trend
    reports the conversation under the date 2024-01-09 and nothing under
    2024-01-10: the windows run from 15:30 to 15:30, not over the
    calendar days whose dates label them. *)
Theorem C9_trend_windows_start_at_the_time_of_day :
  strftime_Ymd (conv_created_at morning_conversation) = "2024-01-10"%string /\
  option_map fst (get_metrics_trends 3 1 one_conversation_session)
  = Some (Return
            [ {| date := "2024-01-09"; trend_conversations := 1; trend_tickets := 0;
                 trend_guardrailActivations := 0; trend_escalations := 0 |};
              {| date := "2024-01-10"; trend_conversations := 0; trend_tickets := 0;
                 trend_guardrailActivations := 0; trend_escalations := 0 |} ]).
Proof. vm_compute. split; reflexivity. Qed.

End TrendsFacts.

Section TrendsShape.
Import Db DateTime Metrics.
Local Open Scope Z_scope.

Lemma windows_succ t current_date k :
  windows t current_date (S k)
  = trend_entry t current_date (current_date + MICROS_PER_DAY)
    :: windows t (current_date + MICROS_PER_DAY) k.
Proof.
  unfold windows. simpl seq. cbn [map]. rewrite <- seq_shift, map_map.
  f_equal.
  - f_equal; lia.
  - apply map_ext. intros i. f_equal; lia.
Qed.

Lemma plus_in_range t delta s :
  MIN <= t + delta <= MAX -> plus t delta s = (Return (t + delta), s).
Proof.
  intros [H1 H2]. unfold plus.
  apply Z.leb_le in H1, H2. rewrite H1, H2. reflexivity.
Qed.

Lemma trends_loop_rounds t end_date s :
  forall (k fuel : nat) (current_date : Z) (trends : list MetricsTrends),
    (k <= fuel)%nat ->
    MIN <= current_date ->
    current_date + Z.of_nat k * MICROS_PER_DAY <= MAX ->
    end_date < current_date + Z.of_nat k * MICROS_PER_DAY ->
    (forall i, (i < k)%nat -> current_date + Z.of_nat i * MICROS_PER_DAY <= end_date) ->
    trends_loop fuel t current_date end_date trends s
    = Some (Return (trends ++ windows t current_date k)%list, s).
Proof.
  induction k as [|k IH]; intros fuel current_date trends Hf Hmin Hmax Hend Hle.
  - assert (E : (current_date <=? end_date) = false) by (apply Z.leb_gt; lia).
    destruct fuel; simpl; rewrite E; unfold windows; simpl; now rewrite app_nil_r.
  - destruct fuel as [|fuel]; [lia|].
    assert (E : (current_date <=? end_date) = true).
    { apply Z.leb_le. specialize (Hle 0%nat). simpl in Hle. rewrite Z.add_0_r in Hle.
      apply Hle. lia. }
    assert (HD : 0 < MICROS_PER_DAY) by reflexivity.
    cbn [trends_loop]. rewrite E.
    rewrite plus_in_range by nia.
    rewrite IH; try lia.
    + rewrite windows_succ, <- app_assoc. reflexivity.
    + intros i Hi. specialize (Hle (S i)). lia.
Qed.

(** With enough rounds the trends of a window of [days] days are the
    [days + 1] entries of the 24-hour windows that start at
    [now - days], [now - days + 1], ..., [now]. *)
Lemma get_metrics_trends_windows (fuel : nat) (days : Z) (s : Session) :
  0 <= days <= 999999999 ->
  (Z.to_nat days < fuel)%nat ->
  MIN <= clock s - days * MICROS_PER_DAY ->
  clock s + MICROS_PER_DAY <= MAX ->
  option_map fst (get_metrics_trends fuel days s)
  = Some (Return (windows (view s) (clock s - days * MICROS_PER_DAY)
                          (S (Z.to_nat days)))).
Proof.
  intros Hd Hf Hmin Hmax.
  assert (HD : 0 < MICROS_PER_DAY) by reflexivity.
  unfold get_metrics_trends, timedelta_days. db_unfold.
  assert (E : (Z.abs days <=? 999999999) = true) by (apply Z.leb_le; lia).
  rewrite E. db_unfold.
  replace (clock s + - (days * MICROS_PER_DAY)) with (clock s - days * MICROS_PER_DAY) by lia.
  rewrite plus_in_range by (unfold plus; lia).
  db_unfold.
  rewrite (trends_loop_rounds _ _ _ (S (Z.to_nat days))); try lia.
  - reflexivity.
  - intros i Hi. nia.
Qed.

End TrendsShape.

Section SortFacts.
Import PyList.
Local Open Scope Z_scope.
Context {A : Type} (key : A -> Z).

Lemma insert_desc_perm x l : Permutation (insert_desc key x l) (x :: l).
Proof.
  induction l as [|y rest IH]; simpl; [reflexivity|].
  destruct (key y <=? key x); [reflexivity|].
  rewrite IH. apply perm_swap.
Qed.

Lemma sort_desc_perm l : Permutation (sort_desc key l) l.
Proof.
  induction l as [|x rest IH]; simpl; [reflexivity|].
  rewrite insert_desc_perm. now constructor.
Qed.

Lemma insert_desc_sorted x l :
  StronglySorted (desc key) l -> StronglySorted (desc key) (insert_desc key x l).
Proof.
  induction 1 as [|y rest Hs IH Hall]; simpl.
  - repeat constructor.
  - destruct (key y <=? key x) eqn:E.
    + apply Z.leb_le in E. constructor; [now constructor|].
      constructor; [exact E|].
      eapply Forall_impl; [|exact Hall]. unfold desc. intros z Hz. lia.
    + apply Z.leb_gt in E. constructor; [exact IH|].
      eapply Permutation_Forall; [symmetry; apply insert_desc_perm|].
      constructor; [unfold desc; lia | exact Hall].
Qed.

Lemma sort_desc_sorted l : StronglySorted (desc key) (sort_desc key l).
Proof.
  induction l as [|x rest IH]; simpl; [constructor|].
  now apply insert_desc_sorted.
Qed.

(** In a descending list the keys do not grow with the position. *)
Lemma sorted_positions l :
  StronglySorted (desc key) l ->
  forall i j x y,
    (i < j)%nat -> nth_error l i = Some x -> nth_error l j = Some y ->
    key y <= key x.
Proof.
  induction 1 as [|z rest Hs IH Hall]; intros i j x y Hij Hi Hj.
  - destruct i; discriminate.
  - destruct j as [|j]; [lia|]. simpl in Hj.
    destruct i as [|i]; simpl in Hi.
    + injection Hi as <-. apply nth_error_In in Hj.
      rewrite Forall_forall in Hall. now apply Hall.
    + apply (IH i j); [lia | assumption | assumption].
Qed.

(** An entry of larger key than the one at position [j] stands before it. *)
Lemma larger_key_stands_before l x y j :
  StronglySorted (desc key) l ->
  In x l -> nth_error l j = Some y -> key y < key x ->
  exists i, (i < j)%nat /\ nth_error l i = Some x.
Proof.
  intros Hs Hin Hj Hlt.
  destruct (In_nth_error _ _ Hin) as [i Hi].
  exists i. split; [|exact Hi].
  destruct (Nat.lt_trichotomy i j) as [H|[H|H]]; [exact H| |].
  - subst i. rewrite Hi in Hj. injection Hj as ->. lia.
  - pose proof (sorted_positions l Hs j i y x H Hj Hi). lia.
Qed.

Lemma slice_to_firstn (k : Z) (l : list A) :
  exists n, slice_to k l = firstn n l.
Proof. unfold slice_to. destruct (k <? 0); eexists; reflexivity. Qed.

Lemma nth_error_firstn_some n (l : list A) j y :
  nth_error (firstn n l) j = Some y -> (j < n)%nat /\ nth_error l j = Some y.
Proof.
  revert l j. induction n as [|n IH]; intros l j H.
  - simpl in H. destruct j; discriminate.
  - destruct l as [|z rest]; [destruct j; discriminate|].
    destruct j as [|j]; simpl in *.
    + split; [lia | exact H].
    + destruct (IH _ _ H). split; [lia | assumption].
Qed.

Lemma nth_error_firstn_lt n (l : list A) i :
  (i < n)%nat -> nth_error (firstn n l) i = nth_error l i.
Proof.
  revert l i. induction n as [|n IH]; intros l i H; [lia|].
  destruct l as [|z rest]; [reflexivity|].
  destruct i as [|i]; simpl; [reflexivity|]. apply IH. lia.
Qed.

Lemma filter_all_length (p : A -> bool) (l : list A) :
  Forall (fun y => p y = true) l -> List.length (filter p l) = List.length l.
Proof.
  induction 1 as [|y rest Hy _ IH]; simpl; [reflexivity|].
  rewrite Hy. simpl. now rewrite IH.
Qed.

Lemma filter_filter_length (p q : A -> bool) (l : list A) :
  (List.length (filter p (filter q l)) <= List.length (filter p l))%nat.
Proof.
  induction l as [|y rest IH]; simpl; [lia|].
  destruct (q y), (p y) eqn:E; simpl; rewrite ?E; simpl; lia.
Qed.

Lemma filter_perm_length (p : A -> bool) (l l' : list A) :
  Permutation l l' -> List.length (filter p l) = List.length (filter p l').
Proof.
  induction 1 as [|x l l' _ IH|x y l|l l' l'' _ IH1 _ IH2]; simpl.
  - reflexivity.
  - destruct (p x); simpl; now rewrite IH.
  - destruct (p x), (p y); reflexivity.
  - now rewrite IH1.
Qed.

(** In a descending list every entry up to a position has at least the
    key found there. *)
Lemma sorted_firstn_keys l :
  StronglySorted (desc key) l ->
  forall i x, nth_error l i = Some x ->
              Forall (fun y => (key x <=? key y) = true) (firstn (S i) l).
Proof.
  induction 1 as [|z rest Hs IH Hall]; intros i x Hi.
  - destruct i; discriminate.
  - destruct i as [|i]; simpl in Hi.
    + injection Hi as <-. simpl. constructor; [apply Z.leb_refl | constructor].
    + change (firstn (S (S i)) (z :: rest)) with (z :: firstn (S i) rest).
      constructor; [|now apply IH].
      apply Z.leb_le. apply nth_error_In in Hi.
      rewrite Forall_forall in Hall. now apply Hall.
Qed.

(** So the position of an entry is below the number of entries with at
    least its key. *)
Lemma position_below_count l i x :
  StronglySorted (desc key) l -> nth_error l i = Some x ->
  (i < List.length (filter (fun y => (key x <=? key y)%Z) l))%nat.
Proof.
  intros Hs Hi.
  assert (Hlen : (i < List.length l)%nat) by (apply nth_error_Some; congruence).
  rewrite <- (firstn_skipn (S i) l), filter_app, length_app.
  rewrite (filter_all_length _ _ (sorted_firstn_keys l Hs i x Hi)).
  rewrite length_firstn. lia.
Qed.

End SortFacts.

Section KeywordSearchFacts.
Import PyList Db KeywordSearch.
Local Open Scope Z_scope.

Lemma fold_score_bounds (f : string -> Z) (lo hi : Z) (words : list string) :
  (forall w, In w words -> lo <= f w <= hi) ->
  forall init,
    init + lo * Z.of_nat (List.length words)
    <= fold_left (fun score w => score + f w) words init
    <= init + hi * Z.of_nat (List.length words).
Proof.
  induction words as [|w rest IH]; intros H init.
  - simpl. lia.
  - cbn [fold_left List.length].
    assert (Hw : lo <= f w <= hi) by (apply H; now left).
    assert (Hr : forall w', In w' rest -> lo <= f w' <= hi) by (intros; apply H; now right).
    specialize (IH Hr (init + f w)). lia.
Qed.

Lemma kb_id_lower_eq (kb_id : string) :
  (if truthy kb_id then lower kb_id else EmptyString) = lower kb_id.
Proof. destruct kb_id; reflexivity. Qed.

(** A chunk matching every word in kbId, title and content scores at
    least 10 per word. *)
Lemma chunk_score_full_match words a :
  (forall w, In w words ->
             contains w (lower (chunk_kb_id a)) = true /\
             contains w (lower (chunk_title a)) = true /\
             contains w (lower (chunk_content a)) = true) ->
  10 * Z.of_nat (List.length words) <= chunk_score words a.
Proof.
  intros H. unfold chunk_score. rewrite kb_id_lower_eq.
  pose proof (fold_score_bounds
                (fun w => word_score w (lower (chunk_kb_id a)) (lower (chunk_title a))
                                     (lower (chunk_content a)))
                10 10 words) as B.
  assert (Hw : forall w, In w words ->
                 10 <= word_score w (lower (chunk_kb_id a)) (lower (chunk_title a))
                                  (lower (chunk_content a)) <= 10).
  { intros w Hin. destruct (H w Hin) as (H1 & H2 & H3).
    unfold word_score. rewrite H1, H2, H3. lia. }
  specialize (B Hw 0).
  destruct (1 <? Z.of_nat (List.length words)); [|lia].
  destruct (contains _ _ || contains _ _); lia.
Qed.

(** A chunk matching no word in kbId or title scores at most 2 per word,
    plus the phrase bonus when there are several words. *)
Lemma chunk_score_content_only words b :
  (forall w, In w words ->
             contains w (lower (chunk_kb_id b)) = false /\
             contains w (lower (chunk_title b)) = false) ->
  chunk_score words b
  <= 2 * Z.of_nat (List.length words)
     + (if 1 <? Z.of_nat (List.length words) then 10 else 0).
Proof.
  intros H. unfold chunk_score. rewrite kb_id_lower_eq.
  pose proof (fold_score_bounds
                (fun w => word_score w (lower (chunk_kb_id b)) (lower (chunk_title b))
                                     (lower (chunk_content b)))
                0 2 words) as B.
  assert (Hw : forall w, In w words ->
                 0 <= word_score w (lower (chunk_kb_id b)) (lower (chunk_title b))
                                 (lower (chunk_content b)) <= 2).
  { intros w Hin. destruct (H w Hin) as (H1 & H2).
    unfold word_score. rewrite H1, H2.
    destruct (contains w (lower (chunk_content b))); lia. }
  specialize (B Hw 0).
  destruct (1 <? Z.of_nat (List.length words)); [|lia].
  destruct (contains _ _ || contains _ _); lia.
Qed.

Lemma full_match_scores_higher words a b :
  words <> [] ->
  (forall w, In w words ->
             contains w (lower (chunk_kb_id a)) = true /\
             contains w (lower (chunk_title a)) = true /\
             contains w (lower (chunk_content a)) = true) ->
  (forall w, In w words ->
             contains w (lower (chunk_kb_id b)) = false /\
             contains w (lower (chunk_title b)) = false) ->
  chunk_score words b < chunk_score words a /\ 0 < chunk_score words a.
Proof.
  intros Hne Ha Hb.
  pose proof (chunk_score_full_match words a Ha) as La.
  pose proof (chunk_score_content_only words b Hb) as Lb.
  assert (Hlen : 1 <= Z.of_nat (List.length words)).
  { destruct words; [contradiction | simpl List.length; lia]. }
  destruct (1 <? Z.of_nat (List.length words)) eqn:E.
  - apply Z.ltb_lt in E. lia.
  - apply Z.ltb_ge in E. lia.
Qed.

Lemma fold_score_grows (f : string -> Z) (words : list string) :
  (forall x, 0 <= f x) ->
  forall init, init <= fold_left (fun score x => score + f x) words init.
Proof.
  intros Hf. induction words as [|y rest IH]; intros init; cbn [fold_left]; [lia|].
  specialize (IH (init + f y)). specialize (Hf y). lia.
Qed.

Lemma fold_score_member (f : string -> Z) (words : list string) (w : string) :
  (forall x, 0 <= f x) -> In w words ->
  forall init, init + f w <= fold_left (fun score x => score + f x) words init.
Proof.
  intros Hf. induction words as [|x rest IH]; intros Hin init; [contradiction|].
  cbn [fold_left]. destruct Hin as [->|Hin].
  - apply fold_score_grows. exact Hf.
  - specialize (IH Hin (init + f x)). specialize (Hf x). lia.
Qed.

(** A chunk whose content holds one of the words has a positive score. *)
Lemma chunk_score_content_match words b w :
  In w words -> contains w (lower (chunk_content b)) = true ->
  0 < chunk_score words b.
Proof.
  intros Hin Hc. unfold chunk_score. rewrite kb_id_lower_eq.
  set (f := fun x => word_score x (lower (chunk_kb_id b)) (lower (chunk_title b))
                                (lower (chunk_content b))).
  assert (Pos : forall x, 0 <= f x).
  { intros x. unfold f, word_score.
    destruct (contains x _), (contains x _), (contains x _); lia. }
  assert (W : 2 <= f w).
  { unfold f, word_score. rewrite Hc.
    destruct (contains w (lower (chunk_kb_id b))), (contains w (lower (chunk_title b)));
      cbv iota; lia. }
  pose proof (fold_score_member f words w Pos Hin 0) as G.
  change (fun score word => score + word_score word (lower (chunk_kb_id b))
                                       (lower (chunk_title b)) (lower (chunk_content b)))
    with (fun score word => score + f word).
  destruct (1 <? Z.of_nat (List.length words));
    [destruct (contains _ _ || contains _ _)|]; lia.
Qed.

Lemma filter_map_length {A B} (p : B -> bool) (f : A -> B) (l : list A) :
  List.length (filter p (map f l)) = List.length (filter (fun x => p (f x)) l).
Proof.
  induction l as [|x rest IH]; simpl; [reflexivity|].
  destruct (p (f x)); simpl; now rewrite IH.
Qed.

(** A stored chunk of positive score is returned, unless [top_k] is
    below the number of stored chunks that score at least as much. *)
Lemma keyword_search_returns all_chunks query top_k c :
  In c all_chunks ->
  0 < sc_score (entry query c) ->
  Z.of_nat (List.length
              (filter (fun x => sc_score (entry query c) <=? sc_score (entry query x))
                      all_chunks)) <= top_k ->
  exists i : nat,
    nth_error (_keyword_search (Some all_chunks) query top_k) i = Some (entry query c).
Proof.
  intros Hin Hpos Hk. unfold _keyword_search.
  set (scored_chunks := filter (fun e => 0 <? sc_score e) (map (entry query) all_chunks)).
  assert (Hmem : In (entry query c) (sort_desc sc_score scored_chunks)).
  { eapply Permutation_in; [symmetry; apply sort_desc_perm|].
    apply filter_In. split; [now apply in_map|]. now apply Z.ltb_lt. }
  destruct (In_nth_error _ _ Hmem) as [i Hi].
  exists i.
  pose proof (position_below_count sc_score _ i _ (sort_desc_sorted sc_score _) Hi) as P.
  rewrite (filter_perm_length _ _ _ (sort_desc_perm sc_score scored_chunks)) in P.
  subst scored_chunks.
  pose proof (filter_filter_length
                (fun y => sc_score (entry query c) <=? sc_score y)
                (fun e => 0 <? sc_score e) (map (entry query) all_chunks)) as Q.
  rewrite filter_map_length in Q.
  unfold slice_to.
  assert (E : (top_k <? 0) = false) by (apply Z.ltb_ge; lia).
  rewrite E, nth_error_firstn_lt by lia. exact Hi.
Qed.

(** C8. For a query with at least one topic word, a chunk whose kbId,
    title and content contain every topic word scores strictly higher
    than a chunk whose kbId and title contain none of them.  In the
    result of the keyword search the former is ranked before the
    latter: wherever the latter appears the former appears at an
    earlier position; the former is returned unless more than [top_k]
    stored chunks score at least as much as it does; and when the
    content of the latter holds a topic word and [top_k] also leaves
    room for the chunks that score at least as much as the latter, both
    are returned, the full match first. *)
Theorem C8_full_match_outranks_content_only :
  forall (all_chunks : list KBChunk) (query : string) (top_k : Z) (a b : KBChunk),
    query_words query <> [] ->
    (forall w, In w (query_words query) ->
               contains w (lower (chunk_kb_id a)) = true /\
               contains w (lower (chunk_title a)) = true /\
               contains w (lower (chunk_content a)) = true) ->
    (forall w, In w (query_words query) ->
               contains w (lower (chunk_kb_id b)) = false /\
               contains w (lower (chunk_title b)) = false) ->
    In a all_chunks ->
    sc_score (entry query b) < sc_score (entry query a) /\
    (forall j : nat,
        nth_error (_keyword_search (Some all_chunks) query top_k) j
        = Some (entry query b) ->
        exists i : nat,
          (i < j)%nat /\
          nth_error (_keyword_search (Some all_chunks) query top_k) i
          = Some (entry query a)) /\
    (Z.of_nat (List.length
                 (filter (fun c => sc_score (entry query a) <=? sc_score (entry query c))
                         all_chunks)) <= top_k ->
     exists i : nat,
       nth_error (_keyword_search (Some all_chunks) query top_k) i
       = Some (entry query a)) /\
    (In b all_chunks ->
     (exists w, In w (query_words query) /\
                contains w (lower (chunk_content b)) = true) ->
     Z.of_nat (List.length
                 (filter (fun c => sc_score (entry query b) <=? sc_score (entry query c))
                         all_chunks)) <= top_k ->
     exists i j : nat,
       (i < j)%nat /\
       nth_error (_keyword_search (Some all_chunks) query top_k) i
       = Some (entry query a) /\
       nth_error (_keyword_search (Some all_chunks) query top_k) j
       = Some (entry query b)).
Proof.
  intros all_chunks query top_k a b Hne Ha Hb Hin.
  destruct (full_match_scores_higher _ a b Hne Ha Hb) as [Hlt Hpos].
  assert (Order : forall j : nat,
             nth_error (_keyword_search (Some all_chunks) query top_k) j
             = Some (entry query b) ->
             exists i : nat,
               (i < j)%nat /\
               nth_error (_keyword_search (Some all_chunks) query top_k) i
               = Some (entry query a)).
  { intros j Hj. unfold _keyword_search in *.
    set (scored_chunks := filter (fun e => 0 <? sc_score e)
                                 (map (entry query) all_chunks)) in *.
    destruct (slice_to_firstn top_k (sort_desc sc_score scored_chunks)) as [n En].
    rewrite En in *.
    destruct (nth_error_firstn_some _ _ _ _ Hj) as [Hjn Hj'].
    assert (Hmem : In (entry query a) (sort_desc sc_score scored_chunks)).
    { eapply Permutation_in; [symmetry; apply sort_desc_perm|].
      apply filter_In. split; [now apply in_map|].
      apply Z.ltb_lt. exact Hpos. }
    destruct (larger_key_stands_before sc_score _ _ _ j (sort_desc_sorted sc_score _)
                                       Hmem Hj' Hlt) as [i [Hij Hi]].
    exists i. split; [exact Hij|].
    rewrite nth_error_firstn_lt by lia. exact Hi. }
  split; [exact Hlt|]. split; [exact Order|]. split.
  - intros Hk. now apply keyword_search_returns.
  - intros Hinb [w [Hw Hc]] Hk.
    destruct (keyword_search_returns all_chunks query top_k b Hinb
                (chunk_score_content_match _ b w Hw Hc) Hk) as [j Hj].
    destruct (Order j Hj) as [i [Hij Hi]].
    now exists i, j.
Qed.

End KeywordSearchFacts.

Section KeywordSearchWitness.
Import PyList Db KeywordSearch.
Local Open Scope Z_scope.

Example vpn_setup_search :
  query_words "VPN setup" = ["vpn"; "setup"]%string /\
  map (fun e => (sc_kb_id e, sc_score e))
      (_keyword_search (Some [network_article; vpn_article]) "VPN setup" 5)
  = [("KB-VPN-Setup", 30); ("KB-101", 14)]%string.
Proof. vm_compute. split; reflexivity. Qed.

Lemma C8_witness :
  sc_score (entry "VPN setup" network_article) < sc_score (entry "VPN setup" vpn_article) /\
  exists i j : nat,
    (i < j)%nat /\
    nth_error (_keyword_search (Some [network_article; vpn_article]) "VPN setup" 5) i
    = Some (entry "VPN setup" vpn_article) /\
    nth_error (_keyword_search (Some [network_article; vpn_article]) "VPN setup" 5) j
    = Some (entry "VPN setup" network_article).
Proof.
  assert (Full : forall w, In w (query_words "VPN setup") ->
                   contains w (lower (chunk_kb_id vpn_article)) = true /\
                   contains w (lower (chunk_title vpn_article)) = true /\
                   contains w (lower (chunk_content vpn_article)) = true).
  { intros w Hw. vm_compute in Hw.
    destruct Hw as [<-|[<-|[]]]; vm_compute; repeat split; reflexivity. }
  assert (Content : forall w, In w (query_words "VPN setup") ->
                      contains w (lower (chunk_kb_id network_article)) = false /\
                      contains w (lower (chunk_title network_article)) = false).
  { intros w Hw. vm_compute in Hw.
    destruct Hw as [<-|[<-|[]]]; vm_compute; repeat split; reflexivity. }
  assert (Words : query_words "VPN setup" <> []) by (vm_compute; discriminate).
  destruct (C8_full_match_outranks_content_only
              [network_article; vpn_article] "VPN setup" 5 vpn_article network_article
              Words Full Content (or_intror (or_introl eq_refl)))
    as (Score & _ & _ & Both).
  split; [exact Score|].
  apply Both.
  - left. reflexivity.
  - exists "vpn"%string. split; vm_compute; [left|]; reflexivity.
  - vm_compute. discriminate.
Defined.

End KeywordSearchWitness.

Section StrptimeFacts.
Import DateTime.

Example first_parsed_year_examples :
  map first_parsed_year
      [ "2024-01-05"; "2024-1-5"; "2024-02-30"; "2024-13"; "2024"; "2024-1";
        "0000"; "20240"; "2024-1-05"; "2024- 5-1"; "2024-1- 5"; "2023-02-29";
        "2024-02-29"; "2024-10"; "2024-1-312" ]%string
  = [ Some 2024; Some 2024; None; None; Some 2024; Some 2024;
      None; None; Some 2024; None; Some 2024; None;
      Some 2024; Some 2024; None ]%Z.
Proof. vm_compute. reflexivity. Qed.

End StrptimeFacts.

Section FloatFacts.
Import Num Float64.
Local Open Scope Q_scope.

Lemma Qltb_lt a b : Qltb a b = true <-> a < b.
Proof.
  unfold Qltb. rewrite negb_true_iff. split; intros H.
  - apply Qnot_le_lt. intros C. apply Qle_bool_iff in C. congruence.
  - destruct (Qle_bool b a) eqn:E; [|reflexivity].
    apply Qle_bool_iff in E. exfalso. apply (Qlt_not_le _ _ H E).
Qed.

Lemma Qltb_ge a b : Qltb a b = false <-> b <= a.
Proof. unfold Qltb. rewrite negb_false_iff. apply Qle_bool_iff. Qed.

(** The rounding on values whose doubles are known: 0.1 and 1.2 are the
    doubles next to them, 2^53 + 1 is a tie and goes to the even 2^53,
    the least double is 2^-1074 and half of it a tie that goes to 0,
    2^1024 - 2^970 is the first value that leaves the finite range. *)
Example round_examples :
  round 0.1 = Finite (3602879701896397 # 36028797018963968) /\
  round 1.2 = Finite (5404319552844595 # 4503599627370496) /\
  round (inject_Z (2 ^ 53 + 1)) = Finite (inject_Z (2 ^ 53)) /\
  round (inject_Z (2 ^ 53 + 3)) = Finite (inject_Z (2 ^ 53 + 4)) /\
  round (1 # Z.to_pos (2 ^ 1074)) = Finite (1 # Z.to_pos (2 ^ 1074)) /\
  round (1 # Z.to_pos (2 ^ 1075)) = Finite 0 /\
  round (3 # Z.to_pos (2 ^ 1075)) = Finite (1 # Z.to_pos (2 ^ 1073)) /\
  round (inject_Z (2 ^ 1024 - 2 ^ 970 - 1)) = Finite (inject_Z (2 ^ 1024 - 2 ^ 971)) /\
  round (inject_Z (2 ^ 1024 - 2 ^ 970)) = Infinity false /\
  of_int (10 ^ 400) = None /\
  times_100 (NFloat (round 1.2)) = NFloat (Finite 120) /\
  plus_int (NFloat (Finite (inject_Z (2 ^ 53)))) 1 = NFloat (Finite (inject_Z (2 ^ 53))).
Proof. vm_compute. repeat split; reflexivity. Qed.



Lemma gt_below x y z : gt y x = false -> gt z y = false -> gt z x = false.
Proof.
  unfold gt.
  destruct (exact x) as [a|[]], (exact y) as [b|[]], (exact z) as [c|[]];
    cbn; try discriminate; try reflexivity.
  rewrite !Qltb_ge. intros H1 H2. now apply Qle_trans with b.
Qed.









End FloatFacts.

Section KbConflictFacts.
Import PyList Num Float64 Db DateTime KbConflict.
Local Open Scope Z_scope.















Lemma all_some_length {A} (l : list (option A)) (r : list A) :
  all_some l = Some r -> List.length r = List.length l.
Proof.
  revert r. induction l as [|x l IH]; intros r; cbn [all_some].
  - intros H. now injection H as <-.
  - destruct x as [a|]; [|discriminate].
    destruct (all_some l) as [others|]; [|discriminate].
    intros H. injection H as <-. simpl. f_equal. now apply IH.
Qed.

Lemma generic_answer_inv context_chunks a :
  generic_answer context_chunks = Some a ->
  confidence a = 0.6%Q /\ answer a = GENERIC_ANSWER /\
  (List.length (kbReferences a) <= 3)%nat.
Proof.
  unfold generic_answer.
  destruct (all_some _) as [refs|] eqn:E; [|discriminate].
  intros H. injection H as <-. cbn [confidence answer kbReferences].
  repeat split. apply all_some_length in E. rewrite E, length_map, length_firstn. lia.
Qed.

Lemma explain_inv json_loads py_repr query groups best a :
  explain json_loads py_repr query groups best = Some a ->
  exists content : string,
    get best "content" (str EmptyString) = Scalar (SStr content) /\
    confidence a = 0.8%Q /\
    kbReferences a
    = [ {| cref_id := kb_id_of best;
           cref_title := get best "title" (str "Unknown");
           cref_snippet := PyStr.slice_to 200 content |} ].
Proof.
  unfold explain.
  destruct (display_fields json_loads best) as [[version date]|]; [|discriminate].
  match goal with
  | |- context [if ?c then ?x else Some ?y] => destruct (if c then x else Some y); [|discriminate]
  end.
  destruct (get best "content" (str EmptyString)) as [[| content | |]|]; try discriminate.
  intros H. injection H as <-. exists content. repeat split.
Qed.



End KbConflictFacts.

Section KbConflictClaim.
Import PyList Num Float64 Db DateTime KbConflict.
Local Open Scope Q_scope.

Example mfa_topic :
  topic_words mfa_query = ["two"; "things"; "mfa"; "reset"]%string /\
  topic_phrases mfa_query = ["mfa reset"]%string.
Proof. vm_compute. split; reflexivity. Qed.


(** The scores of documents whose versions are floats: an [int] beyond
    the floats counts for nothing, and two versions too close for a
    double score the same once the year is added. *)
Example version_scores :
  map (fun version =>
         authority_score sample_json_loads sample_repr
           (vector_chunk "id" "content" "title" "KB-1" "category" "kb"
                         version "2024-01-10" 0.2))
      [ Scalar (SInt 2); Scalar (SFloat 1.2); str "2.0"; Scalar (SInt (10 ^ 400));
        Scalar (SFloat 1); Scalar (SFloat (1 + (1 # Z.to_pos (2 ^ 52)))) ]
  = [ Some (NFloat (Finite 2234)); Some (NFloat (Finite 2154)); Some (NInt 2034);
      Some (NInt 2034); Some (NFloat (Finite 2134)); Some (NFloat (Finite 2134)) ].
Proof. vm_compute. reflexivity. Qed.



Lemma in_firstn {A} (n : nat) (l : list A) (x : A) : In x (firstn n l) -> In x l.
Proof.
  intros H. rewrite <- (firstn_skipn n l). apply in_or_app. now left.
Qed.



End KbConflictClaim.

Section KbConflictTheorem.
Import PyList Num Float64 Db DateTime KbConflict.
Local Open Scope Q_scope.



End KbConflictTheorem.

Section DbRuns.
Import Db SessionStore Escalation Guardrail Chat.

Lemma bind_ok {A B} (c : M A) (k : A -> M B) s a s' :
  c s = (Return a, s') -> bind c k s = k a s'.
Proof. intros H. unfold bind. rewrite H. reflexivity. Qed.


Lemma commit_steady s :
  faults s = [] ->
  commit s = (Return tt, {| stored := view s; view := view s; faults := [];
                            uuids := uuids s; clock := clock s |}).
Proof. intros H. unfold commit. rewrite H. reflexivity. Qed.

Lemma get_or_create_conversation_ok session_id user_role s :
  faults s = [] ->
  exists c s', get_or_create_conversation session_id user_role s = (Return c, s')
               /\ faults s' = [].
Proof.
  intros H. unfold get_or_create_conversation, conversation_by_session. db_unfold.
  destruct (List.find _ (conversations (view s))) as [c|].
  - exists c, s. split; [reflexivity | exact H].
  - db_unfold. rewrite commit_steady by exact H. db_unfold.
    eexists. eexists. split; reflexivity.
Qed.

Lemma get_conversation_history_ok session_id limit s :
  exists h, get_conversation_history session_id limit s = (Return h, s).
Proof.
  unfold get_conversation_history, conversation_by_session. db_unfold.
  destruct (List.find _ (conversations (view s))) as [c|]; eexists; reflexivity.
Qed.

Lemma log_guardrail_event_ok session_id blocked reason content role s :
  faults s = [] ->
  exists s', log_guardrail_event session_id blocked reason content role s = (Return tt, s')
             /\ faults s' = [].
Proof.
  intros H. unfold log_guardrail_event. db_unfold.
  rewrite commit_steady by exact H. eexists. split; reflexivity.
Qed.

Lemma create_ticket_ok session_id conversation_id subject description
      tier severity user_role s :
  faults s = [] ->
  exists t s',
    create_ticket session_id conversation_id subject description tier severity user_role s
    = (Return t, s') /\ faults s' = [] /\ PyStr.truthy (ticket_id t) = true.
Proof.
  intros H. unfold create_ticket. db_unfold.
  rewrite commit_steady by exact H. db_unfold.
  eexists. eexists. split; [reflexivity|]. split; reflexivity.
Qed.

Lemma add_message_ok conversation_id role content confidence tier severity
      kb_references guardrail_blocked guardrail_reason s :
  faults s = [] ->
  exists m s',
    add_message conversation_id role content confidence tier severity kb_references
                guardrail_blocked guardrail_reason s = (Return m, s')
    /\ faults s' = [].
Proof.
  intros H. unfold add_message. db_unfold.
  destruct (List.find _ _) as [c|]; db_unfold;
    rewrite commit_steady by exact H; db_unfold;
    eexists; eexists; split; reflexivity.
Qed.

Lemma validated_ok r s :
  Qle_bool 0 (confidence r) && Qle_bool (confidence r) 1 = true ->
  validated r s = (Return r, s).
Proof. intros H. unfold validated. rewrite H. reflexivity. Qed.

End DbRuns.

Section ChatFacts.
Import PyList Num Db SessionStore Escalation Guardrail TierRouting RagAnswer Chat.

Lemma contains_any_member keys key text :
  In key keys -> contains key text = true -> contains_any keys text = true.
Proof.
  intros Hin Hc. unfold contains_any. apply existsb_exists. now exists key.
Qed.

Lemma critical_keyword_classification query conf sent hkb att :
  contains_any CRITICAL_KEYWORDS (lower query) = true ->
  classify_tier_and_severity query conf sent hkb att = (TIER_3, CRITICAL, true).
Proof.
  intros H. unfold classify_tier_and_severity. rewrite H.
  destruct (Qgtb sent 0.7), (2 <=? att)%Z; cbn [boost Severity_eqb orb low_or_medium];
    rewrite ?andb_false_r; cbn [Tier_eqb orb negb andb];
    destruct (is_ambiguous_environment_query query); reflexivity.
Qed.

Lemma kernel_panic_is_critical message :
  is_kernel_panic_query message = true ->
  contains_any CRITICAL_KEYWORDS (lower message) = true.
Proof.
  intros H. apply (contains_any_member _ "kernel panic"); [|exact H].
  unfold CRITICAL_KEYWORDS. simpl. tauto.
Qed.

(** The clarifying-question check ignores the conversation history. *)
Lemma clarifying_ignores_history {A B C} query (refs : list A) (h : list B) (h' : list C) conf :
  should_ask_clarifying_question query refs h conf
  = should_ask_clarifying_question query refs h' conf.
Proof. reflexivity. Qed.

Variable process_query : string -> string -> Z -> RagResult.

Lemma answered_response_kernel_panic request conversation history gb gr ogb ogr score rag s :
  is_kernel_panic_with_fix (message request) = true ->
  faults s = [] ->
  Qle_bool 0 (rag_confidence rag) && Qle_bool (rag_confidence rag) 1 = true ->
  exists response s',
    answered_response request conversation history gb gr ogb ogr score rag s
    = (Return response, s') /\
    needsEscalation response = true /\ tier response = TIER_3 /\
    severity response = CRITICAL /\ ticketId response <> None.
Proof.
  intros Hfix Hf Hc.
  assert (Hkp : is_kernel_panic_query (message request) = true).
  { unfold is_kernel_panic_with_fix in Hfix. now apply andb_true_iff in Hfix. }
  unfold answered_response.
  rewrite critical_keyword_classification by now apply kernel_panic_is_critical.
  rewrite Hfix. cbn [negb andb].
  destruct (create_ticket_ok (sessionId request) (conv_id conversation)
              (generate_ticket_subject (message request) TIER_3 CRITICAL)
              (generate_ticket_description (message request) history (rag_kbReferences rag))
              TIER_3 CRITICAL (userRole request) s Hf) as (t & s1 & Ht & Hf1 & Hid).
  rewrite (bind_ok _ _ _ _ _ (bind_ok _ _ _ _ _ Ht)).
  unfold ret at 1.
  match goal with
  | |- context [bind (add_message ?a ?b ?c ?d ?e ?f ?g ?h ?i) _ s1] =>
      destruct (add_message_ok a b c d e f g h i s1 Hf1) as (m & s2 & Hm & Hf2)
  end.
  rewrite (bind_ok _ _ _ _ _ Hm).
  cbn [has_ticket]. rewrite Hid. cbn [negb andb].
  unfold bind at 1, ret at 1.
  rewrite validated_ok by exact Hc.
  eexists. eexists. split; [reflexivity|].
  cbn. repeat split. discriminate.
Qed.

(** Every branch of the clarifying-question test that does not ask leads
    to the classification. *)
Lemma chat_after_clarifying_check {A} (should_ask : bool) (question : option string)
      (ask : string -> A) (go_on : A) :
  match should_ask, question with
  | true, Some q => truthy q
  | _, _ => false
  end = false ->
  match should_ask, question with
  | true, Some q => if truthy q then ask q else go_on
  | _, _ => go_on
  end = go_on.
Proof.
  destruct should_ask; [|reflexivity].
  destruct question as [q|]; [|reflexivity].
  intros H. rewrite H. reflexivity.
Qed.

Lemma chat_body_reaches_classification request s :
  short_circuits request = false ->
  asks_to_clarify (message request)
                  (process_query (message request) (sessionId request) 5) = false ->
  faults s = [] ->
  exists conversation history gb gr s',
    faults s' = [] /\
    (gb = false \/ is_kernel_panic_query (message request) = true) /\
    chat_body process_query request s
    = answered_response request conversation history gb gr
        (fst (check_guardrail (message request) (userRole request)))
        (snd (check_guardrail (message request) (userRole request)))
        (Sentiment.score
           (Sentiment.analyze_sentiment (message request)
                                        (Some (count_not_working history))))
        (process_query (message request) (sessionId request) 5) s'.
Proof.
  intros Hsc Hclar Hf.
  unfold chat_body.
  destruct (get_or_create_conversation_ok (sessionId request) (userRole request) s Hf)
    as (conversation & s1 & H1 & Hf1).
  rewrite (bind_ok _ _ _ _ _ H1).
  destruct (get_conversation_history_ok (sessionId request) 10 s1) as (history & H2).
  rewrite (bind_ok _ _ _ _ _ H2).
  unfold short_circuits in Hsc.
  destruct (check_guardrail (message request) (userRole request)) as [ogb ogr].
  cbn [fst snd] in *.
  set (gb := if is_kernel_panic_query (message request) && ogb then false else ogb).
  destruct (log_guardrail_event_ok (sessionId request) gb ogr (message request)
                                   (userRole request) s1 Hf1) as (s2 & H3 & Hf2).
  rewrite (bind_ok _ _ _ _ _ H3).
  assert (Hgb : gb && negb (is_kernel_panic_query (message request)) = false).
  { subst gb. destruct (is_kernel_panic_query (message request)), ogb; auto. }
  rewrite Hgb.
  match goal with
  | |- context [bind (add_message ?a ?b ?c ?d ?e ?f ?g ?h ?i) _ s2] =>
      destruct (add_message_ok a b c d e f g h i s2 Hf2) as (m & s3 & H4 & Hf3)
  end.
  rewrite (bind_ok _ _ _ _ _ H4).
  unfold asks_to_clarify in Hclar.
  rewrite (clarifying_ignores_history _ _ history (@nil HistoryEntry)).
  destruct (should_ask_clarifying_question _ _ _ _) as [should_ask question].
  rewrite chat_after_clarifying_check by exact Hclar.
  exists conversation, history, gb, ogr, s3.
  split; [exact Hf3|]. split; [|reflexivity].
  subst gb. destruct (is_kernel_panic_query (message request)), ogb; auto.
Qed.

Lemma no_critical_keyword_no_critical_severity query conf sent hkb att tier sev esc :
  contains_any CRITICAL_KEYWORDS (lower query) = false ->
  classify_tier_and_severity query conf sent hkb att = (tier, sev, esc) ->
  Severity_eqb sev CRITICAL = false.
Proof.
  intros H E. unfold classify_tier_and_severity in E. rewrite H in E.
  destruct (contains_any MEDIUM_KEYWORDS (lower query));
    [|destruct (contains_any LOW_KEYWORDS (lower query))];
    destruct (Qgtb sent 0.7), (2 <=? att)%Z;
    injection E as _ Es _; subst sev; reflexivity.
Qed.

Lemma severity_repair_unchanged message sev hkb esc tid a :
  hkb = true \/
  (Severity_eqb sev CRITICAL = false /\ is_technical_issue (lower message) = false) ->
  severity_repair message sev hkb esc tid a = a.
Proof.
  unfold severity_repair. intros [H|[H1 H2]].
  - subst hkb. cbn [negb]. rewrite !andb_false_r. reflexivity.
  - rewrite H1, H2. reflexivity.
Qed.


End ChatFacts.

Section GenerationFacts.
Import PyList Num Db SessionStore KbConflict RagAnswer RagGenerate.

Variable vector_search : string -> Z -> option (list chunk).
Variable kb_table : option (list KBChunk).
Variable stored_history : string -> option (list HistoryEntry).
Variable generate_with_context :
  string -> list chunk -> list HistoryEntry -> option (option string).
Variable _generate_template_answer : string -> list chunk -> Q -> option string.
Variable json_loads : string -> json_outcome.
Variable py_repr : value -> string.



End GenerationFacts.

Section ChatClaims.
Import PyList Num Db SessionStore Escalation Guardrail TierRouting RagAnswer Chat.
Local Open Scope Q_scope.

Lemma confidence_in_bounds (c : Q) :
  0 <= c <= 1 -> (Qle_bool 0 c && Qle_bool c 1)%bool = true.
Proof.
  intros [H0 H1]. apply andb_true_iff. split; now apply Qle_bool_iff.
Qed.

(** C2 as stated fails: the classifier already escalates every message
    that contains the word panic, with severity CRITICAL, so the forced
    TIER_3/HIGH is never applied and the response carries CRITICAL. *)
Lemma C2_counterexample :
  is_kernel_panic_with_fix (message kernel_panic_request) = true /\
  match fst (chat (constant_rag (short_grounded "KB-KERNEL-001" "Kernel panic handling"))
                  kernel_panic_request fresh_session) with
  | Return response =>
      severity response = CRITICAL /\ severity response <> HIGH /\
      tier response = TIER_3 /\ needsEscalation response = true
  | Raise _ => False
  end.
Proof. vm_compute. repeat split; discriminate. Qed.

(** A second way out: the clarifying-question check returns before the
    kernel-panic handling is reached. *)
Example kernel_panic_fix_clarifying_question :
  is_kernel_panic_with_fix "fix kernel panic" = true /\
  match fst (chat (constant_rag not_in_kb)
                  {| sessionId := "session-1"; message := "fix kernel panic";
                     userRole := "trainee" |} fresh_session) with
  | Return response =>
      needsEscalation response = false /\ tier response = TIER_2 /\
      severity response = LOW /\ ticketId response = None
  | Raise _ => False
  end.
Proof. vm_compute. repeat split. Qed.

(** C2, amended. For a message that contains kernel panic together with
    fix, how to fix, debug or repair, on a database that accepts the
    writes and when the clarifying-question check does not return first,
    the response has needsEscalation true, tier TIER_3, severity CRITICAL
    and a ticket id. *)
Theorem C2_kernel_panic_fix_escalates_as_critical :
  forall (process_query : string -> string -> Z -> RagResult)
         (request : ChatRequest) (s : Session),
    is_kernel_panic_with_fix (message request) = true ->
    asks_to_clarify (message request)
                    (process_query (message request) (sessionId request) 5%Z) = false ->
    0 <= rag_confidence (process_query (message request) (sessionId request) 5%Z) <= 1 ->
    faults s = [] ->
    exists (response : ChatResponse) (s' : Session),
      chat process_query request s = (Return response, s') /\
      needsEscalation response = true /\
      tier response = TIER_3 /\
      severity response = CRITICAL /\
      ticketId response <> None.
Proof.
  intros process_query request s Hfix Hclar Hconf Hf.
  assert (Hkp : is_kernel_panic_query (message request) = true).
  { unfold is_kernel_panic_with_fix in Hfix. now apply andb_true_iff in Hfix. }
  assert (Hsc : short_circuits request = false).
  { unfold short_circuits. rewrite Hkp. apply andb_false_r. }
  destruct (chat_body_reaches_classification process_query request s Hsc Hclar Hf)
    as (conversation & history & gb & gr & s1 & Hf1 & _ & Hbody).
  destruct (answered_response_kernel_panic request conversation history gb gr
              (fst (check_guardrail (message request) (userRole request)))
              (snd (check_guardrail (message request) (userRole request)))
              (Sentiment.score
                 (Sentiment.analyze_sentiment (message request)
                                              (Some (count_not_working history))))
              (process_query (message request) (sessionId request) 5%Z) s1
              Hfix Hf1 (confidence_in_bounds _ Hconf))
    as (response & s2 & Hr & Hprops).
  exists response, s2. split; [|exact Hprops].
  unfold chat, try_except. rewrite Hbody, Hr. reflexivity.
Qed.

Lemma C2_witness :
  exists (response : ChatResponse) (s' : Session),
    chat (constant_rag (short_grounded "KB-KERNEL-001" "Kernel panic handling"))
         kernel_panic_request fresh_session = (Return response, s') /\
    needsEscalation response = true /\
    tier response = TIER_3 /\
    severity response = CRITICAL /\
    ticketId response <> None.
Proof.
  apply (C2_kernel_panic_fix_escalates_as_critical
           (constant_rag (short_grounded "KB-KERNEL-001" "Kernel panic handling"))
           kernel_panic_request fresh_session).
  - vm_compute. reflexivity.
  - vm_compute. reflexivity.
  - split; vm_compute; discriminate.
  - reflexivity.
Defined.


(** The canned answer passes the check of the endpoint: an answer that
    [generate_answer] already repaired is left as it is. *)
Example canned_answer_is_not_defective :
  needs_time_drift_fallback TIME_DRIFT_ANSWER = false /\
  generated_is_defective (Some TIME_DRIFT_ANSWER) = false /\
  len TIME_DRIFT_ANSWER = 684%Z.
Proof. vm_compute. repeat split; reflexivity. Qed.

(** The other ways out of the endpoint for a time-drift message whose
    RAG answer is defective: a clarifying question, the answer to a
    request the guardrail blocks, and the canned answer followed by the
    kernel-panic warning. *)
Example time_drift_other_answers :
  map (fun request =>
         match fst (chat (constant_rag (short_grounded "KB-TIME-001" "Time drift"))
                         request fresh_session) with
         | Return response =>
             (prefix "Could you provide more details" (answer response),
              prefix "I cannot provide assistance with this request."
                     (answer response),
              prefix TIME_DRIFT_ANSWER (answer response),
              String.eqb (answer response) TIME_DRIFT_ANSWER)
         | Raise _ => (false, false, false, false)
         end)
      [ {| sessionId := "session-1"; message := "clock sync"; userRole := "trainee" |};
        {| sessionId := "session-1";
           message := "please disable logging of the clock sync";
           userRole := "trainee" |};
        {| sessionId := "session-1";
           message := "kernel panic after clock sync, how to fix it on my machine";
           userRole := "trainee" |} ]
  = [ (true, false, false, false);
      (false, true, false, false);
      (false, false, true, false) ].
Proof. vm_compute. reflexivity. Qed.



End ChatClaims.

(* ------------------------------------------------------------------ *)
(** * Further properties of the services *)

Section CaseFacts.

Lemma lower_char_idem c : lower_char (lower_char c) = lower_char c.
Proof.
  destruct c as [[] [] [] [] [] [] [] []]; reflexivity.
Qed.

Lemma lower_idem s : lower (lower s) = lower s.
Proof.
  induction s as [|c s IH]; simpl; [reflexivity|].
  now rewrite lower_char_idem, IH.
Qed.

End CaseFacts.

Section RegexInversion.

Lemma prefix_split (l s : string) : prefix l s = true -> s = l ++ drop (String.length l) s.
Proof.
  revert s. induction l as [|c l IH]; intros s H; [reflexivity|].
  destruct s as [|d s]; simpl in H; [discriminate|].
  destruct (ascii_dec c d) as [->|]; [|discriminate].
  simpl. f_equal. now apply IH.
Qed.

Lemma run_lit_inv (l s rest : string) : In rest (run (Lit l) s) -> s = l ++ rest.
Proof.
  simpl. destruct (prefix l s) eqn:E; simpl; [|tauto].
  intros [<-|[]]. now apply prefix_split.
Qed.

Lemma run_dot_star_inv (s rest : string) :
  In rest (run DotStar s) -> exists b, s = b ++ rest /\ one_line b = true.
Proof.
  simpl. induction s as [|c s IH]; simpl.
  - intros [<-|[]]. exists EmptyString. now split.
  - intros [<-|H].
    + exists EmptyString. now split.
    + destruct (is_newline c) eqn:E; [contradiction|].
      destruct (IH H) as [b [-> Hb]].
      exists (String c b). simpl. rewrite E, Hb. now split.
Qed.

Lemma run_cat_inv (r1 r2 : re) (s rest : string) :
  In rest (run (Cat r1 r2) s) -> exists mid, In mid (run r1 s) /\ In rest (run r2 mid).
Proof. simpl. intros H. apply in_flat_map in H. exact H. Qed.

Lemma match_at_inv (r : re) (s : string) :
  match_at r s = true -> exists rest, In rest (run r s).
Proof.
  unfold match_at. destruct (run r s) as [|x l]; [discriminate|].
  intros _. exists x. now left.
Qed.

Lemma search_inv (r : re) (s : string) :
  search r s = true -> exists a s', s = a ++ s' /\ match_at r s' = true.
Proof.
  induction s as [|c s IH]; simpl.
  - rewrite orb_false_r. intros H. exists EmptyString, EmptyString. now split.
  - destruct (match_at r (String c s)) eqn:E; simpl.
    + intros _. exists EmptyString, (String c s). now split.
    + intros H. destruct (IH H) as [a [s' [-> Hm]]].
      exists (String c a), s'. now split.
Qed.

Lemma search_gap_two_inv (w1 w2 s : string) :
  search (gap [w1; w2]) s = true ->
  exists a b d, s = a ++ w1 ++ b ++ w2 ++ d /\ one_line b = true.
Proof.
  intros H. apply search_inv in H. destruct H as [a [s' [-> H]]].
  apply match_at_inv in H. destruct H as [d H]. simpl gap in H.
  apply run_cat_inv in H. destruct H as [m1 [H1 H]].
  apply run_lit_inv in H1. subst s'.
  apply run_cat_inv in H. destruct H as [m2 [H2 H]].
  apply run_dot_star_inv in H2. destruct H2 as [b [-> Hb]].
  apply run_lit_inv in H. subst m2.
  exists a, b, d. now split.
Qed.

Lemma search_gap_three_inv (w1 w2 w3 s : string) :
  search (gap [w1; w2; w3]) s = true ->
  exists a b c d,
    s = a ++ w1 ++ b ++ w2 ++ c ++ w3 ++ d /\ one_line b = true /\ one_line c = true.
Proof.
  intros H. apply search_inv in H. destruct H as [a [s' [-> H]]].
  apply match_at_inv in H. destruct H as [d H]. simpl gap in H.
  apply run_cat_inv in H. destruct H as [m1 [H1 H]].
  apply run_lit_inv in H1. subst s'.
  apply run_cat_inv in H. destruct H as [m2 [H2 H]].
  apply run_dot_star_inv in H2. destruct H2 as [b [-> Hb]].
  apply run_cat_inv in H. destruct H as [m3 [H3 H]].
  apply run_lit_inv in H3. subst m2.
  apply run_cat_inv in H. destruct H as [m4 [H4 H]].
  apply run_dot_star_inv in H4. destruct H4 as [c [-> Hc]].
  apply run_lit_inv in H. subst m4.
  exists a, b, c, d. now repeat split.
Qed.

End RegexInversion.

Section GuardrailVerdicts.
Import Guardrail.

Lemma first_blocked_in rules m reason :
  first_blocked rules m = Some reason ->
  exists pattern, In (pattern, reason) rules /\ search pattern m = true.
Proof.
  induction rules as [|[p r] rest IH]; simpl; [discriminate|].
  destruct (search p m) eqn:E.
  - intros H. injection H as <-. exists p. split; [now left | exact E].
  - intros H. destruct (IH H) as [q [Hin Hq]]. exists q. split; [now right | exact Hq].
Qed.

Lemma first_blocked_none rules m :
  first_blocked rules m = None ->
  existsb (fun rule => search (fst rule) m) rules = false.
Proof.
  induction rules as [|[p r] rest IH]; simpl; [reflexivity|].
  destruct (search p m); [discriminate|]. exact IH.
Qed.

(** X1. A verdict is either blocked with a non-empty reason or not
    blocked without one; no other combination is ever returned. *)
Theorem check_guardrail_reason_iff_blocked :
  forall message user_role : string,
    (exists reason : string,
        check_guardrail message user_role = (true, Some reason) /\
        truthy reason = true) \/
    check_guardrail message user_role = (false, None).
Proof.
  intros message user_role. unfold check_guardrail.
  destruct (first_blocked BLOCKED_PATTERNS (lower message)) as [reason|] eqn:E.
  - left. exists reason. split; [reflexivity|].
    apply first_blocked_in in E. destruct E as [p [Hin _]].
    assert (All : forallb (fun rule => truthy (snd rule)) BLOCKED_PATTERNS = true)
      by reflexivity.
    rewrite forallb_forall in All. exact (All _ Hin).
  - destruct (negb (mem (lower user_role) ["admin"; "support_engineer"]));
      [|now right].
    destruct (existsb _ admin_keywords); [|now right].
    left. eexists. split; reflexivity.
Qed.

(** X2. Whatever is blocked for an administrator or a support engineer
    is blocked for every role, with the same reason: the role can only
    add blocks, never lift one. *)
Theorem privileged_block_holds_for_every_role :
  forall (message privileged reason : string),
    role_exempt privileged = true ->
    check_guardrail message privileged = (true, Some reason) ->
    forall user_role : string,
      check_guardrail message user_role = (true, Some reason).
Proof.
  intros message privileged reason Hp H user_role.
  apply check_guardrail_blocked_any_role.
  unfold check_guardrail, role_exempt in *.
  destruct (first_blocked BLOCKED_PATTERNS (lower message)) as [r|].
  - now injection H as ->.
  - rewrite Hp in H. discriminate.
Qed.

Lemma privileged_block_witness :
  check_guardrail "Can I change the hypervisor settings?" "trainee"
  = (true, Some "Modifying hypervisor settings is not allowed").
Proof.
  apply (privileged_block_holds_for_every_role
           "Can I change the hypervisor settings?" "Support_Engineer").
  - reflexivity.
  - reflexivity.
Defined.

(** X3. Among the messages of code points below 256, the reason
    "Request to access host machine is not allowed" is given exactly
    for those that, lower-cased, hold the words access, host, machine
    in this order, or host, machine, access, with no line feed between
    the first and the last of them.  (Above U+00FF the flag
    [re.IGNORECASE] of the source lets three more characters stand for
    s, i and k, so that the words can be spelled in other ways.) *)
Theorem host_machine_block_characterised :
  forall message user_role : string,
    check_guardrail message user_role
    = (true, Some "Request to access host machine is not allowed")
    <->
    (exists a b c d : string,
        lower message = a ++ "access" ++ b ++ "host" ++ c ++ "machine" ++ d /\
        one_line b = true /\ one_line c = true) \/
    (exists a b c d : string,
        lower message = a ++ "host" ++ b ++ "machine" ++ c ++ "access" ++ d /\
        one_line b = true /\ one_line c = true).
Proof.
  intros message user_role. split.
  - unfold check_guardrail.
    destruct (first_blocked BLOCKED_PATTERNS (lower message)) as [reason|] eqn:E.
    + intros H. injection H as ->.
      unfold BLOCKED_PATTERNS in E. cbn [first_blocked] in E.
      destruct (search (gap ["access"; "host"; "machine"]) (lower message)) eqn:E1.
      { left. now apply search_gap_three_inv. }
      destruct (search (gap ["host"; "machine"; "access"]) (lower message)) eqn:E2.
      { right. now apply search_gap_three_inv. }
      repeat match type of E with
             | (if ?c then _ else _) = _ => destruct c; [discriminate|]
             end.
      discriminate.
    + destruct (negb _); [|discriminate].
      destruct (existsb _ _); discriminate.
  - intros [[a [b [c [d [E [Hb Hc]]]]]] | [a [b [c [d [E [Hb Hc]]]]]]].
    + now apply access_host_machine_blocked with a b c d.
    + apply check_guardrail_blocked_any_role.
      unfold BLOCKED_PATTERNS. cbn [first_blocked].
      rewrite E.
      rewrite (search_gap_three "host" "machine" "access" a b c d Hb Hc).
      now destruct (search _ _).
Qed.

End GuardrailVerdicts.

Section GuardrailLog.
Import Db Guardrail.

Lemma length_take n s : (String.length (take n s) <= n)%nat.
Proof.
  revert s. induction n as [|n IH]; intros [|c s]; simpl; try lia.
  specialize (IH s). lia.
Qed.

Lemma prefix_take n s : prefix (take n s) s = true.
Proof.
  revert s. induction n as [|n IH]; intros [|c s]; simpl; try reflexivity.
  destruct (ascii_dec c c); [apply IH | contradiction].
Qed.

Lemma take_whole n s : (String.length s <= n)%nat -> take n s = s.
Proof.
  revert n. induction s as [|c s IH]; intros [|n]; simpl; try reflexivity; try lia.
  intros H. f_equal. apply IH. lia.
Qed.

(** X4. Logging a guardrail event never raises, whatever the database
    does, and never loses or rewrites what is stored: afterwards the
    stored tables are the old ones, or the session's tables with one
    more event.  When the database accepts the commit, that event
    carries the verdict as given and at most the first 500 characters of
    the message. *)
Theorem log_guardrail_event_is_safe_and_truncates :
  forall (session_id : string) (blocked : bool) (reason : option string)
         (message_content user_role : string) (s : Session),
    (exists s' : Session,
        log_guardrail_event session_id blocked reason message_content user_role s
        = (Return tt, s') /\
        (stored s' = stored s \/
         exists e : GuardrailEvent,
           stored s'
           = {| conversations := conversations (view s);
                messages := messages (view s);
                tickets := tickets (view s);
                guardrail_events := (guardrail_events (view s) ++ [e])%list |})) /\
    (next_commit_succeeds s ->
     exists (e : GuardrailEvent) (s' : Session),
       log_guardrail_event session_id blocked reason message_content user_role s
       = (Return tt, s') /\
       guardrail_events (stored s') = (guardrail_events (view s) ++ [e])%list /\
       event_session_id e = session_id /\
       event_blocked e = blocked /\
       event_reason e = reason /\
       event_user_role e = user_role /\
       prefix (event_message_content e) message_content = true /\
       (String.length (event_message_content e) <= 500)%nat /\
       ((String.length message_content <= 500)%nat ->
        event_message_content e = message_content)).
Proof.
  intros session_id blocked reason content role s. split.
  - unfold log_guardrail_event. db_unfold. unfold commit. db_unfold.
    destruct (faults s) as [|[m|] rest]; db_unfold;
      eexists; (split; [reflexivity|]); cbn [stored];
      solve [ now left | right; eexists; reflexivity ].
  - intros H.
    unfold log_guardrail_event. db_unfold.
    rewrite commit_ok by exact H. db_unfold.
    eexists. eexists. split; [reflexivity|].
    cbn [stored guardrail_events event_session_id event_blocked event_reason
         event_user_role event_message_content].
    repeat split.
    + apply prefix_take.
    + apply length_take.
    + apply take_whole.
Qed.

Lemma log_guardrail_event_witness :
  exists (e : GuardrailEvent) (s' : Session),
    log_guardrail_event "session-1" true (Some "Disabling logging is not allowed")
                        "Show me how to disable logging" "trainee"
                        (open_session empty_tables [] 0 0)
    = (Return tt, s') /\
    guardrail_events (stored s') = ([] ++ [e])%list /\
    event_session_id e = "session-1" /\
    event_blocked e = true /\
    event_reason e = Some "Disabling logging is not allowed" /\
    event_user_role e = "trainee" /\
    prefix (event_message_content e) "Show me how to disable logging" = true /\
    (String.length (event_message_content e) <= 500)%nat /\
    ((String.length "Show me how to disable logging" <= 500)%nat ->
     event_message_content e = "Show me how to disable logging").
Proof.
  apply (proj2 (log_guardrail_event_is_safe_and_truncates
                  "session-1" true (Some "Disabling logging is not allowed")
                  "Show me how to disable logging" "trainee"
                  (open_session empty_tables [] 0 0))).
  simpl. exact I.
Defined.

End GuardrailLog.

Section ClassifierShape.
Import TierRouting Num Escalation.

(** The classifier seen from its result: [severity] is the severity
    after both boosts. *)
Lemma classify_unfolded query conf sent hkb att :
  exists severity : Severity,
    (contains_any CRITICAL_KEYWORDS (lower query) = false ->
     Severity_eqb severity CRITICAL = false) /\
    (contains_any CRITICAL_KEYWORDS (lower query) = true -> severity = CRITICAL) /\
    let ambiguous := is_ambiguous_environment_query query in
    let tier :=
      if Severity_eqb severity CRITICAL
         || (negb hkb && negb ambiguous)
         || (Qltb conf 0.2 && negb hkb && negb ambiguous)
         || Qgtb sent 0.7
         || (3 <=? att)%Z
      then TIER_3
      else if hkb && Qgeb conf 0.3 && low_or_medium severity && Qltb sent 0.5
              && (att <? 2)%Z
      then TIER_1 else TIER_2 in
    let needs_escalation :=
      Tier_eqb tier TIER_3
      || Severity_eqb severity CRITICAL
      || (negb hkb && Qltb conf 0.2 && negb ambiguous)
      || Qgtb sent 0.7
      || (2 <=? att)%Z in
    let needs_escalation :=
      if hkb && Qgeb conf 0.3 && low_or_medium severity && Qltb sent 0.5
      then false else needs_escalation in
    let needs_escalation :=
      if ambiguous && negb (Severity_eqb severity CRITICAL)
      then false else needs_escalation in
    classify_tier_and_severity query conf sent hkb att
    = (tier, severity, needs_escalation).
Proof.
  unfold classify_tier_and_severity. cbv zeta.
  match goal with
  | |- context [Severity_eqb ?s CRITICAL] => exists s
  end.
  split; [|split].
  - intros ->.
    destruct (contains_any MEDIUM_KEYWORDS (lower query)),
      (contains_any LOW_KEYWORDS (lower query)),
      (Qgtb sent 0.7), (2 <=? att)%Z; reflexivity.
  - intros ->.
    destruct (Qgtb sent 0.7), (2 <=? att)%Z; reflexivity.
  - reflexivity.
Qed.

Ltac classified E :=
  match type of E with
  | classify_tier_and_severity ?q ?c ?s ?h ?a = _ =>
      let sev := fresh "sev" in
      let Hno := fresh "Hno" in
      let Hyes := fresh "Hyes" in
      let U := fresh "U" in
      destruct (classify_unfolded q c s h a) as [sev [Hno [Hyes U]]];
      cbv zeta in U; rewrite U in E; clear U
  end.

(** X5. A TIER_1 result is never escalated, and it is only given to a
    query with a KB match of confidence 0.3 or more, a severity of LOW or
    MEDIUM, a sentiment score below 0.5 and fewer than two unresolved
    attempts. *)
Theorem tier_1_is_never_escalated :
  forall (query : string) (kb_match_confidence sentiment_score : Q)
         (has_kb_match : bool) (unresolved_attempts : Z)
         (severity : Severity) (needs_escalation : bool),
    classify_tier_and_severity query kb_match_confidence sentiment_score
                               has_kb_match unresolved_attempts
    = (TIER_1, severity, needs_escalation) ->
    needs_escalation = false /\
    has_kb_match = true /\
    Qgeb kb_match_confidence 0.3 = true /\
    (severity = LOW \/ severity = MEDIUM) /\
    Qltb sentiment_score 0.5 = true /\
    (unresolved_attempts < 2)%Z.
Proof.
  intros query conf sent hkb att severity esc E.
  classified E.
  destruct (Severity_eqb sev CRITICAL || (negb hkb && negb _) || _ || _ || _)
    eqn:T3 in E; [discriminate|].
  destruct (hkb && Qgeb conf 0.3 && low_or_medium sev && Qltb sent 0.5
            && (att <? 2)%Z) eqn:T1 in E; [|discriminate].
  injection E as <- <-.
  repeat (apply andb_true_iff in T1; destruct T1 as [T1 ?]).
  match goal with H : low_or_medium sev = true |- _ => rename H into Hs end.
  rewrite T1. repeat match goal with H : _ = true |- _ => rewrite H end.
  cbn [andb].
  split; [now destruct (is_ambiguous_environment_query query && _) | ].
  repeat split; try reflexivity.
  - destruct sev; try discriminate; [now left | now right].
  - now apply Z.ltb_lt.
Qed.

Lemma tier_1_witness :
  false = false /\ true = true /\ Qgeb 0.9 0.3 = true /\
  (LOW = LOW \/ LOW = MEDIUM) /\ Qltb 0.2 0.5 = true /\ (0 < 2)%Z.
Proof.
  apply (tier_1_is_never_escalated "How do I reset my password?" 0.9 0.2 true 0 LOW false).
  vm_compute. reflexivity.
Defined.

Lemma unmatched_query_is_escalated_to_tier_3 :
  forall (query : string) (kb_match_confidence sentiment_score : Q)
         (unresolved_attempts : Z),
    is_ambiguous_environment_query query = false ->
    exists severity : Severity,
      classify_tier_and_severity query kb_match_confidence sentiment_score
                                 false unresolved_attempts
      = (TIER_3, severity, true).
Proof.
  intros query conf sent att Ha.
  destruct (classify_unfolded query conf sent false att) as [sev [_ [_ U]]].
  cbv zeta in U. rewrite Ha in U. cbn [negb andb orb] in U.
  rewrite orb_true_r in U. cbn [orb Tier_eqb] in U.
  exists sev. exact U.
Qed.

Lemma ambiguous_query_is_never_escalated :
  forall (query : string) (kb_match_confidence sentiment_score : Q)
         (has_kb_match : bool) (unresolved_attempts : Z),
    is_ambiguous_environment_query query = true ->
    contains_any CRITICAL_KEYWORDS (lower query) = false ->
    snd (classify_tier_and_severity query kb_match_confidence sentiment_score
                                    has_kb_match unresolved_attempts)
    = false.
Proof.
  intros query conf sent hkb att Ha Hc.
  destruct (classify_unfolded query conf sent hkb att) as [sev [Hno [_ U]]].
  cbv zeta in U. rewrite U, Ha, (Hno Hc). reflexivity.
Qed.

(** X6. Ambiguity decides the escalation of a query.  A query without
    KB match that is not an ambiguous environment query is always routed
    to TIER_3 and escalated, whatever its severity, the confidence, the
    sentiment and the attempts.  An ambiguous environment query without
    critical keyword is never escalated: neither frustration nor any
    number of unresolved attempts nor a missing KB match changes that. *)
Theorem ambiguity_decides_escalation :
  forall (query : string) (kb_match_confidence sentiment_score : Q)
         (has_kb_match : bool) (unresolved_attempts : Z),
    (is_ambiguous_environment_query query = false ->
     exists severity : Severity,
       classify_tier_and_severity query kb_match_confidence sentiment_score
                                  false unresolved_attempts
       = (TIER_3, severity, true)) /\
    (is_ambiguous_environment_query query = true ->
     contains_any CRITICAL_KEYWORDS (lower query) = false ->
     snd (classify_tier_and_severity query kb_match_confidence sentiment_score
                                     has_kb_match unresolved_attempts)
     = false).
Proof.
  intros query conf sent hkb att. split.
  - now apply unmatched_query_is_escalated_to_tier_3.
  - now apply ambiguous_query_is_never_escalated.
Qed.

Lemma ambiguity_witness :
  (exists severity : Severity,
      classify_tier_and_severity "Where is the cafeteria?" 0.0 0.0 false 0
      = (TIER_3, severity, true)) /\
  snd (classify_tier_and_severity "I see the wrong toolset, it is still not working"
                                  0.0 0.9 false 5)
  = false.
Proof.
  split.
  - apply (proj1 (ambiguity_decides_escalation "Where is the cafeteria?" 0.0 0.0 false 0)).
    reflexivity.
  - apply (proj2 (ambiguity_decides_escalation
                    "I see the wrong toolset, it is still not working" 0.0 0.9 false 5)).
    + reflexivity.
    + reflexivity.
Defined.

(** X7. Every escalation the classifier decides is one the policy of
    [should_escalate] would decide too, given the classifier's tier and
    severity: the policy the endpoint leaves aside is the more eager
    one. *)
Theorem classifier_escalation_implies_should_escalate :
  forall (query : string) (kb_match_confidence sentiment_score : Q)
         (has_kb_match : bool) (unresolved_attempts : Z)
         (tier : Tier) (severity : Severity) (guardrail_blocked : bool),
    classify_tier_and_severity query kb_match_confidence sentiment_score
                               has_kb_match unresolved_attempts
    = (tier, severity, true) ->
    should_escalate tier severity kb_match_confidence sentiment_score
                    unresolved_attempts guardrail_blocked
    = true.
Proof.
  intros query conf sent hkb att tier severity gb E.
  classified E.
  injection E as Et Es Ee. subst severity.
  unfold should_escalate.
  destruct gb; [reflexivity|].
  rewrite Et in Ee.
  destruct (Tier_eqb tier TIER_3); [reflexivity|].
  destruct (Severity_eqb sev CRITICAL); [reflexivity|].
  destruct (Qgtb sent 0.7); [now destruct (Qltb conf 0.5)|].
  destruct (2 <=? att)%Z; [now destruct (Qltb conf 0.5)|].
  destruct (Qltb conf 0.5) eqn:C5; [reflexivity|].
  exfalso.
  destruct (is_ambiguous_environment_query query && _); [discriminate|].
  destruct (hkb && _ && _ && _); [discriminate|].
  cbn [orb] in Ee. rewrite !orb_false_r in Ee.
  apply andb_true_iff in Ee. destruct Ee as [Ee _].
  apply andb_true_iff in Ee. destruct Ee as [_ C2].
  apply Qltb_lt in C2. apply Qltb_ge in C5. lra.
Qed.

Lemma classifier_escalation_witness :
  should_escalate TIER_3 CRITICAL 0.3 0.8 0 false = true.
Proof.
  apply (classifier_escalation_implies_should_escalate
           "My lab VM crashed and I lost all my work" 0.3 0.8 false 0).
  vm_compute. reflexivity.
Defined.

End ClassifierShape.

Section ClarifyingQuestion.
Import TierRouting Num.

Lemma is_space_lower_char c : is_space (lower_char c) = is_space c.
Proof. destruct c as [[] [] [] [] [] [] [] []]; reflexivity. Qed.

Lemma split_aux_lower_length cur s :
  List.length (split_aux (lower cur) (lower s)) = List.length (split_aux cur s).
Proof.
  revert cur. induction s as [|c s IH]; intros cur; simpl.
  - destruct cur; reflexivity.
  - rewrite is_space_lower_char. destruct (is_space c).
    + destruct cur; simpl; [apply (IH EmptyString) | f_equal; apply (IH EmptyString)].
    + apply (IH (String c cur)).
Qed.

Lemma split_lower_length s : List.length (split (lower s)) = List.length (split s).
Proof. apply (split_aux_lower_length EmptyString). Qed.

(** X8. The services ignore case.  The guardrail verdict only depends
    on the lower-cased message and the lower-cased role; the
    classification and the clarifying-question check of a query are
    those of its lower-cased form. *)
Theorem services_ignore_case :
  forall (query user_role : string) (kb_match_confidence sentiment_score : Q)
         (has_kb_match : bool) (unresolved_attempts : Z)
         (A B : Type) (kb_matches : list A) (conversation_history : list B),
    Guardrail.check_guardrail (lower query) (lower user_role)
    = Guardrail.check_guardrail query user_role /\
    classify_tier_and_severity (lower query) kb_match_confidence sentiment_score
                               has_kb_match unresolved_attempts
    = classify_tier_and_severity query kb_match_confidence sentiment_score
                                 has_kb_match unresolved_attempts /\
    should_ask_clarifying_question (lower query) kb_matches conversation_history
                                   kb_match_confidence
    = should_ask_clarifying_question query kb_matches conversation_history
                                     kb_match_confidence.
Proof.
  intros query user_role conf sent hkb att A B refs history. split; [|split].
  - unfold Guardrail.check_guardrail. now rewrite !lower_idem.
  - unfold classify_tier_and_severity, is_ambiguous_environment_query.
    now rewrite !lower_idem.
  - unfold should_ask_clarifying_question.
    now rewrite !lower_idem, !split_lower_length.
Qed.

(** X9. The rules of the clarifying check.  The flag and the question
    always agree: either a question is asked and it is a non-empty text,
    or none is asked and none is given.  A query with a KB-conflict
    phrase is never asked to clarify.  A query of fewer than three words
    without such a phrase is always asked, however good the KB match
    is. *)
Theorem clarifying_question_rules :
  forall (query : string) (A B : Type) (kb_matches : list A)
         (conversation_history : list B) (confidence : Q),
    ((exists question : string,
         should_ask_clarifying_question query kb_matches conversation_history confidence
         = (true, Some question) /\
         truthy question = true) \/
     should_ask_clarifying_question query kb_matches conversation_history confidence
     = (false, None)) /\
    (contains_any KB_CONFLICT_PHRASES (lower query) = true ->
     should_ask_clarifying_question query kb_matches conversation_history confidence
     = (false, None)) /\
    (contains_any KB_CONFLICT_PHRASES (lower query) = false ->
     (List.length (split query) < 3)%nat ->
     fst (should_ask_clarifying_question query kb_matches conversation_history confidence)
     = true).
Proof.
  intros query A B refs history conf. unfold should_ask_clarifying_question.
  split; [|split].
  - repeat match goal with
           | |- context [if ?c then _ else _] => destruct c
           end;
      solve [ now right | left; eexists; split; reflexivity ].
  - intros ->. reflexivity.
  - intros Hc Hw. rewrite Hc.
    assert (Hlt : (Z.of_nat (List.length (split query)) <? 3)%Z = true)
      by (apply Z.ltb_lt; lia).
    rewrite Hlt.
    repeat match goal with
           | |- context [if ?c then _ else _] => destruct c
           end; reflexivity.
Qed.

Lemma clarifying_question_witness :
  should_ask_clarifying_question
    "Two KB docs say different things about the wrong environment"
    (@nil Escalation.KBRef) (@nil SessionStore.HistoryEntry) 0.0
  = (false, None) /\
  fst (should_ask_clarifying_question
         "Password reset"
         [ {| Escalation.ref_id := "KB-001"; Escalation.ref_title := "Password reset";
              Escalation.ref_snippet := "Open the portal." |} ]
         (@nil SessionStore.HistoryEntry) 0.95)
  = true.
Proof.
  split.
  - apply (proj1 (proj2 (clarifying_question_rules
                           "Two KB docs say different things about the wrong environment"
                           _ _ [] [] 0.0))).
    reflexivity.
  - apply (proj2 (proj2 (clarifying_question_rules
                           "Password reset" _ _
                           [ {| Escalation.ref_id := "KB-001";
                                Escalation.ref_title := "Password reset";
                                Escalation.ref_snippet := "Open the portal." |} ]
                           (@nil SessionStore.HistoryEntry) 0.95))).
    + reflexivity.
    + simpl. lia.
Defined.

End ClarifyingQuestion.

Section SentimentBounds.
Import Num Sentiment.
Local Open Scope Q_scope.

Lemma qmin_cases a b : (qmin a b = b /\ b < a) \/ (qmin a b = a /\ a <= b).
Proof.
  unfold qmin. destruct (Qltb b a) eqn:E.
  - left. split; [reflexivity | now apply Qltb_lt].
  - right. split; [reflexivity | now apply Qltb_ge].
Qed.

Lemma qmax_cases a b : (qmax a b = b /\ a < b) \/ (qmax a b = a /\ b <= a).
Proof.
  unfold qmax. destruct (Qltb a b) eqn:E.
  - left. split; [reflexivity | now apply Qltb_lt].
  - right. split; [reflexivity | now apply Qltb_ge].
Qed.

Lemma count_matches_nonneg patterns text : (0 <= count_matches patterns text)%Z.
Proof. unfold count_matches. lia. Qed.

Lemma count_matches_positive patterns text :
  existsb (fun p => search p text) patterns = true ->
  (1 <= count_matches patterns text)%Z.
Proof.
  unfold count_matches. induction patterns as [|p rest IH]; simpl; [discriminate|].
  destruct (search p text); simpl; [lia|]. exact IH.
Qed.

Lemma inject_Z_le_0 n : (0 <= n)%Z -> 0 <= inject_Z n.
Proof.
  intros H. assert (G : inject_Z 0 <= inject_Z n) by (rewrite <- Zle_Qle; exact H).
  exact G.
Qed.

Lemma inject_Z_le_1 n : (1 <= n)%Z -> 1 <= inject_Z n.
Proof.
  intros H. assert (G : inject_Z 1 <= inject_Z n) by (rewrite <- Zle_Qle; exact H).
  exact G.
Qed.

Lemma inject_Z_le_2 n : (2 <= n)%Z -> 2 <= inject_Z n.
Proof.
  intros H. assert (G : inject_Z 2 <= inject_Z n) by (rewrite <- Zle_Qle; exact H).
  exact G.
Qed.

Ltac sentiment_steps :=
  repeat match goal with
         | |- context [if ?c then _ else _] => destruct c eqn:?
         end;
  cbn [sentiment score shouldEscalate].

Lemma sentiment_score_is_bounded :
  forall (message : string) (unresolved_ctx : option Z),
    0 <= score (analyze_sentiment message unresolved_ctx) <= 1 /\
    (sentiment (analyze_sentiment message unresolved_ctx) = "neutral"%string \/
     sentiment (analyze_sentiment message unresolved_ctx) = "frustrated"%string \/
     sentiment (analyze_sentiment message unresolved_ctx) = "satisfied"%string) /\
    (shouldEscalate (analyze_sentiment message unresolved_ctx) = true
     <-> 0.7 <= score (analyze_sentiment message unresolved_ctx)).
Proof.
  intros message ctx. unfold analyze_sentiment.
  set (k := count_matches FRUSTRATED_PATTERNS (lower message)).
  assert (Hk := count_matches_nonneg FRUSTRATED_PATTERNS (lower message)).
  fold k in Hk.
  set (n := match ctx with Some n => n | None => 0%Z end).
  split; [|split].
  - destruct (0 <? k)%Z eqn:K.
    + apply Z.ltb_lt in K. assert (Kq := inject_Z_le_1 k ltac:(lia)).
      destruct (qmin_cases (0.5 + inject_Z k * 0.15) 1.0) as [[-> ?]|[-> ?]];
      (destruct (Qltb _ 0.3) eqn:S3;
       [apply Qltb_lt in S3; lra|]);
      (destruct (_ && (0 <? n)%Z) eqn:F;
       [ apply andb_true_iff in F; destruct F as [_ F]; apply Z.ltb_lt in F;
         assert (Nq := inject_Z_le_1 n ltac:(lia));
         destruct (qmin_cases (0.3 + inject_Z n * 0.2) 0.9) as [[-> ?]|[-> ?]]
       | ]);
      repeat match goal with
             | |- context [qmax ?a ?b] =>
                 destruct (qmax_cases a b) as [[-> ?]|[-> ?]]
             end;
      sentiment_steps;
      repeat match goal with
             | |- context [qmax ?a ?b] =>
                 destruct (qmax_cases a b) as [[-> ?]|[-> ?]]
             end;
      lra.
    + destruct (Qltb 0.0 0.3) eqn:S3; [|discriminate].
      destruct (0 <? count_matches SATISFIED_PATTERNS (lower message))%Z;
      (destruct (_ && (0 <? n)%Z) eqn:F;
       [ apply andb_true_iff in F; destruct F as [_ F]; apply Z.ltb_lt in F;
         assert (Nq := inject_Z_le_1 n ltac:(lia));
         destruct (qmin_cases (0.3 + inject_Z n * 0.2) 0.9) as [[-> ?]|[-> ?]]
       | ]);
      repeat match goal with
             | |- context [qmax ?a ?b] =>
                 destruct (qmax_cases a b) as [[-> ?]|[-> ?]]
             end;
      sentiment_steps;
      repeat match goal with
             | |- context [qmax ?a ?b] =>
                 destruct (qmax_cases a b) as [[-> ?]|[-> ?]]
             end;
      lra.
  - sentiment_steps; auto.
  - sentiment_steps; unfold Qgeb; rewrite Qle_bool_iff; reflexivity.
Qed.

Lemma frustrated_pattern_wins :
  forall (message : string) (unresolved_ctx : option Z),
    existsb (fun p => search p (lower message)) FRUSTRATED_PATTERNS = true ->
    sentiment (analyze_sentiment message unresolved_ctx) = "frustrated"%string /\
    0.65 <= score (analyze_sentiment message unresolved_ctx) /\
    ((2 <= count_matches FRUSTRATED_PATTERNS (lower message))%Z ->
     shouldEscalate (analyze_sentiment message unresolved_ctx) = true).
Proof.
  intros message ctx H.
  apply count_matches_positive in H.
  unfold analyze_sentiment.
  set (k := count_matches FRUSTRATED_PATTERNS (lower message)) in *.
  set (n := match ctx with Some n => n | None => 0%Z end).
  assert (K : (0 <? k)%Z = true) by (apply Z.ltb_lt; lia).
  rewrite K.
  assert (Kq := inject_Z_le_1 k H).
  assert (S3 : Qltb (qmin (0.5 + inject_Z k * 0.15) 1.0) 0.3 = false).
  { apply Qltb_ge.
    destruct (qmin_cases (0.5 + inject_Z k * 0.15) 1.0) as [[-> ?]|[-> ?]]; lra. }
  rewrite S3.
  assert (Low : 0.65 <= qmin (0.5 + inject_Z k * 0.15) 1.0).
  { destruct (qmin_cases (0.5 + inject_Z k * 0.15) 1.0) as [[-> ?]|[-> ?]]; lra. }
  assert (High : (2 <= k)%Z -> 0.8 <= qmin (0.5 + inject_Z k * 0.15) 1.0).
  { intros K2. assert (Kq2 := inject_Z_le_2 k K2).
    destruct (qmin_cases (0.5 + inject_Z k * 0.15) 1.0) as [[-> ?]|[-> ?]]; lra. }
  set (s1 := qmin (0.5 + inject_Z k * 0.15) 1.0) in *.
  set (acc := qmin (0.3 + inject_Z n * 0.2) 0.9).
  assert (G1 : s1 <= qmax s1 acc)
    by (destruct (qmax_cases s1 acc) as [[-> ?]|[-> ?]]; lra).
  assert (G2 : forall x, x <= qmax x 0.8)
    by (intros x; destruct (qmax_cases x 0.8) as [[-> ?]|[-> ?]]; lra).
  assert (G2a := G2 s1). assert (G2b := G2 (qmax s1 acc)).
  assert (G3 : Qgtb (qmax s1 acc) 0.5 = true)
    by (apply Qltb_lt; lra).
  split; [|split].
  - destruct (_ && (0 <? n)%Z); [rewrite G3|]; destruct (_ && (2 <=? n)%Z); reflexivity.
  - destruct (_ && (0 <? n)%Z); destruct (_ && (2 <=? n)%Z);
      cbn [score]; lra.
  - intros K2. specialize (High K2).
    destruct (_ && (0 <? n)%Z); destruct (_ && (2 <=? n)%Z);
      cbn [shouldEscalate]; unfold Qgeb; rewrite Qle_bool_iff; lra.
Qed.

(** X10. The sentiment of a message.  The score always lies between
    0 and 1, the label is one of neutral, frustrated and satisfied, and
    escalation is advised exactly from a score of 0.7 on.  A message
    with a frustrated pattern is labelled frustrated with a score of at
    least 0.65, whatever else it says; with two or more such patterns
    escalation is advised. *)
Theorem sentiment_is_bounded_and_frustration_wins :
  forall (message : string) (unresolved_ctx : option Z),
    0 <= score (analyze_sentiment message unresolved_ctx) <= 1 /\
    (sentiment (analyze_sentiment message unresolved_ctx) = "neutral"%string \/
     sentiment (analyze_sentiment message unresolved_ctx) = "frustrated"%string \/
     sentiment (analyze_sentiment message unresolved_ctx) = "satisfied"%string) /\
    (shouldEscalate (analyze_sentiment message unresolved_ctx) = true
     <-> 0.7 <= score (analyze_sentiment message unresolved_ctx)) /\
    (existsb (fun p => search p (lower message)) FRUSTRATED_PATTERNS = true ->
     sentiment (analyze_sentiment message unresolved_ctx) = "frustrated"%string /\
     0.65 <= score (analyze_sentiment message unresolved_ctx) /\
     ((2 <= count_matches FRUSTRATED_PATTERNS (lower message))%Z ->
      shouldEscalate (analyze_sentiment message unresolved_ctx) = true)).
Proof.
  intros message ctx.
  destruct (sentiment_score_is_bounded message ctx) as [B [L E]].
  split; [exact B|]. split; [exact L|]. split; [exact E|].
  now apply frustrated_pattern_wins.
Qed.

Lemma sentiment_witness :
  sentiment (analyze_sentiment "This is useless, I am so annoyed" None) = "frustrated"%string /\
  0.65 <= score (analyze_sentiment "This is useless, I am so annoyed" None) /\
  ((2 <= count_matches FRUSTRATED_PATTERNS (lower "This is useless, I am so annoyed"))%Z ->
   shouldEscalate (analyze_sentiment "This is useless, I am so annoyed" None) = true).
Proof.
  apply (proj2 (proj2 (proj2 (sentiment_is_bounded_and_frustration_wins
                                "This is useless, I am so annoyed" None)))).
  reflexivity.
Defined.

End SentimentBounds.

Section TicketText.
Import PyList Db SessionStore Escalation.

Lemma length_append (a b : string) :
  String.length (a ++ b) = (String.length a + String.length b)%nat.
Proof. induction a as [|c a IH]; simpl; [reflexivity | now rewrite IH]. Qed.

(** X11. A ticket subject has at most 64 characters.  For a message of
    up to 50 characters it is the message itself, behind the tag
    "[CRITICAL] " for a CRITICAL severity, else "[TIER_3] " for TIER_3,
    else no tag: the severity tag wins over the tier tag. *)
Theorem ticket_subject_is_short :
  forall (user_message : string) (tier : Tier) (severity : Severity),
    (String.length (generate_ticket_subject user_message tier severity) <= 64)%nat /\
    ((String.length user_message <= 50)%nat ->
     generate_ticket_subject user_message tier severity
     = (if Severity_eqb severity CRITICAL then "[CRITICAL] "
        else if Tier_eqb tier TIER_3 then "[TIER_3] " else EmptyString)
       ++ user_message).
Proof.
  intros m tier severity. unfold generate_ticket_subject, PyStr.slice_to, len. split.
  - assert (H := length_take 50 m).
    set (t := take 50 m) in *. clearbody t.
    destruct (50 <? _)%Z, (Severity_eqb severity CRITICAL), (Tier_eqb tier TIER_3);
      rewrite ?length_append; simpl String.length; lia.
  - intros H.
    assert (E : (50 <? Z.of_nat (String.length m))%Z = false) by (apply Z.ltb_ge; lia).
    rewrite E, (take_whole 50 m H).
    destruct (Severity_eqb severity CRITICAL), (Tier_eqb tier TIER_3); reflexivity.
Qed.

Lemma ticket_subject_witness :
  (String.length (generate_ticket_subject "VM will not start" TIER_3 CRITICAL) <= 64)%nat /\
  ((String.length "VM will not start" <= 50)%nat ->
   generate_ticket_subject "VM will not start" TIER_3 CRITICAL
   = (if Severity_eqb CRITICAL CRITICAL then "[CRITICAL] "
      else if Tier_eqb TIER_3 TIER_3 then "[TIER_3] " else EmptyString)
     ++ "VM will not start").
Proof.
  apply (ticket_subject_is_short "VM will not start" TIER_3 CRITICAL).
Defined.

(** X12. The ticket description quotes the last five messages of the
    history only: what was said before them changes nothing. *)
Theorem ticket_description_quotes_the_last_five :
  forall (user_message : string) (older recent : list HistoryEntry)
         (kb_references : list KBRef),
    List.length recent = 5%nat ->
    generate_ticket_description user_message (older ++ recent) kb_references
    = generate_ticket_description user_message recent kb_references.
Proof.
  intros m older recent refs H. unfold generate_ticket_description, last_n.
  assert (E1 : skipn (List.length (older ++ recent) - 5) (older ++ recent) = recent).
  { rewrite length_app, H.
    replace (List.length older + 5 - 5)%nat with (List.length older + 0)%nat by lia.
    rewrite skipn_app, Nat.add_0_r, skipn_all, Nat.sub_diag. reflexivity. }
  assert (E2 : skipn (List.length recent - 5) recent = recent)
    by (rewrite H; reflexivity).
  rewrite E1, E2.
  destruct recent as [|r recent]; [discriminate|].
  destruct (older ++ r :: recent)%list eqn:E; [|reflexivity].
  destruct older; discriminate.
Qed.

Lemma ticket_description_witness :
  generate_ticket_description "It broke"
    ([ {| h_role := "user"; h_content := "first" |} ]
     ++ [ {| h_role := "user"; h_content := "a" |};
          {| h_role := "assistant"; h_content := "b" |};
          {| h_role := "user"; h_content := "c" |};
          {| h_role := "assistant"; h_content := "d" |};
          {| h_role := "user"; h_content := "e" |} ]) []
  = generate_ticket_description "It broke"
      [ {| h_role := "user"; h_content := "a" |};
        {| h_role := "assistant"; h_content := "b" |};
        {| h_role := "user"; h_content := "c" |};
        {| h_role := "assistant"; h_content := "d" |};
        {| h_role := "user"; h_content := "e" |} ] [].
Proof.
  apply (ticket_description_quotes_the_last_five "It broke").
  reflexivity.
Defined.

(** X13. When the commit fails, [create_ticket] raises the database's
    exception again after a rollback: nothing is stored and the pending
    writes of the session are gone. *)
Theorem create_ticket_failure_stores_nothing :
  forall (session_id conversation_id subject description : string)
         (tier : Tier) (severity : Severity) (user_role : string)
         (s : Session) (message : string) (rest : list (option string)),
    faults s = Some message :: rest ->
    exists s' : Session,
      create_ticket session_id conversation_id subject description
                    tier severity user_role s
      = (Raise (SQLAlchemyError message), s') /\
      stored s' = stored s /\ view s' = stored s /\ faults s' = rest.
Proof.
  intros session_id conversation_id subject description tier severity user_role
         s message rest H.
  unfold create_ticket. db_unfold. unfold commit. db_unfold. rewrite H. db_unfold.
  eexists. split; [reflexivity|]. repeat split.
Qed.

Lemma create_ticket_failure_witness :
  exists s' : Session,
    create_ticket "session-1" "conversation-1" "subject" "description"
                  TIER_2 MEDIUM "trainee"
                  (open_session empty_tables [Some "database is locked"] 0 0)
    = (Raise (SQLAlchemyError "database is locked"), s') /\
    stored s' = empty_tables /\ view s' = empty_tables /\ faults s' = [].
Proof.
  apply (create_ticket_failure_stores_nothing
           "session-1" "conversation-1" "subject" "description" TIER_2 MEDIUM "trainee"
           (open_session empty_tables [Some "database is locked"] 0 0)
           "database is locked" []).
  reflexivity.
Defined.

End TicketText.

Section ConversationStore.
Import PyList Db SessionStore.

Lemma find_app_none {A} (p : A -> bool) (l : list A) (x : A) :
  List.find p l = None ->
  List.find p (l ++ [x]) = if p x then Some x else None.
Proof.
  induction l as [|y l IH]; simpl; [reflexivity|].
  destruct (p y); [discriminate | exact IH].
Qed.

(** X14. Getting the conversation of a session twice gives the same
    conversation: the second call finds the one the first call returned,
    creates nothing and leaves the role it was created with. *)
Theorem get_or_create_conversation_is_idempotent :
  forall (session_id user_role : string) (s : Session),
    next_commit_succeeds s ->
    exists (conversation : Conversation) (s1 : Session),
      get_or_create_conversation session_id user_role s = (Return conversation, s1) /\
      conv_session_id conversation = session_id /\
      forall other_role : string,
        get_or_create_conversation session_id other_role s1 = (Return conversation, s1).
Proof.
  intros session_id user_role s H.
  unfold get_or_create_conversation, conversation_by_session. db_unfold.
  destruct (List.find _ (conversations (view s))) as [c|] eqn:F.
  - exists c, s. split; [reflexivity|]. split.
    + apply List.find_some in F. destruct F as [_ F]. now apply String.eqb_eq in F.
    + intros other_role. rewrite F. reflexivity.
  - db_unfold. rewrite commit_ok by exact H. db_unfold.
    eexists. eexists. split; [reflexivity|]. split; [reflexivity|].
    intros other_role. cbn [view conversations].
    rewrite (find_app_none _ _ _ F). cbn [conv_session_id].
    rewrite String.eqb_refl. reflexivity.
Qed.

Lemma get_or_create_conversation_witness :
  exists (conversation : Conversation) (s1 : Session),
    get_or_create_conversation "session-1" "trainee" (open_session empty_tables [] 0 0)
    = (Return conversation, s1) /\
    conv_session_id conversation = "session-1" /\
    forall other_role : string,
      get_or_create_conversation "session-1" other_role s1 = (Return conversation, s1).
Proof.
  apply (get_or_create_conversation_is_idempotent
           "session-1" "trainee" (open_session empty_tables [] 0 0)).
  simpl. exact I.
Defined.

(** X15. A stored message counts: when the commit succeeds the message
    is the last row of the message table, with the content given, and
    the conversation it names has its message count raised by exactly
    one.  A message for an unknown conversation is stored all the same,
    and no conversation changes. *)
Theorem add_message_counts_the_message :
  forall (conversation_id role content : string)
         (confidence : option Q) (tier severity : option string)
         (kb_references : list string)
         (guardrail_blocked : bool) (guardrail_reason : option string)
         (s : Session),
    next_commit_succeeds s ->
    exists (m : Message) (s' : Session),
      add_message conversation_id role content confidence tier severity
                  kb_references guardrail_blocked guardrail_reason s
      = (Return m, s') /\
      messages (stored s') = (messages (view s) ++ [m])%list /\
      msg_conversation_id m = conversation_id /\
      msg_role m = role /\ msg_content m = content /\
      match List.find (fun c => String.eqb (conv_id c) conversation_id)
                      (conversations (view s)) with
      | Some before =>
          exists after : Conversation,
            List.find (fun c => String.eqb (conv_id c) conversation_id)
                      (conversations (stored s')) = Some after /\
            conv_message_count after = (conv_message_count before + 1)%Z /\
            conv_session_id after = conv_session_id before
      | None => conversations (stored s') = conversations (view s)
      end.
Proof.
  intros conversation_id role content confidence tier severity kb_references
         guardrail_blocked guardrail_reason s H.
  unfold add_message. db_unfold.
  destruct (List.find _ (conversations (view s))) as [c|] eqn:F; db_unfold;
    (rewrite commit_ok by exact H); db_unfold;
    eexists; eexists; (split; [reflexivity|]);
    cbn [stored messages conversations msg_conversation_id msg_role msg_content];
    repeat (split; [reflexivity|]).
  - assert (Hid : conv_id c = conversation_id).
    { apply List.find_some in F. destruct F as [_ F]. now apply String.eqb_eq in F. }
    rewrite Hid.
    eexists. split.
    + apply find_update_where; [|exact F]. intros x. reflexivity.
    + split; reflexivity.
  - reflexivity.
Qed.

Lemma add_message_witness :
  exists (m : Message) (s' : Session),
    add_message (render_uuid 0) "user" "hello" None None None [] false None
                Metrics.one_conversation_session
    = (Return m, s') /\
    messages (stored s') = (messages (view Metrics.one_conversation_session) ++ [m])%list /\
    msg_conversation_id m = render_uuid 0 /\
    msg_role m = "user" /\ msg_content m = "hello" /\
    match List.find (fun c => String.eqb (conv_id c) (render_uuid 0))
                    (conversations (view Metrics.one_conversation_session)) with
    | Some before =>
        exists after : Conversation,
          List.find (fun c => String.eqb (conv_id c) (render_uuid 0))
                    (conversations (stored s')) = Some after /\
          conv_message_count after = (conv_message_count before + 1)%Z /\
          conv_session_id after = conv_session_id before
    | None => conversations (stored s') = conversations (view Metrics.one_conversation_session)
    end.
Proof.
  apply (add_message_counts_the_message
           (render_uuid 0) "user" "hello" None None None [] false None
           Metrics.one_conversation_session).
  simpl. exact I.
Defined.

Lemma sort_desc_length {A} (key : A -> Z) (l : list A) :
  List.length (sort_desc key l) = List.length l.
Proof. apply Permutation_length, sort_desc_perm. Qed.

(** X16. Reading the history changes nothing and, the tables being
    readable, does not fail.  It returns the smaller of [limit] and the
    number of messages of the session's conversation, every entry is a
    message of that conversation, and an unknown session has the empty
    history. *)
Theorem conversation_history_is_bounded :
  forall (session_id : string) (limit : nat) (s : Session),
    exists history : list HistoryEntry,
      get_conversation_history session_id limit s = (Return history, s) /\
      match List.find (fun c => String.eqb (conv_session_id c) session_id)
                      (conversations (view s)) with
      | None => history = []
      | Some conversation =>
          List.length history
          = Nat.min limit
              (List.length
                 (filter (fun m => String.eqb (msg_conversation_id m) (conv_id conversation))
                         (messages (view s)))) /\
          forall e : HistoryEntry,
            In e history ->
            exists m : Message,
              In m (messages (view s)) /\
              msg_conversation_id m = conv_id conversation /\
              msg_role m = h_role e /\ msg_content m = h_content e
      end.
Proof.
  intros session_id limit s.
  unfold get_conversation_history, conversation_by_session. db_unfold.
  destruct (List.find _ (conversations (view s))) as [c|] eqn:F; db_unfold.
  - eexists. split; [reflexivity|]. split.
    + rewrite length_map, length_rev, length_firstn, sort_desc_length. reflexivity.
    + intros e He. apply in_map_iff in He. destruct He as [m [<- Hm]].
      apply in_rev in Hm. apply in_firstn in Hm.
      apply (Permutation_in _ (sort_desc_perm _ _)) in Hm.
      apply filter_In in Hm. destruct Hm as [Hm Hc].
      exists m. repeat split; [exact Hm | now apply String.eqb_eq in Hc].
  - exists []. split; reflexivity.
Qed.

End ConversationStore.

Section TicketRoundTrips.
Import PyList Db Escalation Tickets.

Lemma Tier_of_value_value tier : Tier_of_value (Tier_value tier) = Some tier.
Proof. destruct tier; reflexivity. Qed.

Lemma Severity_of_value_value severity :
  Severity_of_value (Severity_value severity) = Some severity.
Proof. destruct severity; reflexivity. Qed.

Lemma TicketStatus_of_value_inv v st :
  TicketStatus_of_value v = Some st -> v = TicketStatus_value st.
Proof.
  unfold TicketStatus_of_value.
  repeat match goal with
         | |- context [String.eqb v ?x] => destruct (String.eqb_spec v x)
         end; intros H; try discriminate; injection H as <-; assumption.
Qed.

(** X17. A ticket that was created can be read back: when the commit
    succeeds and the fresh identifier is not in use, [get_ticket] on the
    identifier of the new ticket returns the fields given to
    [create_ticket], with status NEW. *)
Theorem created_ticket_can_be_read_back :
  forall (session_id conversation_id subject description : string)
         (tier : Tier) (severity : Severity) (user_role : string) (s : Session),
    next_commit_succeeds s ->
    List.find (fun k => String.eqb (ticket_id k) (render_uuid (uuids s)))
              (tickets (view s)) = None ->
    exists (ticket : Ticket) (s' : Session),
      create_ticket session_id conversation_id subject description
                    tier severity user_role s = (Return ticket, s') /\
      get_ticket (ticket_id ticket) s'
      = (Return {| resp_id := ticket_id ticket;
                   resp_sessionId := session_id;
                   resp_subject := subject;
                   resp_description := description;
                   resp_tier := tier;
                   resp_severity := severity;
                   resp_status := NEW;
                   resp_userRole := user_role;
                   resp_createdAt := ticket_created_at ticket |}, s').
Proof.
  intros session_id conversation_id subject description tier severity user_role s H F.
  unfold create_ticket. db_unfold.
  rewrite commit_ok by exact H. db_unfold.
  eexists. eexists. split; [reflexivity|].
  unfold get_ticket, reraise_http, ticket_by_id. db_unfold.
  cbn [ticket_id]. rewrite (find_app_none _ _ _ F). cbn [ticket_id].
  rewrite String.eqb_refl.
  unfold to_response.
  cbn [ticket_tier ticket_severity ticket_status].
  rewrite Tier_of_value_value, Severity_of_value_value. reflexivity.
Qed.

Lemma created_ticket_witness :
  exists (ticket : Ticket) (s' : Session),
    create_ticket "session-2" "conversation-2" "Printer on fire" "User Issue: fire"
                  TIER_3 CRITICAL "instructor" sample_session = (Return ticket, s') /\
    get_ticket (ticket_id ticket) s'
    = (Return {| resp_id := ticket_id ticket;
                 resp_sessionId := "session-2";
                 resp_subject := "Printer on fire";
                 resp_description := "User Issue: fire";
                 resp_tier := TIER_3;
                 resp_severity := CRITICAL;
                 resp_status := NEW;
                 resp_userRole := "instructor";
                 resp_createdAt := ticket_created_at ticket |}, s').
Proof.
  apply (created_ticket_can_be_read_back
           "session-2" "conversation-2" "Printer on fire" "User Issue: fire"
           TIER_3 CRITICAL "instructor" sample_session).
  - simpl. exact I.
  - reflexivity.
Defined.

Lemma to_response_ok ticket tier severity status s :
  Tier_of_value (ticket_tier ticket) = Some tier ->
  Severity_of_value (ticket_severity ticket) = Some severity ->
  TicketStatus_of_value (ticket_status ticket) = Some status ->
  to_response ticket s
  = (Return {| resp_id := ticket_id ticket;
               resp_sessionId := ticket_session_id ticket;
               resp_subject := ticket_subject ticket;
               resp_description := ticket_description ticket;
               resp_tier := tier;
               resp_severity := severity;
               resp_status := status;
               resp_userRole := ticket_user_role ticket;
               resp_createdAt := ticket_created_at ticket |}, s).
Proof. intros E1 E2 E3. unfold to_response. now rewrite E1, E2, E3. Qed.

Lemma to_response_inv ticket s r s' :
  to_response ticket s = (Return r, s') ->
  s' = s /\
  Tier_of_value (ticket_tier ticket) = Some (resp_tier r) /\
  Severity_of_value (ticket_severity ticket) = Some (resp_severity r) /\
  TicketStatus_of_value (ticket_status ticket) = Some (resp_status r) /\
  resp_id r = ticket_id ticket /\
  resp_sessionId r = ticket_session_id ticket /\
  resp_subject r = ticket_subject ticket /\
  resp_description r = ticket_description ticket /\
  resp_userRole r = ticket_user_role ticket /\
  resp_createdAt r = ticket_created_at ticket.
Proof.
  unfold to_response.
  destruct (Tier_of_value (ticket_tier ticket)),
    (Severity_of_value (ticket_severity ticket)),
    (TicketStatus_of_value (ticket_status ticket));
    try discriminate.
  intros H. injection H as <- <-. repeat split.
Qed.

Lemma get_ticket_inv id s r s' :
  get_ticket id s = (Return r, s') ->
  s' = s /\
  exists ticket,
    List.find (fun k => String.eqb (ticket_id k) id) (tickets (view s)) = Some ticket /\
    to_response ticket s = (Return r, s).
Proof.
  unfold get_ticket, reraise_http, ticket_by_id. db_unfold.
  destruct (List.find _ (tickets (view s))) as [ticket|]; [|discriminate].
  destruct (to_response ticket s) as [[r0|e] s0] eqn:R.
  - intros H. injection H as <- <-.
    destruct (to_response_inv _ _ _ _ R) as [-> _].
    split; [reflexivity|]. exists ticket. split; [reflexivity | exact R].
  - destruct (is_HTTPException e); db_unfold; discriminate.
Qed.

(** X18. A status that was set can be read back: after a successful
    update [get_ticket] returns the ticket as it was read before, with
    the new status in place of the old one and nothing else changed. *)
Theorem updated_status_is_read_back :
  forall (id status : string) (st : TicketStatus) (s : Session)
         (before : TicketResponse),
    get_ticket id s = (Return before, s) ->
    TicketStatus_of_value (upper status) = Some st ->
    next_commit_succeeds s ->
    exists (s' : Session) (updated : StatusUpdated),
      update_ticket_status id status s = (Return updated, s') /\
      get_ticket id s'
      = (Return {| resp_id := resp_id before;
                   resp_sessionId := resp_sessionId before;
                   resp_subject := resp_subject before;
                   resp_description := resp_description before;
                   resp_tier := resp_tier before;
                   resp_severity := resp_severity before;
                   resp_status := st;
                   resp_userRole := resp_userRole before;
                   resp_createdAt := resp_createdAt before |}, s').
Proof.
  intros id status st s before G V H.
  apply get_ticket_inv in G. destruct G as [_ [ticket [F R]]].
  assert (Hid : ticket_id ticket = id).
  { apply List.find_some in F. destruct F as [_ F]. now apply String.eqb_eq in F. }
  unfold update_ticket_status, reraise_http, ticket_by_id. db_unfold.
  rewrite F, V. db_unfold.
  rewrite commit_ok by exact H. db_unfold.
  eexists. eexists. split; [reflexivity|].
  unfold get_ticket, reraise_http, ticket_by_id. db_unfold.
  cbn [tickets]. rewrite Hid.
  rewrite (find_update_where _ _ _ ticket); [|intros x; now rewrite with_status_id|exact F].
  destruct (to_response_inv _ _ _ _ R) as [_ [T [V' [_ [E1 [E2 [E3 [E4 [E5 E6]]]]]]]]].
  assert (W : forall w, w = with_status (upper status) (clock s) ticket ->
              ticket_id w = ticket_id ticket /\
              ticket_session_id w = ticket_session_id ticket /\
              ticket_subject w = ticket_subject ticket /\
              ticket_description w = ticket_description ticket /\
              ticket_tier w = ticket_tier ticket /\
              ticket_severity w = ticket_severity ticket /\
              ticket_user_role w = ticket_user_role ticket /\
              ticket_created_at w = ticket_created_at ticket /\
              ticket_status w = upper status).
  { intros w ->. repeat split; try apply with_status_status;
      unfold with_status; destruct (String.eqb _ _); reflexivity. }
  destruct (W _ eq_refl) as [W1 [W2 [W3 [W4 [W5 [W6 [W7 [W8 W9]]]]]]]].
  rewrite (to_response_ok _ (resp_tier before) (resp_severity before) st).
  - rewrite W1, W2, W3, W4, W7, W8, E1, E2, E3, E4, E5, E6. reflexivity.
  - now rewrite W5.
  - now rewrite W6.
  - now rewrite W9.
Qed.

Lemma updated_status_witness :
  exists (s' : Session) (updated : StatusUpdated),
    update_ticket_status (render_uuid 0) "resolved" sample_session = (Return updated, s') /\
    get_ticket (render_uuid 0) s'
    = (Return {| resp_id := render_uuid 0;
                 resp_sessionId := "session-1";
                 resp_subject := "[TIER_3] VM will not start";
                 resp_description := "User Issue: VM will not start";
                 resp_tier := TIER_3;
                 resp_severity := HIGH;
                 resp_status := RESOLVED;
                 resp_userRole := "trainee";
                 resp_createdAt := 0%Z |}, s').
Proof.
  apply (updated_status_is_read_back
           (render_uuid 0) "resolved" RESOLVED sample_session
           {| resp_id := render_uuid 0;
              resp_sessionId := "session-1";
              resp_subject := "[TIER_3] VM will not start";
              resp_description := "User Issue: VM will not start";
              resp_tier := TIER_3;
              resp_severity := HIGH;
              resp_status := NEW;
              resp_userRole := "trainee";
              resp_createdAt := 0%Z |}).
  - reflexivity.
  - reflexivity.
  - simpl. exact I.
Defined.

End TicketRoundTrips.

Section TicketListing.
Import PyList Db Escalation Tickets.
Local Open Scope Z_scope.

Lemma responses_ok found s :
  (forall k, In k found -> exists r, to_response k s = (Return r, s)) ->
  exists rs,
    responses found s = (Return rs, s) /\
    Forall2 (fun k r => to_response k s = (Return r, s)) found rs.
Proof.
  induction found as [|k rest IH]; intros H.
  - exists []. split; [reflexivity | constructor].
  - destruct (H k (or_introl eq_refl)) as [r Hr].
    destruct IH as [rs [Hrs F]]; [intros x Hx; apply H; now right|].
    exists (r :: rs). split.
    + cbn [responses]. rewrite (bind_ok _ _ _ _ _ Hr), (bind_ok _ _ _ _ _ Hrs).
      reflexivity.
    + now constructor.
Qed.

Lemma StronglySorted_firstn {A} (R : A -> A -> Prop) (n : nat) (l : list A) :
  StronglySorted R l -> StronglySorted R (firstn n l).
Proof.
  revert n. induction l as [|x l IH]; intros [|n] H; simpl; try constructor.
  - apply IH. now inversion H.
  - inversion H as [|? ? _ Hall]; subst.
    rewrite Forall_forall in *. intros y Hy. apply Hall. now apply in_firstn in Hy.
Qed.

Lemma Forall2_in_right {A B} (R : A -> B -> Prop) (la : list A) (lb : list B) (b : B) :
  Forall2 R la lb -> In b lb -> exists a, In a la /\ R a b.
Proof.
  intros F. induction F as [|x y la lb Hxy F IH]; intros Hb; [contradiction|].
  destruct Hb as [<-|Hb].
  - exists x. split; [now left | exact Hxy].
  - destruct (IH Hb) as [a [Ha Hab]]. exists a. split; [now right | exact Hab].
Qed.

Lemma Forall2_sorted_by_key {A B} (ka : A -> Z) (kb : B -> Z) (R : A -> B -> Prop)
      (la : list A) (lb : list B) :
  (forall a b, R a b -> kb b = ka a) ->
  Forall2 R la lb ->
  StronglySorted (desc ka) la -> StronglySorted (desc kb) lb.
Proof.
  intros Hk F. induction F as [|a b la lb Hab F IH]; intros S; [constructor|].
  inversion S as [|? ? Sl Hall]; subst. constructor; [now apply IH|].
  rewrite Forall_forall in *. intros y Hy.
  destruct (Forall2_in_right _ _ _ y F Hy) as [x [Hx Hxy]].
  unfold desc in *. rewrite (Hk _ _ Hab), (Hk _ _ Hxy). now apply Hall.
Qed.

(** X19. The ticket listing.  When every ticket that passes the filters
    has valid tier, severity and status values, [get_tickets] reads
    without changing anything and returns as many tickets as pass the
    filters, up to [limit]; the list descends by creation time; every
    entry presents a stored ticket of the wanted session and of the
    wanted status, compared in upper case. *)
Theorem ticket_listing_is_filtered_sorted_and_bounded :
  forall (session_id status : option string) (limit : nat) (s : Session),
    (forall k : Ticket,
        In k (tickets (view s)) -> ticket_filter session_id status k = true ->
        exists r : TicketResponse, to_response k s = (Return r, s)) ->
    exists listed : list TicketResponse,
      get_tickets session_id status limit s = (Return listed, s) /\
      List.length listed
      = Nat.min limit
          (List.length (filter (ticket_filter session_id status) (tickets (view s)))) /\
      StronglySorted (desc resp_createdAt) listed /\
      forall r : TicketResponse,
        In r listed ->
        (exists k : Ticket, In k (tickets (view s)) /\ to_response k s = (Return r, s)) /\
        (forall wanted : string,
            session_id = Some wanted -> truthy wanted = true ->
            resp_sessionId r = wanted) /\
        (forall wanted : string,
            status = Some wanted -> truthy wanted = true ->
            TicketStatus_value (resp_status r) = upper wanted).
Proof.
  intros session_id status limit s H.
  set (found := firstn limit
                  (sort_desc ticket_created_at
                     (filter (ticket_filter session_id status) (tickets (view s))))).
  assert (Hin : forall k, In k found ->
                          In k (tickets (view s)) /\ ticket_filter session_id status k = true).
  { intros k Hk. subst found. apply in_firstn in Hk.
    apply (Permutation_in _ (sort_desc_perm _ _)) in Hk.
    now apply filter_In in Hk. }
  destruct (responses_ok found s) as [rs [Hrs F]].
  { intros k Hk. destruct (Hin k Hk) as [Hk1 Hk2]. now apply H. }
  exists rs. split; [|split; [|split]].
  - unfold get_tickets. db_unfold. fold found. now rewrite Hrs.
  - rewrite <- (Forall2_length F). subst found.
    now rewrite length_firstn, sort_desc_length.
  - apply (Forall2_sorted_by_key ticket_created_at resp_createdAt
             (fun k r => to_response k s = (Return r, s)) found rs); [|exact F|].
    + intros k r Hr. now destruct (to_response_inv _ _ _ _ Hr) as [_ [_ [_ [_ [_ [_ [_ [_ [_ E]]]]]]]]].
    + subst found. apply StronglySorted_firstn, sort_desc_sorted.
  - intros r Hr.
    destruct (Forall2_in_right _ _ _ r F Hr) as [k [Hk Hkr]].
    destruct (Hin k Hk) as [Hstored Hf].
    destruct (to_response_inv _ _ _ _ Hkr) as [_ [_ [_ [St [_ [Es _]]]]]].
    unfold ticket_filter in Hf. apply andb_true_iff in Hf. destruct Hf as [Hf1 Hf2].
    split; [exists k; now split | split].
    + intros wanted -> Ht. rewrite Ht in Hf1. apply String.eqb_eq in Hf1. congruence.
    + intros wanted -> Ht. rewrite Ht in Hf2. apply String.eqb_eq in Hf2.
      apply TicketStatus_of_value_inv in St. congruence.
Qed.

Lemma ticket_listing_witness :
  exists listed : list TicketResponse,
    get_tickets (Some "session-1") (Some "new") 50 sample_session
    = (Return listed, sample_session) /\
    List.length listed
    = Nat.min 50
        (List.length (filter (ticket_filter (Some "session-1") (Some "new"))
                             (tickets (view sample_session)))) /\
    StronglySorted (desc resp_createdAt) listed /\
    forall r : TicketResponse,
      In r listed ->
      (exists k : Ticket,
          In k (tickets (view sample_session)) /\
          to_response k sample_session = (Return r, sample_session)) /\
      (forall wanted : string,
          Some "session-1" = Some wanted -> truthy wanted = true ->
          resp_sessionId r = wanted) /\
      (forall wanted : string,
          Some "new" = Some wanted -> truthy wanted = true ->
          TicketStatus_value (resp_status r) = upper wanted).
Proof.
  apply (ticket_listing_is_filtered_sorted_and_bounded
           (Some "session-1") (Some "new") 50 sample_session).
  intros k [<-|[]] _. eexists. reflexivity.
Defined.

End TicketListing.

Section TrendsCounts.
Import Db DateTime Metrics.
Local Open Scope Z_scope.

Lemma count_ext {A} (p q : A -> bool) (rows : list A) :
  (forall x, p x = q x) -> count p rows = count q rows.
Proof. intros H. unfold count. now rewrite (filter_ext _ _ H). Qed.

Lemma count_cons {A} (p : A -> bool) (x : A) (rows : list A) :
  count p (x :: rows) = (if p x then 1 else 0) + count p rows.
Proof. unfold count. cbn [filter]. destruct (p x); cbn [List.length]; lia. Qed.

Lemma count_within_split {A} (key : A -> Z) (q : A -> bool) (a b c : Z) (rows : list A) :
  a <= b <= c ->
  count (fun r => within a b (key r) && q r) rows
  + count (fun r => within b c (key r) && q r) rows
  = count (fun r => within a c (key r) && q r) rows.
Proof.
  intros H. induction rows as [|x rows IH]; [reflexivity|].
  rewrite !count_cons, <- IH. unfold within.
  destruct (q x); rewrite ?andb_true_r, ?andb_false_r; [|lia].
  destruct (a <=? key x) eqn:E1, (key x <? b) eqn:E2, (b <=? key x) eqn:E3,
    (key x <? c) eqn:E4; cbn [andb]; try lia;
    rewrite ?Z.leb_le, ?Z.leb_gt, ?Z.ltb_lt, ?Z.ltb_ge in *; lia.
Qed.

Lemma count_subset {A} (p q : A -> bool) (rows : list A) :
  0 <= count (fun r => p r && q r) rows <= count p rows.
Proof.
  induction rows as [|x rows IH]; [unfold count; cbn [filter List.length]; lia|].
  rewrite !count_cons. destruct (p x), (q x); cbn [andb]; lia.
Qed.

(** The sum of one column over the entries *)
Lemma windows_total {A} (column : MetricsTrends -> Z) (key : A -> Z) (q : A -> bool)
      (rows : Tables -> list A) (t : Tables) :
  (forall a b, column (trend_entry t a b)
               = count (fun r => within a b (key r) && q r) (rows t)) ->
  forall (k : nat) (a : Z),
    fold_right Z.add 0 (map column (windows t a k))
    = count (fun r => within a (a + Z.of_nat k * MICROS_PER_DAY) (key r) && q r) (rows t).
Proof.
  intros Hc. induction k as [|k IH]; intros a.
  - unfold windows. simpl. unfold count.
    rewrite (filter_ext _ (fun _ => false)); [now rewrite filter_false|].
    intros r. unfold within. rewrite Z.add_0_r.
    destruct (a <=? key r) eqn:E1, (key r <? a) eqn:E2; cbn [andb]; try reflexivity.
    apply Z.leb_le in E1. apply Z.ltb_lt in E2. lia.
  - rewrite windows_succ. cbn [map fold_right]. rewrite IH, Hc.
    replace (a + MICROS_PER_DAY + Z.of_nat k * MICROS_PER_DAY)
      with (a + Z.of_nat (S k) * MICROS_PER_DAY) by lia.
    apply count_within_split.
    assert (HD : 0 < MICROS_PER_DAY) by reflexivity. nia.
Qed.

Lemma windows_length t a k : List.length (windows t a k) = k.
Proof. unfold windows. now rewrite length_map, length_seq. Qed.

Lemma trends_count_every_row_once :
  forall (fuel : nat) (days : Z) (s : Session),
    0 <= days <= 999999999 ->
    (Z.to_nat days < fuel)%nat ->
    MIN <= clock s - days * MICROS_PER_DAY ->
    clock s + MICROS_PER_DAY <= MAX ->
    exists trends : list MetricsTrends,
      option_map fst (get_metrics_trends fuel days s) = Some (Return trends) /\
      Z.of_nat (List.length trends) = days + 1 /\
      Forall (fun e => 0 <= trend_escalations e <= trend_tickets e) trends /\
      fold_right Z.add 0 (map trend_conversations trends)
      = count (fun c => within (clock s - days * MICROS_PER_DAY)
                               (clock s + MICROS_PER_DAY) (conv_created_at c))
              (conversations (view s)) /\
      fold_right Z.add 0 (map trend_tickets trends)
      = count (fun k => within (clock s - days * MICROS_PER_DAY)
                               (clock s + MICROS_PER_DAY) (ticket_created_at k))
              (tickets (view s)).
Proof.
  intros fuel days s Hd Hf Hmin Hmax.
  eexists. split; [now apply get_metrics_trends_windows|].
  assert (E : clock s - days * MICROS_PER_DAY + Z.of_nat (S (Z.to_nat days)) * MICROS_PER_DAY
              = clock s + MICROS_PER_DAY)
    by (rewrite Nat2Z.inj_succ, Z2Nat.id by lia; lia).
  split; [|split; [|split]].
  - rewrite windows_length, Nat2Z.inj_succ, Z2Nat.id by lia. lia.
  - unfold windows. rewrite Forall_forall. intros e He.
    apply in_map_iff in He. destruct He as [i [<- _]].
    cbn [trend_entry trend_escalations trend_tickets].
    apply count_subset.
  - rewrite (windows_total trend_conversations conv_created_at (fun _ => true) conversations).
    + rewrite E. apply count_ext. intros c. apply andb_true_r.
    + intros a b. cbn [trend_entry trend_conversations].
      apply count_ext. intros c. now rewrite andb_true_r.
  - rewrite (windows_total trend_tickets ticket_created_at (fun _ => true) tickets).
    + rewrite E. apply count_ext. intros c. apply andb_true_r.
    + intros a b. cbn [trend_entry trend_tickets].
      apply count_ext. intros c. now rewrite andb_true_r.
Qed.

Lemma trends_of_negative_and_huge_periods :
  forall (fuel : nat) (days : Z) (s : Session),
    (-999999999 <= days < 0 ->
     clock s - days * MICROS_PER_DAY <= MAX ->
     MIN <= clock s ->
     option_map fst (get_metrics_trends fuel days s) = Some (Return [])) /\
    (999999999 < Z.abs days ->
     exists detail : string,
       option_map fst (get_metrics_trends fuel days s)
       = Some (Raise (HTTPException 500 detail))).
Proof.
  intros fuel days s. split.
  - intros Hd Hmax Hmin.
    assert (HD : 0 < MICROS_PER_DAY) by reflexivity.
    unfold get_metrics_trends, timedelta_days. db_unfold.
    assert (E : (Z.abs days <=? 999999999) = true) by (apply Z.leb_le; lia).
    rewrite E. db_unfold.
    rewrite plus_in_range by nia. db_unfold.
    assert (G : (clock s + - (days * MICROS_PER_DAY) <=? clock s) = false)
      by (apply Z.leb_gt; nia).
    destruct fuel; cbn [trends_loop]; rewrite G; reflexivity.
  - intros Hd.
    unfold get_metrics_trends, timedelta_days. db_unfold.
    assert (E : (Z.abs days <=? 999999999) = false) by (apply Z.leb_gt; lia).
    rewrite E. db_unfold. eexists. reflexivity.
Qed.

(** X20. The trends of [days] days.  For a number of days that is not
    negative, with enough rounds and dates in range, there are
    [days + 1] entries, in no entry do the escalations exceed the
    tickets, and the entries together count every conversation and every
    ticket created from [now - days] up to, not including,
    [now + 1 day] exactly once.  A negative number of days gives the
    empty list, without any round of the loop; a number of days beyond
    the range of [timedelta] gives a 500 answer. *)
Theorem trends_cover_the_period_once :
  forall (fuel : nat) (days : Z) (s : Session),
    (0 <= days <= 999999999 ->
     (Z.to_nat days < fuel)%nat ->
     MIN <= clock s - days * MICROS_PER_DAY ->
     clock s + MICROS_PER_DAY <= MAX ->
     exists trends : list MetricsTrends,
       option_map fst (get_metrics_trends fuel days s) = Some (Return trends) /\
       Z.of_nat (List.length trends) = days + 1 /\
       Forall (fun e => 0 <= trend_escalations e <= trend_tickets e) trends /\
       fold_right Z.add 0 (map trend_conversations trends)
       = count (fun c => within (clock s - days * MICROS_PER_DAY)
                                (clock s + MICROS_PER_DAY) (conv_created_at c))
               (conversations (view s)) /\
       fold_right Z.add 0 (map trend_tickets trends)
       = count (fun k => within (clock s - days * MICROS_PER_DAY)
                                (clock s + MICROS_PER_DAY) (ticket_created_at k))
               (tickets (view s))) /\
    (-999999999 <= days < 0 ->
     clock s - days * MICROS_PER_DAY <= MAX ->
     MIN <= clock s ->
     option_map fst (get_metrics_trends fuel days s) = Some (Return [])) /\
    (999999999 < Z.abs days ->
     exists detail : string,
       option_map fst (get_metrics_trends fuel days s)
       = Some (Raise (HTTPException 500 detail))).
Proof.
  intros fuel days s. split; [|split].
  - now apply trends_count_every_row_once.
  - apply (proj1 (trends_of_negative_and_huge_periods fuel days s)).
  - apply (proj2 (trends_of_negative_and_huge_periods fuel days s)).
Qed.

Lemma trends_witness :
  (exists trends : list MetricsTrends,
      option_map fst (get_metrics_trends 10 7 one_conversation_session)
      = Some (Return trends) /\
      Z.of_nat (List.length trends) = 7 + 1 /\
      Forall (fun e => 0 <= trend_escalations e <= trend_tickets e) trends /\
      fold_right Z.add 0 (map trend_conversations trends)
      = count (fun c => within (clock one_conversation_session - 7 * MICROS_PER_DAY)
                               (clock one_conversation_session + MICROS_PER_DAY)
                               (conv_created_at c))
              (conversations (view one_conversation_session)) /\
      fold_right Z.add 0 (map trend_tickets trends)
      = count (fun k => within (clock one_conversation_session - 7 * MICROS_PER_DAY)
                               (clock one_conversation_session + MICROS_PER_DAY)
                               (ticket_created_at k))
              (tickets (view one_conversation_session))) /\
  option_map fst (get_metrics_trends 0 (-3) one_conversation_session) = Some (Return []) /\
  exists detail : string,
    option_map fst (get_metrics_trends 0 1000000000 one_conversation_session)
    = Some (Raise (HTTPException 500 detail)).
Proof.
  split; [|split].
  - apply (proj1 (trends_cover_the_period_once 10 7 one_conversation_session)).
    + lia.
    + simpl. lia.
    + vm_compute. discriminate.
    + vm_compute. discriminate.
  - apply (proj1 (proj2 (trends_cover_the_period_once 0 (-3) one_conversation_session))).
    + lia.
    + vm_compute. discriminate.
    + vm_compute. discriminate.
  - apply (proj2 (proj2 (trends_cover_the_period_once
                           0 1000000000 one_conversation_session))).
    vm_compute. reflexivity.
Defined.

End TrendsCounts.

Section KeywordSearchResults.
Import PyList Num Db KeywordSearch.
Local Open Scope Z_scope.

Lemma prefix_app_l (a b s : string) : prefix (a ++ b) s = true -> prefix a s = true.
Proof.
  revert s. induction a as [|c a IH]; intros s H; [now destruct s|].
  destruct s as [|d s]; simpl in *; [discriminate|].
  destruct (ascii_dec c d); [now apply IH | discriminate].
Qed.

Lemma contains_app_l (a b s : string) : contains (a ++ b) s = true -> contains a s = true.
Proof.
  induction s as [|d s IH]; cbn [contains]; intros H.
  - rewrite orb_false_r in *. now apply prefix_app_l in H.
  - apply orb_true_iff in H. apply orb_true_iff. destruct H as [H|H].
    + left. now apply prefix_app_l in H.
    + right. now apply IH.
Qed.

Lemma join_starts_with_head (sep w : string) (rest : list string) :
  exists x, join sep (w :: rest) = w ++ x.
Proof.
  destruct rest as [|w' rest].
  - exists EmptyString. simpl. induction w as [|c w IH]; simpl; [reflexivity | now rewrite <- IH].
  - eexists. reflexivity.
Qed.

(** A word counts for a chunk when the kbId, the title or the content
    holds it, and then for 2 points at least. *)
Lemma word_score_cases word kb_id title content :
  (word_score word kb_id title content = 0 /\
   contains word kb_id = false /\ contains word title = false /\
   contains word content = false) \/
  (2 <= word_score word kb_id title content /\
   (contains word kb_id || contains word title || contains word content = true)).
Proof.
  unfold word_score.
  destruct (contains word kb_id), (contains word title), (contains word content);
    cbn [orb]; first [ left; repeat split; reflexivity | right; split; [lia | reflexivity] ].
Qed.

Lemma fold_score_dichotomy (f : string -> Z) (words : list string) :
  (forall w, f w = 0 \/ 2 <= f w) ->
  forall init,
    (fold_left (fun score w => score + f w) words init = init /\
     forall w, In w words -> f w = 0) \/
    (init + 2 <= fold_left (fun score w => score + f w) words init /\
     exists w, In w words /\ 2 <= f w).
Proof.
  intros Hf. induction words as [|w words IH]; intros init; cbn [fold_left].
  - left. split; [reflexivity | intros w []].
  - destruct (IH (init + f w)) as [[E Hall]|[G [x [Hx Hfx]]]].
    + destruct (Hf w) as [Hw|Hw].
      * left. split; [lia|]. intros x [<-|Hx]; [exact Hw | now apply Hall].
      * right. split; [lia|]. exists w. split; [now left | exact Hw].
    + right. split; [destruct (Hf w); lia|]. exists x. split; [now right | exact Hfx].
Qed.

Lemma chunk_score_positive words chunk :
  0 < chunk_score words chunk ->
  2 <= chunk_score words chunk /\
  exists w, In w words /\
            (contains w (lower (chunk_kb_id chunk))
             || contains w (lower (chunk_title chunk))
             || contains w (lower (chunk_content chunk)) = true).
Proof.
  unfold chunk_score. cbv zeta. rewrite kb_id_lower_eq.
  assert (Cases := fun w => word_score_cases w (lower (chunk_kb_id chunk))
                                             (lower (chunk_title chunk))
                                             (lower (chunk_content chunk))).
  assert (D := fold_score_dichotomy
                 (fun w => word_score w (lower (chunk_kb_id chunk))
                                      (lower (chunk_title chunk))
                                      (lower (chunk_content chunk)))
                 words
                 (fun w => match Cases w with
                           | or_introl (conj E _) => or_introl E
                           | or_intror (conj E _) => or_intror E
                           end) 0).
  cbv beta in D.
  destruct D as [[E Hall]|[G [w [Hw Hfw]]]].
  - (* no single word is found: the phrase cannot be found either *)
    rewrite E.
    assert (None_found : forall w, In w words ->
              contains w (lower (chunk_title chunk)) = false /\
              contains w (lower (chunk_content chunk)) = false).
    { intros w Hw. specialize (Hall w Hw).
      destruct (Cases w) as [[_ [_ [T C]]]|[G _]]; [now split | lia]. }
    destruct words as [|w rest]; [cbn; lia|].
    destruct (join_starts_with_head " " w rest) as [x ->].
    destruct (None_found w (or_introl eq_refl)) as [T C].
    assert (T' : contains (w ++ x) (lower (chunk_title chunk)) = false).
    { destruct (contains (w ++ x) (lower (chunk_title chunk))) eqn:G; [|reflexivity].
      apply contains_app_l in G. congruence. }
    assert (C' : contains (w ++ x) (lower (chunk_content chunk)) = false).
    { destruct (contains (w ++ x) (lower (chunk_content chunk))) eqn:G; [|reflexivity].
      apply contains_app_l in G. congruence. }
    rewrite T', C'. cbn [orb]. destruct (1 <? _); lia.
  - intros _. split.
    + destruct (1 <? _); [destruct (_ || _)|]; lia.
    + exists w. split; [exact Hw|].
      destruct (Cases w) as [[E _]|[_ Q]]; [lia | exact Q].
Qed.

(** X21. What keyword search returns.  Without the chunk table the
    result is empty.  Otherwise the result descends by score and has at
    most [top_k] entries for a [top_k] that is not negative; every entry
    is the entry of a stored chunk that holds at least one of the query
    words in its kbId, title or content, its score is at least 2 and its
    distance at most 0.9. *)
Theorem keyword_search_returns_matching_chunks :
  forall (table : option (list KBChunk)) (query : string) (top_k : Z),
    (table = None -> _keyword_search table query top_k = []) /\
    (0 <= top_k ->
     Z.of_nat (List.length (_keyword_search table query top_k)) <= top_k) /\
    StronglySorted (desc sc_score) (_keyword_search table query top_k) /\
    forall e : ScoredChunk,
      In e (_keyword_search table query top_k) ->
      2 <= sc_score e /\
      (sc_distance e <= 0.9)%Q /\
      exists (all_chunks : list KBChunk) (chunk : KBChunk) (word : string),
        table = Some all_chunks /\ In chunk all_chunks /\ e = entry query chunk /\
        In word (query_words query) /\
        (contains word (lower (chunk_kb_id chunk))
         || contains word (lower (chunk_title chunk))
         || contains word (lower (chunk_content chunk)) = true).
Proof.
  intros table query top_k. unfold _keyword_search.
  destruct table as [all_chunks|].
  2:{ split; [reflexivity|]. split; [simpl; lia|]. split; [constructor|]. intros e []. }
  set (found := sort_desc sc_score
                  (filter (fun e => 0 <? sc_score e) (map (entry query) all_chunks))).
  split; [discriminate|]. split; [|split].
  - intros H. unfold slice_to.
    assert (E : (top_k <? 0) = false) by (apply Z.ltb_ge; lia).
    rewrite E, length_firstn. lia.
  - destruct (slice_to_firstn top_k found) as [n ->].
    apply StronglySorted_firstn. subst found. apply sort_desc_sorted.
  - intros e He.
    destruct (slice_to_firstn top_k found) as [n En]. rewrite En in He.
    apply in_firstn in He. subst found.
    apply (Permutation_in _ (sort_desc_perm _ _)) in He.
    apply filter_In in He. destruct He as [He Hs].
    apply in_map_iff in He. destruct He as [chunk [<- Hc]].
    apply Z.ltb_lt in Hs. unfold entry, scored in *. cbn [sc_score sc_distance] in *.
    destruct (chunk_score_positive _ _ Hs) as [H2 [w [Hw Hm]]].
    split; [exact H2|]. split.
    + assert (Q2 : (2 <= inject_Z (chunk_score (query_words query) chunk))%Q)
        by now apply inject_Z_le_2.
      unfold Qdiv. set (q := inject_Z (chunk_score (query_words query) chunk)) in *.
      clearbody q. cbn [Qinv Qnum Qden]. lra.
    + exists all_chunks, chunk, w. repeat split; assumption.
Qed.

Lemma keyword_search_witness :
  Z.of_nat (List.length (_keyword_search (Some [network_article; vpn_article])
                                         "VPN setup" 1)) <= 1.
Proof.
  apply (proj1 (proj2 (keyword_search_returns_matching_chunks
                         (Some [network_article; vpn_article]) "VPN setup" 1))).
  lia.
Defined.

End KeywordSearchResults.

Section TimeDriftChecks.
Import RagAnswer Chat.

Lemma existsb_more {A} (p : A -> bool) (l extra : list A) :
  existsb p l = true -> existsb p (l ++ extra) = true.
Proof. intros H. rewrite existsb_app, H. reflexivity. Qed.

(** X22. For a time-drift query the generation step always ends with an
    answer, and with one the endpoint accepts: the answer is neither
    blank nor shorter than 150 characters, holds a time-drift keyword
    and passes the endpoint's own time-drift check unchanged.  A query
    that is not about time drift keeps the generated answer as it is. *)
Theorem repaired_answer_passes_the_endpoint_check :
  forall (query : string) (generated : option string),
    (is_time_drift (lower query) = true ->
     exists answer : string,
       repair_generated_answer query generated = Some answer /\
       generated_is_defective (Some answer) = false /\
       needs_time_drift_fallback answer = false /\
       time_drift_repair query answer = answer) /\
    (is_time_drift (lower query) = false ->
     repair_generated_answer query generated = generated).
Proof.
  intros query generated. unfold repair_generated_answer, time_drift_repair. split.
  2:{ intros ->. reflexivity. }
  intros ->.
  destruct canned_answer_is_not_defective as [C1 [C2 _]].
  destruct (generated_is_defective generated) eqn:D.
  { exists TIME_DRIFT_ANSWER. rewrite C1. repeat split; assumption. }
  destruct generated as [a|]; [|discriminate].
  destruct (should_use_fallback a) eqn:F.
  { exists TIME_DRIFT_ANSWER. rewrite C1. repeat split; assumption. }
  exists a. split; [reflexivity|]. split; [exact D|].
  assert (N : needs_time_drift_fallback a = false).
  { unfold needs_time_drift_fallback. unfold generated_is_defective in D.
    apply orb_false_iff in D. destruct D as [D D4].
    apply orb_false_iff in D. destruct D as [D D3].
    apply orb_false_iff in D. destruct D as [D1 D2].
    rewrite D1, D2, D3. apply negb_false_iff in D4.
    assert (K : contains_any time_drift_keywords (lower a) = true).
    { change time_drift_keywords with (rag_time_drift_keywords ++ ["policy"])%list.
      now apply existsb_more. }
    rewrite K. cbn [negb orb]. rewrite !orb_false_r.
    unfold is_empty_answer. unfold should_use_fallback in F.
    destruct (contains _ a && contains _ a); [exact F | reflexivity]. }
  split; [exact N|]. now rewrite N.
Qed.

Lemma repaired_answer_witness :
  exists answer : string,
    repair_generated_answer "My VM clock is out of sync" None = Some answer /\
    generated_is_defective (Some answer) = false /\
    needs_time_drift_fallback answer = false /\
    time_drift_repair "My VM clock is out of sync" answer = answer.
Proof.
  apply (proj1 (repaired_answer_passes_the_endpoint_check
                  "My VM clock is out of sync" None)).
  reflexivity.
Defined.

End TimeDriftChecks.

Section ConflictAnswers.
Import PyList Num Db DateTime KbConflict.

Variable json_loads : string -> json_outcome.
Variable py_repr : value -> string.

Lemma filter_relevant_incl words phrases chunks kept :
  filter_relevant words phrases chunks = Some kept -> incl kept chunks.
Proof.
  revert kept. induction chunks as [|c rest IH]; intros kept; cbn [filter_relevant].
  - intros H. injection H as <-. apply incl_refl.
  - destruct (is_relevant words phrases c) as [keep|]; [|discriminate].
    destruct (filter_relevant words phrases rest) as [kept'|]; [|discriminate].
    intros H. injection H as <-. specialize (IH kept' eq_refl).
    destruct keep.
    + intros x [<-|Hx]; [now left | right; now apply IH].
    + intros x Hx. right. now apply IH.
Qed.

Lemma relevant_chunks_incl query context_chunks relevant :
  relevant_chunks query context_chunks = Some relevant -> incl relevant context_chunks.
Proof.
  unfold relevant_chunks.
  destruct (filter_relevant _ _ context_chunks) as [kept|] eqn:E; [|discriminate].
  intros H. injection H as <-.
  destruct (is_nil kept); [apply incl_refl | now apply filter_relevant_incl in E].
Qed.

Lemma add_to_group_members kb_id c groups g x :
  In g (add_to_group kb_id c groups) -> In x (snd g) ->
  x = c \/ exists g0, In g0 groups /\ In x (snd g0).
Proof.
  revert g. induction groups as [|[k cs] rest IH]; intros g; cbn [add_to_group].
  - intros [<-|[]] [<-|[]]. now left.
  - destruct (value_eqb k kb_id).
    + intros [<-|Hg] Hx.
      * cbn [snd] in Hx. apply in_app_or in Hx. destruct Hx as [Hx|[<-|[]]].
        -- right. exists (k, cs). split; [now left | exact Hx].
        -- now left.
      * right. exists g. split; [now right | exact Hx].
    + intros [<-|Hg] Hx.
      * right. exists (k, cs). split; [now left | exact Hx].
      * destruct (IH g Hg Hx) as [->|[g0 [Hg0 Hx0]]]; [now left|].
        right. exists g0. split; [now right | exact Hx0].
Qed.

Lemma group_by_kb_id_members chunks :
  forall groups0 groups g x,
    group_by_kb_id chunks groups0 = Some groups ->
    In g groups -> In x (snd g) ->
    In x chunks \/ exists g0, In g0 groups0 /\ In x (snd g0).
Proof.
  induction chunks as [|c rest IH]; intros groups0 groups g x; cbn [group_by_kb_id].
  - intros H. injection H as <-. intros Hg Hx. right. now exists g.
  - destruct (truthy_value (kb_id_of c)).
    + destruct (kb_id_of c) as [v|d] eqn:K; [|discriminate].
      intros H Hg Hx.
      destruct (IH _ _ _ _ H Hg Hx) as [Hin|[g0 [Hg0 Hx0]]]; [left; now right|].
      destruct (add_to_group_members _ _ _ _ _ Hg0 Hx0) as [->|Hold];
        [left; now left | now right].
    + intros H Hg Hx.
      destruct (IH _ _ _ _ H Hg Hx) as [Hin|Hold]; [left; now right | now right].
Qed.

Lemma pick_best_member groups :
  forall best_score best_chunk c,
    pick_best json_loads py_repr groups best_score best_chunk = Some (Some c) ->
    best_chunk = Some c \/ exists g, In g groups /\ In c (snd g).
Proof.
  induction groups as [|[k cs] rest IH]; intros best_score best_chunk c; cbn [pick_best].
  - intros H. injection H as <-. now left.
  - destruct cs as [|c0 cs]; [discriminate|].
    destruct (authority_score json_loads py_repr c0) as [score|]; [|discriminate].
    destruct (Float64.gt score best_score); intros H;
      destruct (IH _ _ _ H) as [E|[g [Hg Hc]]].
    + injection E as <-. right. exists (k, c0 :: cs). split; now left.
    + right. exists g. split; [now right | exact Hc].
    + now left.
    + right. exists g. split; [now right | exact Hc].
Qed.

Lemma resolve_inv query context_chunks a :
  resolve json_loads py_repr query context_chunks = Some a ->
  (exists (c : chunk) (content : string),
      In c context_chunks /\
      get c "content" (str EmptyString) = Scalar (SStr content) /\
      confidence a = 0.8 /\
      kbReferences a
      = [ {| cref_id := kb_id_of c;
             cref_title := get c "title" (str "Unknown");
             cref_snippet := PyStr.slice_to 200 content |} ]) \/
  (confidence a = 0.6 /\ answer a = GENERIC_ANSWER /\
   (List.length (kbReferences a) <= 3)%nat).
Proof.
  intros R. unfold resolve in R.
  destruct (relevant_chunks query context_chunks) as [relevant|] eqn:Hrel; [|discriminate].
  destruct (group_by_kb_id relevant []) as [groups|] eqn:Hg; [|discriminate].
  destruct (1 <? Z.of_nat (List.length groups))%Z.
  - destruct (pick_best json_loads py_repr groups (Float64.NInt (-1)) None)
      as [[best|]|] eqn:Hp;
      [| |discriminate].
    + left. destruct (explain_inv _ _ _ _ _ _ R) as [content [Hc [H8 Hr]]].
      exists best, content. repeat split; try assumption.
      destruct (pick_best_member _ _ _ _ Hp) as [E|[g [Hin Hb]]]; [discriminate|].
      destruct (group_by_kb_id_members _ _ _ _ _ Hg Hin Hb) as [Hrelv|[g0 [[] _]]].
      now apply (relevant_chunks_incl _ _ _ Hrel).
    + right. exact (generic_answer_inv _ _ R).
  - right. exact (generic_answer_inv _ _ R).
Qed.

(** X23. The three answers to a KB-conflict query.  Either one document
    is named authoritative, with confidence 0.8 and exactly one
    reference, and it is one of the chunks that were retrieved; or the
    generic answer is given, with confidence 0.6 and at most three
    references; or something failed, and the answer asks for a ticket,
    with confidence 0 and no reference. *)
Theorem conflict_answer_has_three_shapes :
  forall (query : string) (context_chunks : list chunk),
    (exists (c : chunk) (content : string),
        In c context_chunks /\
        get c "content" (str EmptyString) = Scalar (SStr content) /\
        confidence (_handle_kb_conflict json_loads py_repr query context_chunks) = 0.8 /\
        kbReferences (_handle_kb_conflict json_loads py_repr query context_chunks)
        = [ {| cref_id := kb_id_of c;
               cref_title := get c "title" (str "Unknown");
               cref_snippet := PyStr.slice_to 200 content |} ]) \/
    (confidence (_handle_kb_conflict json_loads py_repr query context_chunks) = 0.6 /\
     answer (_handle_kb_conflict json_loads py_repr query context_chunks) = GENERIC_ANSWER /\
     (List.length (kbReferences
                     (_handle_kb_conflict json_loads py_repr query context_chunks))
      <= 3)%nat) \/
    _handle_kb_conflict json_loads py_repr query context_chunks = error_answer.
Proof.
  intros query context_chunks. unfold _handle_kb_conflict.
  destruct (resolve json_loads py_repr query context_chunks) as [a|] eqn:R;
    [|right; right; reflexivity].
  destruct (resolve_inv _ _ _ R) as [H|H]; [now left | right; now left].
Qed.

End ConflictAnswers.

Section ChatResponses.
Import PyList Num Db SessionStore Escalation Guardrail TierRouting RagAnswer Chat.

Lemma bind_inv {A B} (c : M A) (k : A -> M B) s r s' :
  bind c k s = (Return r, s') ->
  exists a s1, c s = (Return a, s1) /\ k a s1 = (Return r, s').
Proof.
  unfold bind. destruct (c s) as [[a|e] s1]; [|discriminate].
  intros H. now exists a, s1.
Qed.

Lemma validated_inv r s r' s' :
  validated r s = (Return r', s') ->
  r' = r /\ s' = s /\ (0 <= confidence r <= 1)%Q.
Proof.
  unfold validated.
  destruct (Qle_bool 0 (confidence r) && Qle_bool (confidence r) 1) eqn:E; [|discriminate].
  intros H. injection H as <- <-.
  apply andb_true_iff in E. destruct E as [E1 E2].
  apply Qle_bool_iff in E1, E2. now repeat split.
Qed.

Lemma render_uuid_truthy n : truthy (render_uuid n) = true.
Proof. reflexivity. Qed.

Lemma create_ticket_inv session_id conversation_id subject description tier severity
      user_role s t s' :
  create_ticket session_id conversation_id subject description tier severity user_role s
  = (Return t, s') ->
  truthy (ticket_id t) = true.
Proof.
  unfold create_ticket. db_unfold. unfold commit. db_unfold.
  destruct (faults s) as [|[m|] rest]; db_unfold; intros H;
    try discriminate; injection H as <- _; reflexivity.
Qed.

Ltac response_facts :=
  cbn [needsEscalation ticketId guardrail blocked reason confidence andb] in *;
  repeat split;
  try match goal with
      | |- ?b = false -> (if ?b then _ else _) = _ => intros ->
      end;
  intros; try assumption; try discriminate; try reflexivity; try congruence.

Lemma answered_response_inv request conversation history gb gr ogb ogr score rag s r s' :
  answered_response request conversation history gb gr ogb ogr score rag s = (Return r, s') ->
  (needsEscalation r = true <-> ticketId r <> None) /\
  (blocked (guardrail r) = true -> needsEscalation r = true) /\
  (blocked (guardrail r) = false -> reason (guardrail r) = None) /\
  (0 <= confidence r <= 1)%Q.
Proof.
  unfold answered_response.
  destruct (classify_tier_and_severity _ _ _ _ _) as [[tier severity] esc].
  intros H.
  apply bind_inv in H. destruct H as (tid & s1 & H1 & H).
  apply bind_inv in H. destruct H as (m & s2 & _ & H).
  assert (T1 : (esc = true /\ exists id, tid = Some id /\ truthy id = true)
               \/ (esc = false /\ tid = None)).
  { destruct esc.
    - left. split; [reflexivity|].
      apply bind_inv in H1. destruct H1 as (t & s0 & Hc & Hr).
      apply create_ticket_inv in Hc. unfold ret in Hr. injection Hr as <- _.
      now exists (ticket_id t).
    - right. unfold ret in H1. injection H1 as <- _. now split. }
  clear H1.
  destruct (is_kernel_panic_with_fix (message request)) eqn:Fix; cbn [andb] in H.
  - destruct T1 as [[-> [id [-> Hid]]]|[-> ->]]; cbn [negb has_ticket andb] in H.
    + rewrite Hid in H. cbn [negb andb] in H.
      apply bind_inv in H. destruct H as (tid & s3 & Hr & H).
      unfold ret in Hr. injection Hr as <- _.
      apply validated_inv in H. destruct H as [-> [_ [Hc1 Hc2]]].
      response_facts.
    + apply bind_inv in H. destruct H as (tid & s3 & Hr & H).
      apply bind_inv in Hr. destruct Hr as (t & s0 & Hc & Hr).
      unfold ret in Hr. injection Hr as <- _.
      apply validated_inv in H. destruct H as [-> [_ [Hc1 Hc2]]].
      response_facts.
  - apply bind_inv in H. destruct H as (tid' & s3 & Hr & H).
    unfold ret in Hr. injection Hr as <- _.
    apply validated_inv in H. destruct H as [-> [_ [Hc1 Hc2]]].
    destruct T1 as [[-> [id [-> Hid]]]|[-> ->]]; response_facts.
Qed.

Lemma chat_body_inv process_query request s r s' :
  chat_body process_query request s = (Return r, s') ->
  (needsEscalation r = true <-> ticketId r <> None) /\
  (blocked (guardrail r) = true -> needsEscalation r = true) /\
  (blocked (guardrail r) = false -> reason (guardrail r) = None) /\
  (0 <= confidence r <= 1)%Q.
Proof.
  unfold chat_body. intros H.
  apply bind_inv in H. destruct H as (conversation & s1 & _ & H).
  apply bind_inv in H. destruct H as (history & s2 & _ & H).
  destruct (check_guardrail (message request) (userRole request)) as [ogb ogr].
  apply bind_inv in H. destruct H as ([] & s3 & _ & H).
  destruct ((if is_kernel_panic_query (message request) && ogb then false else ogb)
            && negb (is_kernel_panic_query (message request))).
  - unfold blocked_response in H.
    apply bind_inv in H. destruct H as (t & s4 & Hc & H).
    apply bind_inv in H. destruct H as (m & s5 & _ & H).
    apply validated_inv in H. destruct H as [-> [_ [Hc1 Hc2]]].
    response_facts.
  - apply bind_inv in H. destruct H as (m & s4 & _ & H).
    destruct (should_ask_clarifying_question _ _ _ _) as [[|] [question|]];
      try (now apply answered_response_inv in H).
    destruct (truthy question); [|now apply answered_response_inv in H].
    unfold clarifying_response in H.
    apply bind_inv in H. destruct H as (m' & s5 & _ & H).
    apply validated_inv in H. destruct H as [-> [_ [Hc1 Hc2]]].
    response_facts.
Qed.

(** X24. What every response of the chat endpoint satisfies: it
    escalates exactly when it carries a ticket id; a response marked
    as blocked by the guardrail is always escalated; a response that is
    not marked as blocked gives no guardrail reason; the confidence lies
    between 0 and 1.  Every failure leaves the endpoint as a 500
    answer. *)
Theorem chat_response_invariants :
  forall (process_query : string -> string -> Z -> RagResult)
         (request : ChatRequest) (s : Session),
    match chat process_query request s with
    | (Return response, _) =>
        (needsEscalation response = true <-> ticketId response <> None) /\
        (blocked (guardrail response) = true -> needsEscalation response = true) /\
        (blocked (guardrail response) = false -> reason (guardrail response) = None) /\
        (0 <= confidence response <= 1)%Q
    | (Raise e, _) =>
        exists detail : string,
          e = HTTPException 500 ("Internal server error: " ++ detail)
    end.
Proof.
  intros process_query request s. unfold chat, try_except.
  destruct (chat_body process_query request s) as [[response|e] s'] eqn:E.
  - now apply chat_body_inv in E.
  - unfold raise. now exists (exn_str e).
Qed.

End ChatResponses.

Section BlockedRequests.
Import PyList Num Db SessionStore Escalation Guardrail TierRouting RagAnswer Chat.

Lemma create_ticket_run session_id conversation_id subject description tier severity
      user_role s :
  faults s = [] ->
  exists t s',
    create_ticket session_id conversation_id subject description tier severity user_role s
    = (Return t, s') /\
    faults s' = [] /\ stored s' = view s' /\
    tickets (view s') = (tickets (view s) ++ [t])%list /\
    ticket_session_id t = session_id /\
    ticket_tier t = Tier_value tier /\
    ticket_severity t = Severity_value severity /\
    ticket_status t = "NEW".
Proof.
  intros H. unfold create_ticket. db_unfold.
  rewrite commit_steady by exact H. db_unfold.
  eexists. eexists. split; [reflexivity|]. repeat split.
Qed.

Lemma add_message_run conversation_id role content confidence tier severity
      kb_references guardrail_blocked guardrail_reason s :
  faults s = [] ->
  exists m s',
    add_message conversation_id role content confidence tier severity kb_references
                guardrail_blocked guardrail_reason s = (Return m, s') /\
    faults s' = [] /\ stored s' = view s' /\
    tickets (view s') = tickets (view s) /\
    messages (view s') = (messages (view s) ++ [m])%list /\
    msg_role m = role /\ msg_content m = content /\
    msg_guardrail_blocked m = guardrail_blocked.
Proof.
  intros H. unfold add_message. db_unfold.
  destruct (List.find _ (conversations (view s))); db_unfold;
    rewrite commit_steady by exact H; db_unfold;
    eexists; eexists; (split; [reflexivity|]); repeat split.
Qed.

(** X25. A request the guardrail blocks, other than a kernel-panic
    request, is answered without consulting the RAG service.  When the
    database accepts the writes, the response is marked blocked with the
    guardrail's reason, has tier TIER_3, severity HIGH, confidence 0 and
    no KB reference, and names a ticket that is stored with these
    values and status NEW; the user message is stored as blocked. *)
Theorem blocked_request_is_ticketed_without_rag :
  forall (request : ChatRequest) (s : Session),
    short_circuits request = true ->
    faults s = [] ->
    exists (response : ChatResponse) (s' : Session) (ticket : Ticket) (m : Message),
      (forall process_query : string -> string -> Z -> RagResult,
          chat process_query request s = (Return response, s')) /\
      guardrail response
      = {| blocked := true;
           reason := snd (check_guardrail (message request) (userRole request)) |} /\
      tier response = TIER_3 /\ severity response = HIGH /\
      needsEscalation response = true /\
      confidence response = 0.0 /\ kbReferences response = [] /\
      ticketId response = Some (ticket_id ticket) /\
      In ticket (tickets (stored s')) /\
      ticket_session_id ticket = sessionId request /\
      ticket_tier ticket = "TIER_3" /\ ticket_severity ticket = "HIGH" /\
      ticket_status ticket = "NEW" /\
      In m (messages (stored s')) /\
      msg_content m = message request /\ msg_guardrail_blocked m = true.
Proof.
  intros request s Hsc Hf.
  unfold short_circuits in Hsc. apply andb_true_iff in Hsc. destruct Hsc as [Hb Hk].
  apply negb_true_iff in Hk.
  destruct (get_or_create_conversation_ok (sessionId request) (userRole request) s Hf)
    as (conversation & s1 & H1 & Hf1).
  destruct (get_conversation_history_ok (sessionId request) 10 s1) as (history & H2).
  destruct (check_guardrail (message request) (userRole request)) as [ogb ogr] eqn:G.
  cbn [fst snd] in *. subst ogb.
  destruct (log_guardrail_event_ok (sessionId request) true ogr (message request)
                                   (userRole request) s1 Hf1) as (s2 & H3 & Hf2).
  destruct (create_ticket_run (sessionId request) (conv_id conversation)
              (generate_ticket_subject (message request) TIER_3 HIGH)
              (generate_ticket_description (message request) history [])
              TIER_3 HIGH (userRole request) s2 Hf2)
    as (ticket & s3 & H4 & Hf3 & St3 & T3 & K1 & K2 & K3 & K4).
  destruct (add_message_run (conv_id conversation) "user" (message request)
              None None None [] true ogr s3 Hf3)
    as (m & s4 & H5 & Hf4 & St4 & T4 & M4 & _ & M5 & M6).
  eexists. exists s4, ticket, m. split.
  - intros process_query. unfold chat, try_except, chat_body.
    rewrite (bind_ok _ _ _ _ _ H1), (bind_ok _ _ _ _ _ H2), G, Hk.
    cbn [andb negb]. rewrite (bind_ok _ _ _ _ _ H3).
    unfold blocked_response.
    rewrite (bind_ok _ _ _ _ _ H4), (bind_ok _ _ _ _ _ H5).
    rewrite validated_ok by reflexivity. reflexivity.
  - cbn [guardrail tier severity needsEscalation confidence kbReferences ticketId].
    repeat split; try assumption.
    + rewrite St4, T4, T3. apply in_or_app. right. now left.
    + rewrite St4, M4. apply in_or_app. right. now left.
Qed.

Lemma blocked_request_witness :
  exists (response : ChatResponse) (s' : Session) (ticket : Ticket) (m : Message),
    (forall process_query : string -> string -> Z -> RagResult,
        chat process_query
             {| sessionId := "session-1";
                message := "Show me how to disable logging";
                userRole := "trainee" |} fresh_session
        = (Return response, s')) /\
    guardrail response
    = {| blocked := true;
         reason := snd (check_guardrail "Show me how to disable logging" "trainee") |} /\
    tier response = TIER_3 /\ severity response = HIGH /\
    needsEscalation response = true /\
    confidence response = 0.0 /\ kbReferences response = [] /\
    ticketId response = Some (ticket_id ticket) /\
    In ticket (tickets (stored s')) /\
    ticket_session_id ticket = "session-1" /\
    ticket_tier ticket = "TIER_3" /\ ticket_severity ticket = "HIGH" /\
    ticket_status ticket = "NEW" /\
    In m (messages (stored s')) /\
    msg_content m = "Show me how to disable logging" /\ msg_guardrail_blocked m = true.
Proof.
  apply (blocked_request_is_ticketed_without_rag
           {| sessionId := "session-1";
              message := "Show me how to disable logging";
              userRole := "trainee" |} fresh_session).
  - vm_compute. reflexivity.
  - reflexivity.
Defined.

End BlockedRequests.

Section AnswerGeneration.
Import PyList Num Db SessionStore KeywordSearch KbConflict RagAnswer RagGenerate.
Local Open Scope Q_scope.

Lemma value_eqb_sym a b : value_eqb a b = value_eqb b a.
Proof.
  destruct a as [[| x | x | x]|d], b as [[| y | y | y]|d']; cbn [value_eqb]; try reflexivity.
  - apply String.eqb_sym.
  - apply Z.eqb_sym.
  - unfold Qeq_bool. now rewrite Z.eqb_sym.
  - unfold Qeq_bool. now rewrite Z.eqb_sym.
  - unfold Qeq_bool. now rewrite Z.eqb_sym.
Qed.

Lemma ForallOrdPairs_snoc {A} (R : A -> A -> Prop) (l : list A) (x : A) :
  ForallOrdPairs R l -> Forall (fun a => R a x) l -> ForallOrdPairs R (l ++ [x]).
Proof.
  induction 1 as [|a l Ha Hl IH]; intros Hx; cbn [app].
  - constructor; [constructor | constructor].
  - inversion Hx as [|? ? Hax Hlx]; subst. constructor.
    + apply Forall_app. split; [exact Ha | now constructor].
    + now apply IH.
Qed.

(** The invariant of the extraction loop: fewer than three references
    so far, pairwise of different KB IDs, all of them seen. *)
Lemma references_invariant chunks :
  forall seen_ids kb_references refs,
    references chunks seen_ids kb_references = Some refs ->
    (List.length kb_references < 3)%nat ->
    ForallOrdPairs (fun a b => value_eqb (cref_id a) (cref_id b) = false) kb_references ->
    (forall a, In a kb_references -> In (cref_id a) seen_ids) ->
    (List.length refs <= 3)%nat /\
    ForallOrdPairs (fun a b => value_eqb (cref_id a) (cref_id b) = false) refs /\
    forall r, In r refs ->
      In r kb_references \/
      exists c content,
        In c chunks /\ cref_id r = kb_id_of c /\ truthy_value (kb_id_of c) = true /\
        cref_title r = get c "title" (str "Unknown") /\
        get c "content" (str EmptyString) = Scalar (SStr content) /\
        cref_snippet r = PyStr.slice_to 200 content.
Proof.
  induction chunks as [|c rest IH]; intros seen_ids kb_references refs; cbn [references].
  - intros H Hlen Hpairs Hseen. injection H as <-.
    split; [lia|]. split; [exact Hpairs|]. intros r Hr. now left.
  - intros H Hlen Hpairs Hseen.
    assert (Skip : references rest seen_ids kb_references = Some refs ->
                   (List.length refs <= 3)%nat /\
                   ForallOrdPairs (fun a b => value_eqb (cref_id a) (cref_id b) = false) refs /\
                   forall r, In r refs ->
                     In r kb_references \/
                     exists c0 content,
                       In c0 (c :: rest) /\ cref_id r = kb_id_of c0 /\
                       truthy_value (kb_id_of c0) = true /\
                       cref_title r = get c0 "title" (str "Unknown") /\
                       get c0 "content" (str EmptyString) = Scalar (SStr content) /\
                       cref_snippet r = PyStr.slice_to 200 content).
    { intros H'. destruct (IH _ _ _ H' Hlen Hpairs Hseen) as [L [P F]].
      split; [exact L|]. split; [exact P|]. intros r Hr.
      destruct (F r Hr) as [Hin|(c0 & content & Hc0 & rest_facts)]; [now left|].
      right. exists c0, content. split; [now right | exact rest_facts]. }
    destruct (truthy_value (kb_id_of c)) eqn:T; [|exact (Skip H)].
    destruct (kb_id_of c) as [id|d] eqn:K; [|discriminate].
    destruct (seen (Scalar id) seen_ids) eqn:S; [exact (Skip H)|].
    destruct (get c "content" (str EmptyString)) as [[| content | |]|] eqn:C;
      try discriminate.
    set (new := {| cref_id := Scalar id; cref_title := get c "title" (str "Unknown");
                   cref_snippet := PyStr.slice_to 200 content |}) in *.
    assert (Fresh : Forall (fun a => value_eqb (cref_id a) (cref_id new) = false)
                           kb_references).
    { rewrite Forall_forall. intros a Ha. specialize (Hseen a Ha).
      unfold seen in S.
      destruct (value_eqb (cref_id a) (cref_id new)) eqn:E; [|reflexivity].
      assert (X : existsb (value_eqb (Scalar id)) seen_ids = true).
      { apply existsb_exists. exists (cref_id a). split; [exact Hseen|].
        rewrite value_eqb_sym. exact E. }
      congruence. }
    assert (Pairs : ForallOrdPairs (fun a b => value_eqb (cref_id a) (cref_id b) = false)
                                   (kb_references ++ [new]))
      by now apply ForallOrdPairs_snoc.
    assert (New : exists c0 content0,
               In c0 (c :: rest) /\ cref_id new = kb_id_of c0 /\
               truthy_value (kb_id_of c0) = true /\
               cref_title new = get c0 "title" (str "Unknown") /\
               get c0 "content" (str EmptyString) = Scalar (SStr content0) /\
               cref_snippet new = PyStr.slice_to 200 content0).
    { exists c, content. rewrite K. repeat split; try assumption. now left. }
    destruct (3 <=? Z.of_nat (List.length (kb_references ++ [new])))%Z eqn:Full.
    + injection H as <-. rewrite length_app in *. cbn [List.length] in *.
      split; [lia|]. split; [exact Pairs|].
      intros r Hr. apply in_app_or in Hr. destruct Hr as [Hr|[<-|[]]]; [now left | now right].
    + apply Z.leb_gt in Full.
      destruct (IH _ _ _ H) as [L [P F]].
      * lia.
      * exact Pairs.
      * intros a Ha. apply in_app_or in Ha. destruct Ha as [Ha|[<-|[]]];
          [right; now apply Hseen | now left].
      * split; [exact L|]. split; [exact P|]. intros r Hr.
        destruct (F r Hr) as [Hin|(c0 & content0 & Hc0 & rest_facts)].
        -- apply in_app_or in Hin. destruct Hin as [Hin|[<-|[]]]; [now left | now right].
        -- right. exists c0, content0. split; [now right | exact rest_facts].
Qed.

(** X26. The KB references of a generated answer: at most three,
    pairwise of different KB IDs, each of them the KB ID, the title and
    the first 200 characters of the content of one of the context
    chunks, and none with an empty KB ID. *)
Theorem references_are_few_and_distinct :
  forall (context_chunks : list chunk) (refs : list ConflictRef),
    references context_chunks [] [] = Some refs ->
    (List.length refs <= 3)%nat /\
    ForallOrdPairs (fun a b => value_eqb (cref_id a) (cref_id b) = false) refs /\
    forall r : ConflictRef,
      In r refs ->
      exists (c : chunk) (content : string),
        In c context_chunks /\
        cref_id r = kb_id_of c /\ truthy_value (kb_id_of c) = true /\
        cref_title r = get c "title" (str "Unknown") /\
        get c "content" (str EmptyString) = Scalar (SStr content) /\
        cref_snippet r = PyStr.slice_to 200 content /\
        (String.length (cref_snippet r) <= 200)%nat.
Proof.
  intros context_chunks refs H.
  destruct (references_invariant context_chunks [] [] refs H) as [L [P F]].
  - simpl. lia.
  - constructor.
  - intros a [].
  - split; [exact L|]. split; [exact P|]. intros r Hr.
    destruct (F r Hr) as [[]|(c & content & Hc & H1 & H2 & H3 & H4 & H5)].
    exists c, content. repeat split; try assumption.
    rewrite H5. apply length_take.
Qed.

Lemma references_witness :
  (List.length
     [ {| cref_id := str "KB-MFA-001"; cref_title := str "MFA reset policy";
          cref_snippet := "MFA reset: contact the help desk." |};
       {| cref_id := str "KB-MFA-002"; cref_title := str "MFA reset guide";
          cref_snippet := "MFA reset: use the self-service portal." |};
       {| cref_id := str "KB-VPN-001"; cref_title := str "VPN setup";
          cref_snippet := "Install the VPN client first." |} ] <= 3)%nat.
Proof.
  apply (references_are_few_and_distinct
           [mfa_policy "kb"; mfa_policy "official"; mfa_guide; vpn_guide; mfa_guide]).
  reflexivity.
Defined.

End AnswerGeneration.

Section GeneratedAnswers.
Import PyList Num Db SessionStore KeywordSearch KbConflict RagAnswer RagGenerate.
Local Open Scope Q_scope.

Variable vector_search : string -> Z -> option (list chunk).
Variable kb_table : option (list KBChunk).
Variable stored_history : string -> option (list HistoryEntry).
Variable generate_with_context :
  string -> list chunk -> list HistoryEntry -> option (option string).
Variable _generate_template_answer : string -> list chunk -> Q -> option string.
Variable json_loads : string -> json_outcome.
Variable py_repr : value -> string.

Lemma conflict_answer_bounds query context_chunks :
  0 <= confidence (_handle_kb_conflict json_loads py_repr query context_chunks) <= 1 /\
  (List.length (kbReferences (_handle_kb_conflict json_loads py_repr query context_chunks))
   <= 3)%nat.
Proof.
  unfold _handle_kb_conflict.
  destruct (resolve json_loads py_repr query context_chunks) as [a|] eqn:R.
  - destruct (resolve_inv _ _ _ _ _ R) as [(c & content & _ & _ & -> & ->)|(-> & _ & L)].
    + split; [lra | simpl; lia].
    + split; [lra | exact L].
  - cbn [error_answer confidence kbReferences List.length]. split; [lra | lia].
Qed.

Lemma confidence_of_bounds context_chunks c :
  confidence_of context_chunks = Some c -> 0 <= c <= 1.
Proof.
  unfold confidence_of.
  destruct (sum_distances context_chunks 0) as [total|]; [|discriminate].
  intros H. injection H as <-.
  set (x := 1.0 - total / inject_Z (Z.of_nat (List.length context_chunks))).
  clearbody x.
  destruct (qmin_cases 1.0 x) as [[-> ?]|[-> ?]];
    destruct (qmax_cases 0.0 x) as [[E ?]|[E ?]];
    destruct (qmax_cases 0.0 1.0) as [[E' ?]|[E' ?]];
    rewrite ?E, ?E'; lra.
Qed.

Lemma repair_is_some query generated :
  is_time_drift (lower query) = true ->
  exists a, repair_generated_answer query generated = Some a.
Proof.
  intros H. unfold repair_generated_answer. rewrite H.
  destruct (generated_is_defective generated) eqn:D; [now eexists|].
  destruct generated as [a|]; [|discriminate].
  destruct (should_use_fallback a); now eexists.
Qed.

Lemma generate_facts query session_id context_chunks conversation_history g :
  generate vector_search kb_table stored_history generate_with_context
           _generate_template_answer json_loads py_repr
           query session_id context_chunks conversation_history = Some g ->
  0 <= gen_confidence g <= 1 /\
  (List.length (gen_kbReferences g) <= 3)%nat /\
  (is_kb_conflict_query query = false -> gen_confidence g < 0.3 ->
   gen_kbReferences g = []) /\
  (is_kb_conflict_query query = false -> context_chunks = [] ->
   g = {| gen_answer := Some NOT_IN_KB; gen_kbReferences := [];
          gen_confidence := 0.0 |}) /\
  (is_time_drift (lower query) = true -> exists a, gen_answer g = Some a).
Proof.
  unfold generate.
  set (ctx := if is_kb_conflict_query query && _ then _ else context_chunks).
  assert (Hctx : is_kb_conflict_query query = false -> ctx = context_chunks)
    by (intros E; subst ctx; now rewrite E).
  clearbody ctx.
  destruct (is_kb_conflict_query query && negb (is_nil ctx)) eqn:Conflict.
  { intros H. injection H as <-. cbn [gen_confidence gen_kbReferences gen_answer].
    apply andb_true_iff in Conflict. destruct Conflict as [Cq _].
    destruct (conflict_answer_bounds query ctx) as [B L].
    split; [exact B|]. split; [exact L|].
    split; [congruence|]. split; [congruence|]. intros _. now eexists. }
  destruct (is_nil ctx) eqn:Nil.
  { intros H. injection H as <-. cbn [gen_confidence gen_kbReferences gen_answer].
    split; [lra|]. split; [simpl; lia|]. split; [reflexivity|].
    split; [reflexivity|]. intros _. now eexists. }
  destruct (confidence_of ctx) as [conf|] eqn:Conf; [|discriminate].
  destruct (match conversation_history with
            | Some given => Some given
            | None => stored_history session_id
            end) as [history|]; [|discriminate].
  destruct (match generate_with_context query ctx history with
            | Some answer => Some answer
            | None => option_map Some (_generate_template_answer query ctx conf)
            end) as [generated|]; [|discriminate].
  destruct (if Qgeb conf 0.3 then references ctx [] [] else Some []) as [refs|] eqn:R;
    [|discriminate].
  intros H. injection H as <-. cbn [gen_confidence gen_kbReferences gen_answer].
  split; [now apply (confidence_of_bounds ctx)|]. split; [|split; [|split]].
  - destruct (Qgeb conf 0.3).
    + destruct (references_invariant ctx [] [] refs R) as [L _];
        [simpl; lia | constructor | intros a [] | exact L].
    + injection R as <-. simpl. lia.
  - intros _ Low. unfold Qgeb in R.
    destruct (Qle_bool 0.3 conf) eqn:E.
    + apply Qle_bool_iff in E. lra.
    + now injection R as <-.
  - intros Cq ->. rewrite (Hctx Cq) in Nil. discriminate.
  - intros T. now apply repair_is_some.
Qed.

(** X27. What answer generation guarantees, whatever the vector index,
    the language model and the template writer do.  The confidence
    lies between 0 and 1 and there are at most three KB references.
    Outside KB-conflict queries, a confidence below 0.3 comes with no
    reference, and an empty retrieval with the answer that the issue is
    not in the knowledge base, confidence 0.  A time-drift query always
    gets an answer text.  The same bounds hold for [process_query]. *)
Theorem generated_answer_is_bounded :
  forall (query session_id : string) (context_chunks : list chunk)
         (conversation_history : option (list HistoryEntry)) (top_k : Z),
    (0 <= gen_confidence
            (generate_answer vector_search kb_table stored_history generate_with_context
                             _generate_template_answer json_loads py_repr
                             query session_id context_chunks conversation_history)
     <= 1) /\
    (List.length
       (gen_kbReferences
          (generate_answer vector_search kb_table stored_history generate_with_context
                           _generate_template_answer json_loads py_repr
                           query session_id context_chunks conversation_history))
     <= 3)%nat /\
    (is_kb_conflict_query query = false ->
     gen_confidence
       (generate_answer vector_search kb_table stored_history generate_with_context
                        _generate_template_answer json_loads py_repr
                        query session_id context_chunks conversation_history) < 0.3 ->
     gen_kbReferences
       (generate_answer vector_search kb_table stored_history generate_with_context
                        _generate_template_answer json_loads py_repr
                        query session_id context_chunks conversation_history) = []) /\
    (is_kb_conflict_query query = false ->
     generate_answer vector_search kb_table stored_history generate_with_context
                     _generate_template_answer json_loads py_repr
                     query session_id [] conversation_history
     = {| gen_answer := Some NOT_IN_KB; gen_kbReferences := [];
          gen_confidence := 0.0 |}) /\
    (is_time_drift (lower query) = true ->
     exists a : string,
       gen_answer
         (generate_answer vector_search kb_table stored_history generate_with_context
                          _generate_template_answer json_loads py_repr
                          query session_id context_chunks conversation_history)
       = Some a) /\
    (0 <= gen_confidence
            (process_query vector_search kb_table stored_history generate_with_context
                           _generate_template_answer json_loads py_repr
                           query session_id top_k)
     <= 1) /\
    (List.length
       (gen_kbReferences
          (process_query vector_search kb_table stored_history generate_with_context
                         _generate_template_answer json_loads py_repr
                         query session_id top_k))
     <= 3)%nat.
Proof.
  assert (Main : forall query session_id context_chunks conversation_history,
             (0 <= gen_confidence
                     (generate_answer vector_search kb_table stored_history
                        generate_with_context _generate_template_answer json_loads py_repr
                        query session_id context_chunks conversation_history) <= 1) /\
             (List.length
                (gen_kbReferences
                   (generate_answer vector_search kb_table stored_history
                      generate_with_context _generate_template_answer json_loads py_repr
                      query session_id context_chunks conversation_history)) <= 3)%nat /\
             (is_kb_conflict_query query = false ->
              gen_confidence
                (generate_answer vector_search kb_table stored_history
                   generate_with_context _generate_template_answer json_loads py_repr
                   query session_id context_chunks conversation_history) < 0.3 ->
              gen_kbReferences
                (generate_answer vector_search kb_table stored_history
                   generate_with_context _generate_template_answer json_loads py_repr
                   query session_id context_chunks conversation_history) = []) /\
             (is_time_drift (lower query) = true ->
              exists a : string,
                gen_answer
                  (generate_answer vector_search kb_table stored_history
                     generate_with_context _generate_template_answer json_loads py_repr
                     query session_id context_chunks conversation_history) = Some a)).
  { intros query session_id context_chunks conversation_history.
    unfold generate_answer.
    destruct (generate _ _ _ _ _ _ _ query session_id context_chunks conversation_history)
      as [g|] eqn:G.
    - destruct (generate_facts _ _ _ _ _ G) as (B & L & Low & _ & T). now repeat split.
    - cbn [gen_confidence gen_kbReferences gen_answer List.length].
      split; [lra|]. split; [lia|]. split; [reflexivity|]. intros _. now eexists. }
  intros query session_id context_chunks conversation_history top_k.
  destruct (Main query session_id context_chunks conversation_history) as (B & L & Low & T).
  split; [exact B|]. split; [exact L|]. split; [exact Low|]. split; [|split; [exact T|]].
  - intros Cq. unfold generate_answer, generate. rewrite Cq. reflexivity.
  - unfold process_query. 
    destruct (Main query session_id
                   (retrieve vector_search kb_table query top_k) None) as (B' & L' & _).
    now split.
Qed.

End GeneratedAnswers.

Section SummaryCounts.
Import Db DateTime Metrics Tickets.
Local Open Scope Z_scope.

Lemma mem_In x l : mem x l = true <-> In x l.
Proof.
  unfold mem. rewrite existsb_exists. split.
  - intros [y [Hy E]]. apply String.eqb_eq in E. now subst.
  - intros H. exists x. split; [exact H | apply String.eqb_refl].
Qed.

Lemma distinct_facts values :
  forall seen,
    NoDup (distinct values seen) /\
    forall x, In x (distinct values seen) -> In x values /\ ~ In x seen.
Proof.
  induction values as [|v rest IH]; intros seen; cbn [distinct].
  - split; [constructor | intros x []].
  - destruct (mem v seen) eqn:E.
    + destruct (IH seen) as [N F]. split; [exact N|].
      intros x Hx. destruct (F x Hx) as [H1 H2]. split; [now right | exact H2].
    + destruct (IH (v :: seen)) as [N F]. split.
      * constructor; [|exact N]. intros Hv. destruct (F v Hv) as [_ H2]. apply H2. now left.
      * intros x [<-|Hx].
        -- split; [now left|]. intros Hin. apply mem_In in Hin. congruence.
        -- destruct (F x Hx) as [H1 H2]. split; [now right|].
           intros Hin. apply H2. now right.
Qed.

Lemma count_bounds {A} (p : A -> bool) (rows : list A) :
  0 <= count p rows <= Z.of_nat (List.length rows).
Proof.
  unfold count. assert (H := filter_length_le p rows). lia.
Qed.

Lemma tier_buckets (tickets : list Ticket) :
  count (fun k => String.eqb (ticket_tier k) "TIER_1") tickets
  + count (fun k => String.eqb (ticket_tier k) "TIER_2") tickets
  + count (fun k => String.eqb (ticket_tier k) "TIER_3") tickets
  <= Z.of_nat (List.length tickets) /\
  ((forall k, In k tickets -> Tier_of_value (ticket_tier k) <> None) ->
   count (fun k => String.eqb (ticket_tier k) "TIER_1") tickets
   + count (fun k => String.eqb (ticket_tier k) "TIER_2") tickets
   + count (fun k => String.eqb (ticket_tier k) "TIER_3") tickets
   = Z.of_nat (List.length tickets)).
Proof.
  induction tickets as [|k rest [IH1 IH2]].
  - split; [unfold count; simpl; lia | intros _; reflexivity].
  - rewrite !count_cons. cbn [List.length]. rewrite Nat2Z.inj_succ. split.
    + destruct (String.eqb_spec (ticket_tier k) "TIER_1") as [E|_];
        [rewrite E; cbn [String.eqb Ascii.eqb Bool.eqb andb]; lia|].
      destruct (String.eqb_spec (ticket_tier k) "TIER_2") as [E|_];
        [rewrite E; cbn [String.eqb Ascii.eqb Bool.eqb andb]; lia|].
      destruct (String.eqb (ticket_tier k) "TIER_3"); lia.
    + intros H.
      assert (Hrest : forall x, In x rest -> Tier_of_value (ticket_tier x) <> None)
        by (intros x Hx; apply H; now right).
      specialize (IH2 Hrest). specialize (H k (or_introl eq_refl)).
      unfold Tier_of_value in H.
      destruct (String.eqb_spec (ticket_tier k) "TIER_1") as [E|_];
        [rewrite E; cbn [String.eqb Ascii.eqb Bool.eqb andb]; lia|].
      destruct (String.eqb_spec (ticket_tier k) "TIER_2") as [E|_];
        [rewrite E; cbn [String.eqb Ascii.eqb Bool.eqb andb]; lia|].
      destruct (String.eqb (ticket_tier k) "TIER_3"); [lia | congruence].
Qed.

Lemma rate_bounds (a b : Z) :
  0 <= a <= b -> 0 < b ->
  (0 <= inject_Z a / inject_Z b * 100 <= 100)%Q.
Proof.
  intros [Ha Hab] Hb.
  assert (Qb : (0 < inject_Z b)%Q) by (change 0%Q with (inject_Z 0); now rewrite <- Zlt_Qlt).
  assert (Qa : (0 <= inject_Z a)%Q) by (change 0%Q with (inject_Z 0); now rewrite <- Zle_Qle).
  assert (Qab : (inject_Z a <= inject_Z b)%Q) by now rewrite <- Zle_Qle.
  assert (L : (0 <= inject_Z a / inject_Z b)%Q).
  { apply Qle_shift_div_l; [exact Qb|]. lra. }
  assert (U : (inject_Z a / inject_Z b <= 1)%Q).
  { apply Qle_shift_div_r; [exact Qb|]. lra. }
  set (x := (inject_Z a / inject_Z b)%Q) in *. clearbody x. lra.
Qed.

Lemma count_positive {A} (p : A -> bool) (rows : list A) (x : A) :
  In x rows -> p x = true -> 1 <= count p rows.
Proof.
  intros Hx Hp. induction rows as [|y rows IH]; [contradiction|].
  rewrite count_cons. destruct Hx as [->|Hx].
  - rewrite Hp. assert (H := count_bounds p rows). lia.
  - specialize (IH Hx). destruct (p y); lia.
Qed.

Lemma StronglySorted_map_key {A B} (f : A -> B) (ka : A -> Z) (kb : B -> Z) (l : list A) :
  (forall a, kb (f a) = ka a) ->
  StronglySorted (PyList.desc ka) l -> StronglySorted (PyList.desc kb) (map f l).
Proof.
  intros Hk. induction 1 as [|a l Hs IH Hall]; cbn [map]; constructor; [exact IH|].
  rewrite Forall_forall in *. intros y Hy. apply in_map_iff in Hy.
  destruct Hy as [x [<- Hx]]. unfold PyList.desc in *. rewrite !Hk. now apply Hall.
Qed.

(** X28. The counts of the summary agree with each other.  The tables
    being readable, the summary is returned, without changing anything.
    The three tier counts add up to at most the number of tickets, and
    to exactly that number when every ticket has a valid tier; the
    escalation count is the TIER_3 count; the guardrail activations are
    at most the number of logged events.  Without conversations the
    deflection rate is the rounding of 0; when every ticket belongs to
    the session of some conversation it is the rounding of a percentage
    between 0 and 100.  The most common issues are five at most, in
    descending count, each the first 50 characters of a ticket subject
    with the number of tickets of that subject. *)
Theorem metrics_summary_is_consistent :
  forall (round2 : Q -> Q) (s : Session),
    exists m : MetricsSummary,
      get_metrics_summary round2 s = (Return m, s) /\
      totalTickets m = Z.of_nat (List.length (tickets (view s))) /\
      get_count "TIER_1" (ticketsByTier m) + get_count "TIER_2" (ticketsByTier m)
      + get_count "TIER_3" (ticketsByTier m) <= totalTickets m /\
      ((forall k, In k (tickets (view s)) -> Tier_of_value (ticket_tier k) <> None) ->
       get_count "TIER_1" (ticketsByTier m) + get_count "TIER_2" (ticketsByTier m)
       + get_count "TIER_3" (ticketsByTier m) = totalTickets m) /\
      escalationCount m = get_count "TIER_3" (ticketsByTier m) /\
      0 <= escalationCount m <= totalTickets m /\
      0 <= guardrailActivations m <= Z.of_nat (List.length (guardrail_events (view s))) /\
      (conversations (view s) = [] -> deflectionRate m = round2 0.0%Q) /\
      (conversations (view s) <> [] ->
       (forall k, In k (tickets (view s)) ->
                  exists c, In c (conversations (view s)) /\
                            conv_session_id c = ticket_session_id k) ->
       exists rate : Q,
         deflectionRate m = round2 rate /\ (0 <= rate <= 100)%Q) /\
      (List.length (mostCommonIssues m) <= 5)%nat /\
      StronglySorted (PyList.desc snd) (mostCommonIssues m) /\
      forall issue : string * Z,
        In issue (mostCommonIssues m) ->
        (String.length (fst issue) <= 50)%nat /\
        exists k : Ticket,
          In k (tickets (view s)) /\
          fst issue = PyStr.slice_to 50 (ticket_subject k) /\
          snd issue = count (fun x => String.eqb (ticket_subject x) (ticket_subject k))
                            (tickets (view s)) /\
          1 <= snd issue.
Proof.
  intros round2 s. unfold get_metrics_summary. db_unfold.
  eexists. split; [reflexivity|].
  cbn [totalTickets ticketsByTier escalationCount guardrailActivations deflectionRate
       mostCommonIssues].
  destruct (tier_buckets (tickets (view s))) as [B1 B2].
  split; [reflexivity|].
  split; [cbn [map get_count String.eqb Ascii.eqb Bool.eqb andb]; exact B1|].
  split; [cbn [map get_count String.eqb Ascii.eqb Bool.eqb andb]; exact B2|].
  split; [reflexivity|].
  split; [cbn [map get_count String.eqb Ascii.eqb Bool.eqb andb]; apply count_bounds|].
  split; [apply count_bounds|].
  split; [|split; [|split; [|split; [|]]]].
  - intros ->. reflexivity.
  - intros Hne Hall.
    destruct (conversations (view s)) as [|c0 convs] eqn:C; [contradiction|].
    assert (Pos : (0 <? Z.of_nat (List.length (c0 :: convs))) = true)
      by (apply Z.ltb_lt; cbn [List.length]; lia).
    rewrite Pos. eexists. split; [reflexivity|].
    apply rate_bounds; [|cbn [List.length]; lia].
    destruct (distinct_facts (map ticket_session_id (tickets (view s))) []) as [N F].
    assert (I : incl (distinct (map ticket_session_id (tickets (view s))) [])
                     (map conv_session_id (c0 :: convs))).
    { intros x Hx. destruct (F x Hx) as [Hx' _].
      apply in_map_iff in Hx'. destruct Hx' as [k [<- Hk]].
      destruct (Hall k Hk) as [c [Hc E]]. apply in_map_iff. now exists c. }
    assert (L := NoDup_incl_length N I). rewrite length_map in L. lia.
  - rewrite length_map, length_firstn. lia.
  - apply (StronglySorted_map_key _ snd snd); [reflexivity|].
    apply StronglySorted_firstn. unfold issue_counts. apply sort_desc_sorted.
  - intros issue Hi. apply in_map_iff in Hi. destruct Hi as [[subject n] [<- Hg]].
    cbn [fst snd]. split; [apply length_take|].
    apply in_firstn in Hg. unfold issue_counts in Hg.
    apply (Permutation_in _ (sort_desc_perm _ _)) in Hg.
    apply in_map_iff in Hg. destruct Hg as [subject' [E Hd]].
    injection E as <- <-.
    destruct (distinct_facts (map ticket_subject (tickets (view s))) []) as [_ F].
    destruct (F _ Hd) as [Hin _]. apply in_map_iff in Hin. destruct Hin as [k [<- Hk]].
    exists k. repeat split; [exact Hk|].
    apply (count_positive _ _ k Hk). apply String.eqb_refl.
Qed.

End SummaryCounts.

Section TicketInvariant.
Import PyList Db Escalation Tickets.

Lemma to_response_any_session ticket s r s0 :
  to_response ticket s = (Return r, s) -> to_response ticket s0 = (Return r, s0).
Proof.
  intros H.
  destruct (to_response_inv _ _ _ _ H) as (_ & T & V & St & E1 & E2 & E3 & E4 & E5 & E6).
  rewrite (to_response_ok _ _ _ _ s0 T V St).
  destruct r. cbn in *. congruence.
Qed.

Lemma with_status_presentable status now ticket st r s :
  TicketStatus_of_value status = Some st ->
  to_response ticket s = (Return r, s) ->
  exists r', to_response (with_status status now ticket) s = (Return r', s).
Proof.
  intros V H.
  destruct (to_response_inv _ _ _ _ H) as (_ & T & Sv & _).
  eexists. apply to_response_ok.
  - unfold with_status. destruct (String.eqb _ _); exact T.
  - unfold with_status. destruct (String.eqb _ _); exact Sv.
  - rewrite with_status_status. exact V.
Qed.

Lemma get_tickets_ok session_id status limit s :
  (forall k, In k (tickets (view s)) -> exists r, to_response k s = (Return r, s)) ->
  exists listed, get_tickets session_id status limit s = (Return listed, s).
Proof.
  intros H.
  destruct (responses_ok
              (firstn limit
                 (sort_desc ticket_created_at
                    (filter (ticket_filter session_id status) (tickets (view s))))) s)
    as [rs [Hrs _]].
  - intros k Hk. apply H. apply in_firstn in Hk.
    apply (Permutation_in _ (sort_desc_perm _ _)) in Hk.
    now apply filter_In in Hk.
  - exists rs. unfold get_tickets. db_unfold. now rewrite Hrs.
Qed.

(** X29. The ticket endpoints keep every ticket presentable.  If every
    ticket of the session has valid tier, severity and status values,
    this still holds after a successful [create_ticket] and after a
    successful [update_ticket_status], for the stored tickets too; so
    the listing of the tickets then succeeds, with any filter and
    limit. *)
Theorem ticket_endpoints_keep_tickets_presentable :
  forall (s : Session),
    (forall k : Ticket,
        In k (tickets (view s)) -> exists r, to_response k s = (Return r, s)) ->
    (forall (session_id conversation_id subject description : string)
            (tier : Tier) (severity : Severity) (user_role : string)
            (ticket : Ticket) (s' : Session),
        create_ticket session_id conversation_id subject description
                      tier severity user_role s = (Return ticket, s') ->
        stored s' = view s' /\
        (forall k : Ticket,
            In k (tickets (view s')) -> exists r, to_response k s' = (Return r, s')) /\
        forall (wanted_session wanted_status : option string) (limit : nat),
          exists listed : list TicketResponse,
            get_tickets wanted_session wanted_status limit s' = (Return listed, s')) /\
    (forall (id status : string) (updated : StatusUpdated) (s' : Session),
        update_ticket_status id status s = (Return updated, s') ->
        stored s' = view s' /\
        (forall k : Ticket,
            In k (tickets (view s')) -> exists r, to_response k s' = (Return r, s')) /\
        forall (wanted_session wanted_status : option string) (limit : nat),
          exists listed : list TicketResponse,
            get_tickets wanted_session wanted_status limit s' = (Return listed, s')).
Proof.
  intros s H. split.
  - intros session_id conversation_id subject description tier severity user_role
           ticket s' C.
    assert (P : stored s' = view s' /\
                forall k, In k (tickets (view s')) ->
                          exists r, to_response k s' = (Return r, s')).
    { unfold create_ticket in C. revert C. db_unfold. unfold commit. db_unfold.
      destruct (faults s) as [|[m|] rest]; db_unfold; intros C;
        try discriminate; injection C as <- <-; cbn [stored view tickets];
        (split; [reflexivity|]);
        intros k Hk; apply in_app_or in Hk;
        (destruct Hk as [Hk|[<-|[]]];
         [ destruct (H k Hk) as [r Hr]; exists r;
           now apply (to_response_any_session _ s)
         | eexists; apply to_response_ok; cbn [ticket_tier ticket_severity ticket_status];
           [apply Tier_of_value_value | apply Severity_of_value_value | reflexivity] ]). }
    destruct P as [P1 P2]. split; [exact P1|]. split; [exact P2|].
    intros ws wst limit. now apply get_tickets_ok.
  - intros id status updated s' U.
    assert (P : stored s' = view s' /\
                forall k, In k (tickets (view s')) ->
                          exists r, to_response k s' = (Return r, s')).
    { unfold update_ticket_status, reraise_http, ticket_by_id in U. revert U. db_unfold.
      destruct (List.find _ (tickets (view s))) as [ticket|]; [|discriminate].
      destruct (TicketStatus_of_value (upper status)) as [st|] eqn:V; [|discriminate].
      db_unfold. unfold commit. db_unfold.
      destruct (faults s) as [|[m|] rest]; db_unfold; intros U;
        try discriminate; injection U as _ <-; cbn [stored view tickets];
        (split; [reflexivity|]);
        intros k Hk; unfold update_where in Hk; apply in_map_iff in Hk;
        destruct Hk as [x [<- Hx]]; destruct (H x Hx) as [r Hr];
        (destruct (String.eqb (ticket_id x) (ticket_id ticket));
         [ destruct (with_status_presentable (upper status) (clock s) x st r s V Hr)
             as [r' Hr'];
           exists r'; now apply (to_response_any_session _ s)
         | exists r; now apply (to_response_any_session _ s) ]). }
    destruct P as [P1 P2]. split; [exact P1|]. split; [exact P2|].
    intros ws wst limit. now apply get_tickets_ok.
Qed.

Lemma ticket_endpoints_witness :
  (forall (session_id conversation_id subject description : string)
          (tier : Tier) (severity : Severity) (user_role : string)
          (ticket : Ticket) (s' : Session),
      create_ticket session_id conversation_id subject description
                    tier severity user_role sample_session = (Return ticket, s') ->
      stored s' = view s' /\
      (forall k : Ticket,
          In k (tickets (view s')) -> exists r, to_response k s' = (Return r, s')) /\
      forall (wanted_session wanted_status : option string) (limit : nat),
        exists listed : list TicketResponse,
          get_tickets wanted_session wanted_status limit s' = (Return listed, s')) /\
  (forall (id status : string) (updated : StatusUpdated) (s' : Session),
      update_ticket_status id status sample_session = (Return updated, s') ->
      stored s' = view s' /\
      (forall k : Ticket,
          In k (tickets (view s')) -> exists r, to_response k s' = (Return r, s')) /\
      forall (wanted_session wanted_status : option string) (limit : nat),
        exists listed : list TicketResponse,
          get_tickets wanted_session wanted_status limit s' = (Return listed, s')).
Proof.
  apply (ticket_endpoints_keep_tickets_presentable sample_session).
  intros k [<-|[]]. eexists. reflexivity.
Defined.

End TicketInvariant.

Section Retrieval.
Import PyList Num Db KeywordSearch KbConflict RagGenerate.
Local Open Scope Q_scope.

Variable vector_search : string -> Z -> option (list chunk).
Variable kb_table : option (list KBChunk).

Lemma keyword_entry_distance table query top_k e :
  In e (_keyword_search table query top_k) -> sc_distance e <= 0.9.
Proof.
  unfold _keyword_search. destruct table as [all_chunks|]; [|intros []].
  intros He.
  destruct (slice_to_firstn top_k
              (sort_desc sc_score
                 (filter (fun e => (0 <? sc_score e)%Z) (map (entry query) all_chunks))))
    as [n En].
  rewrite En in He. apply in_firstn in He.
  apply (Permutation_in _ (sort_desc_perm _ _)) in He.
  apply filter_In in He. destruct He as [He Hs].
  apply in_map_iff in He. destruct He as [chunk [<- Hc]].
  apply Z.ltb_lt in Hs. unfold entry, scored in *. cbn [sc_score sc_distance] in *.
  destruct (chunk_score_positive _ _ Hs) as [H2 _].
  assert (Q2 : 2 <= inject_Z (chunk_score (query_words query) chunk))
    by now apply inject_Z_le_2.
  unfold Qdiv. set (q := inject_Z (chunk_score (query_words query) chunk)) in *.
  clearbody q. cbn [Qinv Qnum Qden]. lra.
Qed.

Lemma distance_of_to_chunk e : distance_of (to_chunk e) = Some (sc_distance e).
Proof. reflexivity. Qed.

Lemma within_threshold_facts chunks :
  forall relevant,
    within_threshold chunks = Some relevant ->
    forall c, In c relevant ->
      In c chunks /\ exists d, distance_of c = Some d /\ d < 0.9.
Proof.
  induction chunks as [|c0 rest IH]; intros relevant; cbn [within_threshold].
  - intros H. injection H as <-. intros c [].
  - destruct (distance_of c0) as [d|] eqn:D; [|discriminate].
    destruct (within_threshold rest) as [kept|]; [|discriminate].
    intros H. injection H as <-. specialize (IH kept eq_refl).
    destruct (Qltb d 0.9) eqn:L.
    + intros c [<-|Hc].
      * split; [now left|]. exists d. split; [exact D | now apply Qltb_lt].
      * destruct (IH c Hc) as [Hin Hd]. split; [now right | exact Hd].
    + intros c Hc. destruct (IH c Hc) as [Hin Hd]. split; [now right | exact Hd].
Qed.

(** X30. What retrieval returns.  Every retrieved chunk has a numeric
    distance of at most 0.9, on both paths.  When the embedding-based
    search works and gives numeric distances, the result is made of its
    chunks below the threshold 0.9 and the keyword search is not used;
    when it raises, the result is the keyword search's. *)
Theorem retrieved_chunks_are_within_distance :
  forall (query : string) (top_k : Z),
    (forall c : chunk,
        In c (retrieve vector_search kb_table query top_k) ->
        exists d : Q, distance_of c = Some d /\ d <= 0.9) /\
    (forall chunks relevant : list chunk,
        vector_search query top_k = Some chunks ->
        within_threshold chunks = Some relevant ->
        retrieve vector_search kb_table query top_k = relevant /\
        forall c : chunk,
          In c relevant ->
          In c chunks /\ exists d : Q, distance_of c = Some d /\ d < 0.9) /\
    (vector_search query top_k = None ->
     retrieve vector_search kb_table query top_k
     = map to_chunk (_keyword_search kb_table query top_k)).
Proof.
  intros query top_k. unfold retrieve.
  assert (Fallback : forall c,
             In c (map to_chunk (_keyword_search kb_table query top_k)) ->
             exists d, distance_of c = Some d /\ d <= 0.9).
  { intros c Hc. apply in_map_iff in Hc. destruct Hc as [e [<- He]].
    exists (sc_distance e). split; [apply distance_of_to_chunk|].
    now apply (keyword_entry_distance kb_table query top_k). }
  split; [|split].
  - destruct (vector_search query top_k) as [chunks|]; [|exact Fallback].
    destruct (within_threshold chunks) as [relevant|] eqn:W; [|exact Fallback].
    intros c Hc. destruct (within_threshold_facts _ _ W c Hc) as [_ [d [Hd Hlt]]].
    exists d. split; [exact Hd | lra].
  - intros chunks relevant -> W. rewrite W. split; [reflexivity|].
    now apply within_threshold_facts.
  - intros ->. reflexivity.
Qed.

End Retrieval.
